(** * Facebook Ads MCP server: parameter normalisation, account resolution
      and pagination draining

    A shallow embedding of the core of [server.py]: the helpers
    [_normalize_act_id], [_set_default_ad_account],
    [_ensure_default_ad_account_from_config_sources], [_get_fb_access_token],
    [_get_default_ad_account], [_resolve_act_id], [_prepare_params],
    [_build_insights_params] and the tools [set_access_token],
    [list_ad_accounts], [get_adaccount_insights], [get_campaign_insights],
    [get_adset_insights], [get_ad_insights].

    Python values are modelled by the type [value]; dictionaries are
    insertion-ordered association lists; the module globals are the fields
    of a [state] record threaded through a state-and-exception monad; the
    HTTP client, [json.dumps] and [str] on containers are the fields of the
    [Runtime] class. *)

From Stdlib Require Import String Ascii List Bool ZArith NArith Lia.
From Stdlib Require Import DecimalString.
Import ListNotations.
Local Open Scope list_scope.
Local Open Scope string_scope.

(* ===================================================================== *)
(** ** Python strings *)
(* ===================================================================== *)

Module PyStr.

(** A character is a code point below 256.  [is_space] is [str.isspace]
    on that range: TAB..CR, FS..US, SPACE, NEL and NBSP. *)
Definition is_space (c : ascii) : bool :=
  let n := N_of_ascii c in
  (((9 <=? n) && (n <=? 13)) || ((28 <=? n) && (n <=? 32))
   || (n =? 133) || (n =? 160))%N.

Definition is_empty (s : string) : bool :=
  match s with EmptyString => true | String _ _ => false end.

Fixpoint lstrip (s : string) : string :=
  match s with
  | EmptyString => EmptyString
  | String c s' => if is_space c then lstrip s' else s
  end.

Fixpoint rstrip (s : string) : string :=
  match s with
  | EmptyString => EmptyString
  | String c s' =>
      let r := rstrip s' in
      if is_space c && is_empty r then EmptyString else String c r
  end.

(** [s.strip()] *)
Definition strip (s : string) : string := rstrip (lstrip s).

(** [s.startswith(p)] *)
Definition startswith (s p : string) : bool := String.prefix p s.

(** [sep.join(l)] for a list of strings. *)
Fixpoint join (sep : string) (l : list string) : string :=
  match l with
  | [] => ""
  | [x] => x
  | x :: rest => x ++ sep ++ join sep rest
  end.

(** [list(s)]: the one-character strings of [s]. *)
Fixpoint chars (s : string) : list string :=
  match s with
  | EmptyString => []
  | String c s' => String c EmptyString :: chars s'
  end.

(** [str(n)] for an integer. *)
Definition of_Z (n : Z) : string := NilZero.string_of_int (Z.to_int n).

End PyStr.

(* ===================================================================== *)
(** ** Python values and dictionaries *)
(* ===================================================================== *)

(** The values that flow through the server: what [json] decoding yields
    and what tool arguments hold.  Integers are unbounded; floating-point
    numbers are not modelled. *)
#[local] Set Warnings "-register-all".
Inductive value : Type :=
| VNone
| VBool (b : bool)
| VInt (n : Z)
| VStr (s : string)
| VList (l : list value)
| VDict (d : list (string * value)).

(** A [dict] with string keys, in insertion order.  A Python dict holds
    each key once; the operations below keep that invariant. *)
Definition dict : Type := list (string * value).

Module Dict.

(** [d.get(k)], [None] of the option type standing for a missing key. *)
Fixpoint get (d : dict) (k : string) : option value :=
  match d with
  | [] => None
  | (k', v) :: d' => if String.eqb k' k then Some v else get d' k
  end.

(** [d[k] = v]: an existing key keeps its place, a new one goes last. *)
Fixpoint set (d : dict) (k : string) (v : value) : dict :=
  match d with
  | [] => [(k, v)]
  | (k', v') :: d' =>
      if String.eqb k' k then (k', v) :: d' else (k', v') :: set d' k v
  end.

(** [d.pop(k, None)] *)
Definition pop (d : dict) (k : string) : dict :=
  filter (fun kv => negb (String.eqb (fst kv) k)) d.

(** [d.get(k)] and [d.get(k, dflt)] as Python values. *)
Definition get_default (d : dict) (k : string) (dflt : value) : value :=
  match get d k with Some v => v | None => dflt end.

Definition get_none (d : dict) (k : string) : value := get_default d k VNone.

Definition keys (d : dict) : list string := map fst d.

End Dict.

Module Py.

(** Truth value of an object, as tested by [if x:] and [while x:]. *)
Definition truthy (v : value) : bool :=
  match v with
  | VNone => false
  | VBool b => b
  | VInt n => negb (Z.eqb n 0)
  | VStr s => negb (PyStr.is_empty s)
  | VList l => match l with [] => false | _ => true end
  | VDict d => match d with [] => false | _ => true end
  end.

Definition is_none (v : value) : bool :=
  match v with VNone => true | _ => false end.

Definition is_str (v : value) : bool :=
  match v with VStr _ => true | _ => false end.

Definition is_list (v : value) : bool :=
  match v with VList _ => true | _ => false end.

Definition is_dict (v : value) : bool :=
  match v with VDict _ => true | _ => false end.

(** [isinstance(v, str) and v.strip()]: the stripped text when [v] is a
    string that is not blank. *)
Definition nonblank (v : value) : option string :=
  match v with
  | VStr s => if PyStr.is_empty (PyStr.strip s) then None else Some (PyStr.strip s)
  | _ => None
  end.

(** Hashable objects: everything but lists and dicts. *)
Definition hashable (v : value) : bool :=
  match v with VList _ | VDict _ => false | _ => true end.

(** [a == b] on hashable objects; [True == 1] and [False == 0] hold in
    Python, and so they do as members of a [set]. *)
Definition eqb (a b : value) : bool :=
  match a, b with
  | VNone, VNone => true
  | VBool x, VBool y => Bool.eqb x y
  | VInt x, VInt y => Z.eqb x y
  | VBool x, VInt y | VInt y, VBool x => Z.eqb (if x then 1 else 0) y
  | VStr x, VStr y => String.eqb x y
  | _, _ => false
  end.

(** [v != 'text'] *)
Definition neq_str (v : value) (text : string) : bool :=
  match v with VStr s => negb (String.eqb s text) | _ => true end.

(** [x in l] for a list of strings. *)
Definition mem (x : string) (l : list string) : bool :=
  existsb (String.eqb x) l.

(** [l.index(x)] when [x in l]. *)
Fixpoint index (x : string) (l : list string) : option nat :=
  match l with
  | [] => None
  | y :: l' => if String.eqb y x then Some 0
               else option_map S (index x l')
  end.

End Py.

(* ===================================================================== *)
(** ** Exceptions and the state monad *)
(* ===================================================================== *)

(** Exceptions by class.  The ones the server raises itself carry their
    message; [TypeError] and [AttributeError] come from the interpreter and
    [RequestException] from the HTTP client. *)
Inductive exn : Type :=
| ValueError (msg : string)
| Exception (msg : string)
| TypeError
| AttributeError
| RequestException (msg : string).

(** The outcome of a call: a value, a raised exception, or a loop that
    did not finish within the fuel it was given. *)
Inductive outcome (A : Type) : Type :=
| Ok (a : A)
| Raise (e : exn)
| OutOfFuel.
Arguments Ok {A} a.
Arguments Raise {A} e.
Arguments OutOfFuel {A}.

(** What an HTTP exchange comes to: the decoded body, or a failure of the
    client (no connection, a status that is not 2xx, a body that is no
    JSON), which [requests] raises as a [RequestException]. *)
Inductive reply : Type :=
| Body (v : value)
| Failed (msg : string).

(** What the server asks of its surroundings: the HTTP client, the JSON
    encoder and [str] on containers. *)
Class Runtime : Type := {
  (** the remote side and whatever the client remembers of it *)
  World : Type;
  (** [requests.get(url, params=params)], [raise_for_status()], [.json()] *)
  requests_get : value -> option dict -> World -> reply * World;
  (** [json.dumps] *)
  json_dumps : value -> string;
  (** [str] of a list or a dict *)
  py_repr : value -> string
}.

(** The process the server runs in: [_load_config_from_env()] (the decoded
    [MCP_CONFIG] variable, [{}] when unset or malformed), [os.environ] and
    [sys.argv]. *)
Record process : Type := mkProcess {
  MCP_CONFIG : value;
  environ : list (string * string);
  argv : list string
}.

Definition os_environ_get (p : process) (name : string) : option string :=
  match find (fun kv => String.eqb (fst kv) name) (environ p) with
  | Some kv => Some (snd kv)
  | None => None
  end.

Section Monad.
Context {R : Runtime}.

(** The module globals and the world behind the HTTP client. *)
Record state : Type := mkState {
  FB_ACCESS_TOKEN : value;
  DEFAULT_AD_ACCOUNT : value;
  world : World
}.

Definition M (A : Type) : Type := state -> outcome A * state.

Definition ret {A} (a : A) : M A := fun st => (Ok a, st).

Definition raise {A} (e : exn) : M A := fun st => (Raise e, st).

Definition bind {A B} (m : M A) (k : A -> M B) : M B :=
  fun st =>
    match m st with
    | (Ok a, st') => k a st'
    | (Raise e, st') => (Raise e, st')
    | (OutOfFuel, st') => (OutOfFuel, st')
    end.

Definition lift {A} (r : outcome A) : M A := fun st => (r, st).

Definition get_token : M value := fun st => (Ok (FB_ACCESS_TOKEN st), st).

Definition get_default_account : M value :=
  fun st => (Ok (DEFAULT_AD_ACCOUNT st), st).

Definition set_token (t : value) : M unit :=
  fun st => (Ok tt, mkState t (DEFAULT_AD_ACCOUNT st) (world st)).

Definition set_default_account (a : value) : M unit :=
  fun st => (Ok tt, mkState (FB_ACCESS_TOKEN st) a (world st)).

(** One HTTP exchange. *)
Definition http (url : value) (params : option dict) : M value :=
  fun st =>
    let (r, w) := requests_get url params (world st) in
    (match r with
     | Body v => Ok v
     | Failed msg => Raise (RequestException msg)
     end,
     mkState (FB_ACCESS_TOKEN st) (DEFAULT_AD_ACCOUNT st) w).

End Monad.

Declare Scope py_scope.
Delimit Scope py_scope with py.
Notation "x <- m ;; k" := (bind m (fun x => k))
  (at level 61, m at next level, right associativity) : py_scope.
Notation "m ;; k" := (bind m (fun _ => k))
  (at level 61, right associativity) : py_scope.
Local Open Scope py_scope.

(* ===================================================================== *)
(** ** The server *)
(* ===================================================================== *)

Definition FB_API_VERSION : string := "v22.0".
Definition FB_GRAPH_URL : string := "https://graph.facebook.com/" ++ FB_API_VERSION.

Section Server.
Context {R : Runtime}.
Variable proc : process.

(** [str(v)] *)
Definition py_str (v : value) : string :=
  match v with
  | VStr s => s
  | VInt n => PyStr.of_Z n
  | VBool true => "True"
  | VBool false => "False"
  | VNone => "None"
  | VList _ | VDict _ => py_repr v
  end.

(** [v.get(k)] on an object that may not be a dict. *)
Definition attr_get (v : value) (k : string) : outcome value :=
  match v with
  | VDict d => Ok (Dict.get_none d k)
  | _ => Raise AttributeError
  end.

(** *** Account identifiers (lines 254-261) *)

Definition _normalize_act_id (act_id : value) : outcome string :=
  let act_id_str := PyStr.strip (py_str act_id) in
  if PyStr.is_empty act_id_str
  then Raise (ValueError "Ad account ID cannot be empty.")
  else Ok (if PyStr.startswith act_id_str "act_" then act_id_str
           else "act_" ++ act_id_str).

(** *** The cached default account (lines 42-58) *)

Definition _set_default_ad_account (act_id act_name : value) : M bool :=
  match Py.nonblank act_id with
  | None => ret false
  | Some _ =>
      normalized_id <- lift (_normalize_act_id act_id) ;;
      let account := [("id", VStr normalized_id)] in
      set_default_account
        (VDict match Py.nonblank act_name with
               | Some name_str => Dict.set account "name" (VStr name_str)
               | None => account
               end) ;;
      ret true
  end.

(** *** Configuration sources (lines 61-130) *)

Definition _load_config_from_env : value := MCP_CONFIG proc.

(** The pair [(candidate_id, candidate_name)]. *)
Definition candidates : Type := (option string * option string)%type.

(** The [for key in (...)] loop with its [break]. *)
Fixpoint first_nonblank (mapping : dict) (aliases : list string) : option string :=
  match aliases with
  | [] => None
  | key :: rest =>
      match Py.nonblank (Dict.get_none mapping key) with
      | Some text => Some text
      | None => first_nonblank mapping rest
      end
  end.

Definition id_aliases : list string :=
  ["defaultActId"; "actId"; "default_ad_account_id"; "facebook_ad_account_id"].

Definition name_aliases : list string :=
  ["defaultActName"; "actName"; "default_ad_account_name";
   "facebook_ad_account_name"].

Definition _extract_from_mapping (mapping : value) (c : candidates) : candidates :=
  match mapping with
  | VDict m =>
      (match fst c with
       | None => first_nonblank m id_aliases
       | Some i => Some i
       end,
       match snd c with
       | None => first_nonblank m name_aliases
       | Some n => Some n
       end)
  | _ => c
  end.

(** Lines 102-105: the configuration blob, then its [user_config]. *)
Definition config_candidates : candidates :=
  let config := _load_config_from_env in
  let c := _extract_from_mapping config (None, None) in
  match config with
  | VDict d => _extract_from_mapping (Dict.get_none d "user_config") c
  | _ => c
  end.

(** Lines 107-113: [FB_DEFAULT_ACT_ID] and [FB_DEFAULT_ACT_NAME]. *)
Definition environ_candidates (c : candidates) : candidates :=
  match fst c with
  | Some _ => c
  | None =>
      match os_environ_get proc "FB_DEFAULT_ACT_ID" with
      | Some env_id =>
          if PyStr.is_empty (PyStr.strip env_id) then c
          else (Some (PyStr.strip env_id),
                match os_environ_get proc "FB_DEFAULT_ACT_NAME" with
                | Some env_name =>
                    if PyStr.is_empty (PyStr.strip env_name) then snd c
                    else Some (PyStr.strip env_name)
                | None => snd c
                end)
      | None => c
      end
  end.

(** Lines 115-125: [--default-act-id] and [--default-act-name]. *)
Definition argv_candidates (c : candidates) : outcome candidates :=
  match fst c with
  | Some _ => Ok c
  | None =>
      match Py.index "--default-act-id" (argv proc) with
      | None => Ok c
      | Some i =>
          match nth_error (argv proc) (i + 1) with
          | None =>
              Raise (Exception
                "--default-act-id argument provided but no value followed it")
          | Some id_value =>
              match Py.index "--default-act-name" (argv proc) with
              | None => Ok (Some id_value, snd c)
              | Some j =>
                  match nth_error (argv proc) (j + 1) with
                  | None =>
                      Raise (Exception
                        "--default-act-name argument provided but no value followed it")
                  | Some name_value => Ok (Some id_value, Some name_value)
                  end
              end
          end
      end
  end.

Definition opt_value (o : option string) : value :=
  match o with Some s => VStr s | None => VNone end.

Definition _ensure_default_ad_account_from_config_sources : M bool :=
  cached <- get_default_account ;;
  if negb (Py.is_none cached) then ret true
  else
    c <- lift (argv_candidates (environ_candidates config_candidates)) ;;
    if Py.truthy (opt_value (fst c))
    then _set_default_ad_account (opt_value (fst c)) (opt_value (snd c))
    else ret false.

(** *** The access token (lines 158-202) *)

Definition _ensure_fb_token_from_config : M bool :=
  current <- get_token ;;
  if Py.truthy current then ret true
  else
    let config := _load_config_from_env in
    let token := match config with
                 | VDict d => Dict.get_none d "fbToken"
                 | _ => VNone
                 end in
    if Py.truthy token then set_token token ;; ret true
    else ret false.

Definition _get_fb_access_token : M value :=
  current <- get_token ;;
  if Py.is_none current then
    from_config <- _ensure_fb_token_from_config ;;
    if from_config then get_token
    else
      match Py.index "--fb-token" (argv proc) with
      | Some i =>
          match nth_error (argv proc) (i + 1) with
          | Some token => set_token (VStr token) ;; get_token
          | None =>
              raise (Exception
                "--fb-token argument provided but no token value followed it")
          end
      | None =>
          raise (Exception
            "Facebook token must be provided via '--fb-token' command line argument")
      end
  else get_token.

(** *** HTTP (lines 275-286 and 1116-1142) *)

Definition _make_graph_api_call (url : string) (params : dict) : M value :=
  http (VStr url) (Some params).

Definition fetch_pagination_url (url : value) : M value :=
  http url None.

(** *** The default account (lines 205-251) *)

(** Lines 224-246: the account found in the [/me] response, if any. *)
Definition first_adaccount (result : value) : outcome (option dict) :=
  match result with
  | VDict r =>
      match Dict.get_none r "adaccounts" with
      | VDict section =>
          match Dict.get_none section "data" with
          | VList (VDict first_account :: _) => Ok (Some first_account)
          | _ => Ok None
          end
      | _ => Ok None
      end
  | _ => Raise AttributeError
  end.

Definition resolved_account_id (first_account : dict) : value :=
  let resolved_id := Dict.get_none first_account "id" in
  if Py.truthy resolved_id then resolved_id
  else
    let account_id := Dict.get_none first_account "account_id" in
    if Py.truthy account_id then
      let account_id_str := py_str account_id in
      VStr (if PyStr.startswith account_id_str "act_" then account_id_str
            else "act_" ++ account_id_str)
    else resolved_id.

(** Lines 216-246: ask the remote for the first account of the token. *)
Definition fetch_default_ad_account : M unit :=
  access_token <- _get_fb_access_token ;;
  let url := FB_GRAPH_URL ++ "/me" in
  let params := [("access_token", access_token);
                 ("fields", VStr "adaccounts.limit(1){id,account_id,name}")] in
  result <- _make_graph_api_call url params ;;
  found <- lift (first_adaccount result) ;;
  match found with
  | Some first_account =>
      let resolved_id := resolved_account_id first_account in
      if Py.truthy resolved_id then
        normalized <- lift (_normalize_act_id resolved_id) ;;
        set_default_account
          (VDict [("id", VStr normalized);
                  ("name", Dict.get_none first_account "name")])
      else ret tt
  | None => ret tt
  end.

Definition _get_default_ad_account (force_refresh : bool) : M value :=
  (if force_refresh then set_default_account VNone else ret tt) ;;
  cached <- get_default_account ;;
  (if Py.is_none cached
   then _ensure_default_ad_account_from_config_sources ;; ret tt
   else ret tt) ;;
  cached <- get_default_account ;;
  (if Py.is_none cached then fetch_default_ad_account else ret tt) ;;
  cached <- get_default_account ;;
  if Py.is_none cached
  then raise (ValueError
    "Unable to automatically determine a default ad account. Please specify an 'act_id'.")
  else ret cached.

(** *** Resolution (lines 264-273) *)

Definition _resolve_act_id (act_id : value) : M value :=
  if Py.truthy act_id then
    normalized <- lift (_normalize_act_id act_id) ;; ret (VStr normalized)
  else
    default_account <- _get_default_ad_account false ;;
    let resolved_id := match default_account with
                       | VDict d => Dict.get_none d "id"
                       | _ => VNone
                       end in
    if Py.truthy resolved_id then ret resolved_id
    else raise (ValueError
      "Unable to determine ad account ID. Provide 'act_id' explicitly.").

(** *** Query parameters (lines 289-309) *)

Definition json_encoded_keys : list string :=
  ["filtering"; "time_range"; "time_ranges"; "effective_status";
   "special_ad_categories"; "objective"; "buyer_guarantee_agreement_status"].

Definition comma_joined_keys : list string :=
  ["fields"; "action_attribution_windows"; "action_breakdowns"; "breakdowns"].

(** [','.join(items)]: every item has to be a string. *)
Fixpoint str_items (items : list value) : outcome (list string) :=
  match items with
  | [] => Ok []
  | VStr s :: rest =>
      match str_items rest with
      | Ok l => Ok (s :: l)
      | Raise e => Raise e
      | OutOfFuel => OutOfFuel
      end
  | _ :: _ => Raise TypeError
  end.

Definition comma_join (items : list value) : outcome string :=
  match str_items items with
  | Ok l => Ok (PyStr.join "," l)
  | Raise e => Raise e
  | OutOfFuel => OutOfFuel
  end.

(** The body of the [for key, value in kwargs.items()] loop. *)
Definition prepare_one (params : dict) (key : string) (v : value) : outcome dict :=
  if Py.is_none v then Ok params
  else if Py.mem key json_encoded_keys && (Py.is_list v || Py.is_dict v)
  then Ok (Dict.set params key (VStr (json_dumps v)))
  else
    match v with
    | VList items =>
        if Py.mem key comma_joined_keys then
          match comma_join items with
          | Ok joined => Ok (Dict.set params key (VStr joined))
          | Raise e => Raise e
          | OutOfFuel => OutOfFuel
          end
        else Ok (Dict.set params key v)
    | _ => Ok (Dict.set params key v)
    end.

Fixpoint _prepare_params (base_params : dict) (kwargs : list (string * value))
  : outcome dict :=
  match kwargs with
  | [] => Ok base_params
  | (key, v) :: rest =>
      match prepare_one base_params key v with
      | Ok params => _prepare_params params rest
      | Raise e => Raise e
      | OutOfFuel => OutOfFuel
      end
  end.

(** *** Insights parameters (lines 343-415) *)

(** The keyword arguments shared by the four insights tools. *)
Record insights_args : Type := mkInsightsArgs {
  fields : value;
  date_preset : value;
  time_range : value;
  time_ranges : value;
  time_increment : value;
  level : value;
  action_attribution_windows : value;
  action_breakdowns : value;
  action_report_time : value;
  breakdowns : value;
  default_summary : value;
  use_account_attribution_setting : value;
  use_unified_attribution_setting : value;
  filtering : value;
  sort : value;
  limit : value;
  after : value;
  before : value;
  offset : value;
  since : value;
  until : value;
  locale : value
}.

Definition set_if (cond : bool) (key : string) (v : value) (params : dict) : dict :=
  if cond then Dict.set params key v else params.

Definition _build_insights_params (params : dict) (a : insights_args)
  : outcome dict :=
  match _prepare_params params
          [("fields", fields a); ("level", level a);
           ("action_attribution_windows", action_attribution_windows a);
           ("action_breakdowns", action_breakdowns a);
           ("action_report_time", action_report_time a);
           ("breakdowns", breakdowns a); ("filtering", filtering a);
           ("sort", sort a); ("limit", limit a); ("after", after a);
           ("before", before a); ("offset", offset a); ("locale", locale a)]
  with
  | Ok params =>
      let time_params_provided :=
        Py.truthy (time_range a) || Py.truthy (time_ranges a)
        || Py.truthy (since a) || Py.truthy (until a) in
      let params := set_if (negb time_params_provided && Py.truthy (date_preset a))
                      "date_preset" (date_preset a) params in
      let params := set_if (Py.truthy (time_range a))
                      "time_range" (VStr (json_dumps (time_range a))) params in
      let params := set_if (Py.truthy (time_ranges a))
                      "time_ranges" (VStr (json_dumps (time_ranges a))) params in
      let params := set_if (Py.truthy (time_increment a)
                            && Py.neq_str (time_increment a) "all_days")
                      "time_increment" (time_increment a) params in
      let untimed := negb (Py.truthy (time_range a))
                     && negb (Py.truthy (time_ranges a)) in
      let params := set_if (untimed && Py.truthy (since a))
                      "since" (since a) params in
      let params := set_if (untimed && Py.truthy (until a))
                      "until" (until a) params in
      let params := set_if (Py.truthy (default_summary a))
                      "default_summary" (VStr "true") params in
      let params := set_if (Py.truthy (use_account_attribution_setting a))
                      "use_account_attribution_setting" (VStr "true") params in
      let params := set_if (Py.truthy (use_unified_attribution_setting a))
                      "use_unified_attribution_setting" (VStr "true") params in
      Ok params
  | Raise e => Raise e
  | OutOfFuel => OutOfFuel
  end.

(** The defaults of the tool signatures: [get_adaccount_insights] has
    [level='account'], the other three [level=None]. *)
Definition insights_defaults (default_level : value) : insights_args :=
  {| fields := VNone; date_preset := VStr "last_30d"; time_range := VNone;
     time_ranges := VNone; time_increment := VStr "all_days";
     level := default_level; action_attribution_windows := VNone;
     action_breakdowns := VNone; action_report_time := VNone;
     breakdowns := VNone; default_summary := VBool false;
     use_account_attribution_setting := VBool false;
     use_unified_attribution_setting := VBool true; filtering := VNone;
     sort := VNone; limit := VNone; after := VNone; before := VNone;
     offset := VNone; since := VNone; until := VNone; locale := VNone |}.

(** [level=effective_level] with every other argument passed on. *)
Definition with_level (a : insights_args) (effective_level : value) : insights_args :=
  {| fields := fields a; date_preset := date_preset a;
     time_range := time_range a; time_ranges := time_ranges a;
     time_increment := time_increment a; level := effective_level;
     action_attribution_windows := action_attribution_windows a;
     action_breakdowns := action_breakdowns a;
     action_report_time := action_report_time a;
     breakdowns := breakdowns a; default_summary := default_summary a;
     use_account_attribution_setting := use_account_attribution_setting a;
     use_unified_attribution_setting := use_unified_attribution_setting a;
     filtering := filtering a; sort := sort a; limit := limit a;
     after := after a; before := before a; offset := offset a;
     since := since a; until := until a; locale := locale a |}.

(** *** Tools: the token (lines 421-463) *)

Definition set_access_token (access_token act_id act_name : value) : M value :=
  match Py.nonblank access_token with
  | None => raise (ValueError "A non-empty Facebook access token must be provided.")
  | Some token =>
      set_token (VStr token) ;;
      set_default_account VNone ;;
      (if Py.truthy act_id
       then _set_default_ad_account act_id act_name ;; ret tt
       else ret tt) ;;
      let response := [("status", VStr "success");
                       ("access_token_configured", VBool true)] in
      cached <- get_default_account ;;
      ret (VDict (if Py.truthy cached
                  then Dict.set response "default_ad_account" cached
                  else response))
  end.

(** *** Draining pages (lines 490-497 and 708-715) *)

(** [x.get('paging', {}).get('next') if isinstance(x.get('paging'), dict)
    else None] *)
Definition next_of (envelope : dict) : value :=
  match Dict.get_none envelope "paging" with
  | VDict paging => Dict.get_none paging "next"
  | _ => VNone
  end.

(** The rows a fetched page adds: its [data] when that is a list. *)
Definition page_rows (page : value) : list value :=
  match page with
  | VDict d =>
      match Dict.get_default d "data" (VList []) with
      | VList rows => rows
      | _ => []
      end
  | _ => []
  end.

(** The [while next_url:] loop; [fuel] bounds the number of fetches. *)
Fixpoint drain_pages (fuel : nat) (rows : list value) (next_url : value)
  {struct fuel} : M (list value) :=
  if Py.truthy next_url then
    match fuel with
    | O => lift OutOfFuel
    | S fuel' =>
        page <- fetch_pagination_url next_url ;;
        let rows := (rows ++ page_rows page)%list in
        match page with
        | VDict d => drain_pages fuel' rows (next_of d)
        | _ => raise AttributeError
        end
    end
  else ret rows.

(** Lines 510-513 and 719-722: drop the stale cursors. *)
Definition strip_cursors (envelope : dict) : dict :=
  match Dict.get_none envelope "paging" with
  | VDict paging_section =>
      Dict.set envelope "paging"
        (VDict (Dict.pop (Dict.pop paging_section "next") "previous"))
  | _ => envelope
  end.

(** *** Tools: ad accounts (lines 466-515) *)

(** [list(x)] *)
Definition py_list (x : value) : outcome (list value) :=
  match x with
  | VList l => Ok l
  | VStr s => Ok (map VStr (PyStr.chars s))
  | VDict d => Ok (map VStr (Dict.keys d))
  | _ => Raise TypeError
  end.

(** [account.get('id') if isinstance(account, dict) else None] *)
Definition account_id_of (account : value) : value :=
  match account with
  | VDict d => Dict.get_none d "id"
  | _ => VNone
  end.

(** Lines 499-507, with [seen_ids] as the list of identifiers met so far. *)
Fixpoint dedup_accounts (seen_ids : list value) (accounts : list value)
  : outcome (list value) :=
  match accounts with
  | [] => Ok []
  | account :: rest =>
      let account_id := account_id_of account in
      let keep seen :=
        match dedup_accounts seen rest with
        | Ok deduped => Ok (account :: deduped)
        | Raise e => Raise e
        | OutOfFuel => OutOfFuel
        end in
      if Py.truthy account_id then
        if negb (Py.hashable account_id) then Raise TypeError
        else if existsb (Py.eqb account_id) seen_ids
             then dedup_accounts seen_ids rest
             else keep (account_id :: seen_ids)
      else keep seen_ids
  end.

(** Lines 477-483: the request for the first page. *)
Definition ad_accounts_request : M value :=
  access_token <- _get_fb_access_token ;;
  let url := FB_GRAPH_URL ++ "/me" in
  let params := [("access_token", access_token);
                 ("fields", VStr "adaccounts{name}")] in
  _make_graph_api_call url params.

(** Lines 485-515: the remaining pages, the de-duplication and the result. *)
Definition drain_accounts (fuel : nat) (result : value) : M value :=
  adaccounts_section <- lift (attr_get result "adaccounts") ;;
  match result, adaccounts_section with
  | VDict result_d, VDict section =>
      first_rows <- lift (py_list (Dict.get_default section "data" (VList []))) ;;
      aggregated_accounts <- drain_pages fuel first_rows (next_of section) ;;
      deduped_accounts <- lift (dedup_accounts [] aggregated_accounts) ;;
      let section := Dict.set section "data" (VList deduped_accounts) in
      ret (VDict (Dict.set result_d "adaccounts" (VDict (strip_cursors section))))
  | _, _ => ret result
  end.

Definition list_ad_accounts (fuel : nat) : M value :=
  result <- ad_accounts_request ;;
  drain_accounts fuel result.

(** *** Tools: insights (lines 540-1112) *)

(** Lines 674-705: the request for the first page. *)
Definition adaccount_insights_request (act_id : value) (a : insights_args)
  : M value :=
  access_token <- _get_fb_access_token ;;
  effective_act_id <- _resolve_act_id act_id ;;
  let url := FB_GRAPH_URL ++ "/" ++ py_str effective_act_id ++ "/insights" in
  params <- lift (_build_insights_params [("access_token", access_token)] a) ;;
  _make_graph_api_call url params.

(** Lines 707-724: the remaining pages and the envelope returned. *)
Definition drain_insights (fuel : nat) (initial_response : value) : M value :=
  match initial_response with
  | VDict envelope =>
      let all_rows := match Dict.get_none envelope "data" with
                      | VList rows => rows
                      | _ => []
                      end in
      all_rows <- drain_pages fuel all_rows (next_of envelope) ;;
      let envelope := Dict.set envelope "data" (VList all_rows) in
      ret (VDict (strip_cursors envelope))
  | _ => raise AttributeError
  end.

Definition get_adaccount_insights (fuel : nat) (act_id : value) (a : insights_args)
  : M value :=
  initial_response <- adaccount_insights_request act_id a ;;
  drain_insights fuel initial_response.

(** The body shared by [get_campaign_insights], [get_adset_insights] and
    [get_ad_insights], which differ in the default level only. *)
Definition object_insights (default_level : string) (object_id : string)
  (a : insights_args) : M value :=
  access_token <- _get_fb_access_token ;;
  let url := FB_GRAPH_URL ++ "/" ++ object_id ++ "/insights" in
  let effective_level :=
    if Py.truthy (level a) then level a else VStr default_level in
  params <- lift (_build_insights_params [("access_token", access_token)]
                    (with_level a effective_level)) ;;
  _make_graph_api_call url params.

Definition get_campaign_insights (campaign_id : string) (a : insights_args)
  : M value := object_insights "campaign" campaign_id a.

Definition get_adset_insights (adset_id : string) (a : insights_args)
  : M value := object_insights "adset" adset_id a.

Definition get_ad_insights (ad_id : string) (a : insights_args)
  : M value := object_insights "ad" ad_id a.

(** *** Nodes and edges (lines 312-340) *)

Definition _fetch_node (node_id : value) (kwargs : list (string * value))
  : M value :=
  access_token <- _get_fb_access_token ;;
  let url := FB_GRAPH_URL ++ "/" ++ py_str node_id in
  params <- lift (_prepare_params [("access_token", access_token)] kwargs) ;;
  _make_graph_api_call url params.

(** [d.update(other)] *)
Definition dict_update (d other : dict) : dict :=
  fold_left (fun acc kv => Dict.set acc (fst kv) (snd kv)) other d.

(** Lines 325-334: the time parameters of the [activities] edge. *)
Definition activity_time_params (time_range since until : value) : dict :=
  if Py.truthy time_range then [("time_range", time_range)]
  else
    let time_params := set_if (Py.truthy since) "since" since [] in
    set_if (Py.truthy until) "until" until time_params.

Definition _fetch_edge (parent_id : value) (edge_name : string)
  (kwargs : list (string * value)) : M value :=
  access_token <- _get_fb_access_token ;;
  let url := FB_GRAPH_URL ++ "/" ++ py_str parent_id ++ "/" ++ edge_name in
  let is_activities := String.eqb edge_name "activities" in
  let time_params :=
    if is_activities
    then activity_time_params (Dict.get_none kwargs "time_range")
           (Dict.get_none kwargs "since") (Dict.get_none kwargs "until")
    else [] in
  let kwargs :=
    if is_activities
    then Dict.pop (Dict.pop (Dict.pop kwargs "time_range") "since") "until"
    else kwargs in
  params <- lift (_prepare_params [("access_token", access_token)] kwargs) ;;
  timed <- lift (_prepare_params [] time_params) ;;
  _make_graph_api_call url (dict_update params timed).

(** *** Tools: account details (lines 518-535) *)

Definition DEFAULT_AD_ACCOUNT_FIELDS : list string :=
  ["name"; "business_name"; "age"; "account_status"; "balance";
   "amount_spent"; "attribution_spec"; "account_id"; "business";
   "business_city"; "brand_safety_content_filter_levels"; "currency";
   "created_time"; "id"].

Definition get_details_of_ad_account (act_id fields : value) : M value :=
  let effective_fields :=
    if Py.is_none fields then VList (map VStr DEFAULT_AD_ACCOUNT_FIELDS)
    else fields in
  effective_act_id <- _resolve_act_id act_id ;;
  _fetch_node effective_act_id [("fields", effective_fields)].

(** *** Tools: creatives, ads, ad sets, campaigns, activities
        (lines 1147-2626) *)

(** [','.join(x)] on an object of any kind: a string is joined character
    by character, a dict by its keys. *)
Definition py_join (x : value) : outcome string :=
  match x with
  | VList items => comma_join items
  | VStr s => Ok (PyStr.join "," (PyStr.chars s))
  | VDict d => Ok (PyStr.join "," (Dict.keys d))
  | _ => Raise TypeError
  end.

(** [params = {'access_token': access_token}] followed by
    [if fields: params['fields'] = ','.join(fields)], and then the rest of
    the parameters, none of which can fail. *)
Definition with_fields (access_token fields : value) (rest : dict -> dict)
  : outcome dict :=
  let params := [("access_token", access_token)] in
  if Py.truthy fields then
    match py_join fields with
    | Ok joined => Ok (rest (Dict.set params "fields" (VStr joined)))
    | Raise e => Raise e
    | OutOfFuel => OutOfFuel
    end
  else Ok (rest params).

(** [if x: params[key] = x] *)
Definition put (key : string) (x : value) (params : dict) : dict :=
  set_if (Py.truthy x) key x params.

(** [if x is not None: params[key] = x] *)
Definition put_given (key : string) (x : value) (params : dict) : dict :=
  set_if (negb (Py.is_none x)) key x params.

(** [if x: params[key] = json.dumps(x)] *)
Definition put_json (key : string) (x : value) (params : dict) : dict :=
  set_if (Py.truthy x) key (VStr (json_dumps x)) params.

(** A tool on an object: the token, the URL, the parameters, one call. *)
Definition object_tool (path : string) (build : value -> outcome dict)
  : M value :=
  access_token <- _get_fb_access_token ;;
  let url := FB_GRAPH_URL ++ "/" ++ path in
  params <- lift (build access_token) ;;
  _make_graph_api_call url params.

(** A tool on an edge of an ad account: the token, the account, the URL,
    the parameters, one call. *)
Definition account_tool (act_id : value) (edge : string)
  (build : value -> outcome dict) : M value :=
  access_token <- _get_fb_access_token ;;
  effective_act_id <- _resolve_act_id act_id ;;
  let url := FB_GRAPH_URL ++ "/" ++ py_str effective_act_id ++ "/" ++ edge in
  params <- lift (build access_token) ;;
  _make_graph_api_call url params.

(** Lines 1225-1239 *)
Definition get_ad_creative_by_id (creative_id : string)
  (fields thumbnail_width thumbnail_height : value) : M value :=
  object_tool creative_id (fun access_token =>
    with_fields access_token fields (fun params =>
      let params := put "thumbnail_width" thumbnail_width params in
      put "thumbnail_height" thumbnail_height params)).

(** Lines 1336-1357 *)
Definition get_ad_creatives_by_ad_id (ad_id : string)
  (fields limit after before date_format : value) : M value :=
  object_tool (ad_id ++ "/adcreatives") (fun access_token =>
    with_fields access_token fields (fun params =>
      let params := put_given "limit" limit params in
      let params := put "after" after params in
      let params := put "before" before params in
      put "date_format" date_format params)).

(** Lines 1407-1416 *)
Definition get_ad_by_id (ad_id : string) (fields : value) : M value :=
  object_tool ad_id (fun access_token =>
    with_fields access_token fields (fun params => params)).

(** The parameters of lines 1505-1534. *)
Definition ads_by_adaccount_params
  (fields filtering limit after before date_preset time_range updated_since
     effective_status access_token : value) : outcome dict :=
  with_fields access_token fields (fun params =>
    let params := put_json "filtering" filtering params in
    let params := put_given "limit" limit params in
    let params := put "after" after params in
    let params := put "before" before params in
    let params := put "date_preset" date_preset params in
    let params := put_json "time_range" time_range params in
    let params := put "updated_since" updated_since params in
    put_json "effective_status" effective_status params).

(** Lines 1502-1536 *)
Definition get_ads_by_adaccount
  (act_id fields filtering limit after before date_preset time_range
     updated_since effective_status : value) : M value :=
  account_tool act_id "ads"
    (ads_by_adaccount_params fields filtering limit after before date_preset
       time_range updated_since effective_status).

(** The parameters of lines 1609-1629 and 1709-1732. *)
Definition ads_by_parent_params
  (fields filtering limit after before effective_status date_format
     access_token : value) : outcome dict :=
  with_fields access_token fields (fun params =>
    let params := put_json "filtering" filtering params in
    let params := put_given "limit" limit params in
    let params := put "after" after params in
    let params := put "before" before params in
    let params := put_json "effective_status" effective_status params in
    put "date_format" date_format params).

(** Lines 1607-1631; the tool has no [date_format]. *)
Definition get_ads_by_campaign (campaign_id : string)
  (fields filtering limit after before effective_status : value) : M value :=
  object_tool (campaign_id ++ "/ads")
    (ads_by_parent_params fields filtering limit after before effective_status
       VNone).

(** Lines 1707-1734 *)
Definition get_ads_by_adset (adset_id : string)
  (fields filtering limit after before effective_status date_format : value)
  : M value :=
  object_tool (adset_id ++ "/ads")
    (ads_by_parent_params fields filtering limit after before effective_status
       date_format).

(** Lines 1815-1824 *)
Definition get_adset_by_id (adset_id : string) (fields : value) : M value :=
  object_tool adset_id (fun access_token =>
    with_fields access_token fields (fun params => params)).

(** The parameters of lines 1868-1877: [ids] is joined in the dict
    literal, before [fields]. *)
Definition adsets_by_ids_params (adset_ids fields date_format access_token : value)
  : outcome dict :=
  match py_join adset_ids with
  | Ok ids =>
      let params := [("access_token", access_token); ("ids", VStr ids)] in
      if Py.truthy fields then
        match py_join fields with
        | Ok joined =>
            Ok (put "date_format" date_format
                  (Dict.set params "fields" (VStr joined)))
        | Raise e => Raise e
        | OutOfFuel => OutOfFuel
        end
      else Ok (put "date_format" date_format params)
  | Raise e => Raise e
  | OutOfFuel => OutOfFuel
  end.

(** Lines 1866-1879: the URL is the bare [/]. *)
Definition get_adsets_by_ids (adset_ids fields date_format : value) : M value :=
  object_tool "" (adsets_by_ids_params adset_ids fields date_format).

(** The parameters of lines 1975-2007. *)
Definition adsets_by_adaccount_params
  (fields filtering limit after before date_preset time_range updated_since
     effective_status date_format access_token : value) : outcome dict :=
  with_fields access_token fields (fun params =>
    let params := put_json "filtering" filtering params in
    let params := put_given "limit" limit params in
    let params := put "after" after params in
    let params := put "before" before params in
    let params := put "date_preset" date_preset params in
    let params := put_json "time_range" time_range params in
    let params := put "updated_since" updated_since params in
    let params := put_json "effective_status" effective_status params in
    put "date_format" date_format params).

(** Lines 1972-2009 *)
Definition get_adsets_by_adaccount
  (act_id fields filtering limit after before date_preset time_range
     updated_since effective_status date_format : value) : M value :=
  account_tool act_id "adsets"
    (adsets_by_adaccount_params fields filtering limit after before date_preset
       time_range updated_since effective_status date_format).

(** Lines 2089-2116 *)
Definition get_adsets_by_campaign (campaign_id : string)
  (fields filtering limit after before effective_status date_format : value)
  : M value :=
  object_tool (campaign_id ++ "/adsets")
    (ads_by_parent_params fields filtering limit after before effective_status
       date_format).

(** Lines 2209-2221 *)
Definition get_campaign_by_id (campaign_id : string) (fields date_format : value)
  : M value :=
  object_tool campaign_id (fun access_token =>
    with_fields access_token fields (put "date_format" date_format)).

(** The parameters of lines 2342-2389. *)
Definition campaigns_by_adaccount_params
  (fields filtering limit after before date_preset time_range updated_since
     effective_status is_completed special_ad_categories objective
     buyer_guarantee_agreement_status date_format include_drafts
     access_token : value) : outcome dict :=
  with_fields access_token fields (fun params =>
    let params := put_json "filtering" filtering params in
    let params := put_given "limit" limit params in
    let params := put "after" after params in
    let params := put "before" before params in
    let params := put "date_preset" date_preset params in
    let params := put_json "time_range" time_range params in
    let params := put "updated_since" updated_since params in
    let params := put_json "effective_status" effective_status params in
    let params := put_given "is_completed" is_completed params in
    let params := put_json "special_ad_categories" special_ad_categories params in
    let params := put_json "objective" objective params in
    let params := put_json "buyer_guarantee_agreement_status"
                    buyer_guarantee_agreement_status params in
    let params := put "date_format" date_format params in
    put_given "include_drafts" include_drafts params).

(** Lines 2339-2391 *)
Definition get_campaigns_by_adaccount
  (act_id fields filtering limit after before date_preset time_range
     updated_since effective_status is_completed special_ad_categories
     objective buyer_guarantee_agreement_status date_format
     include_drafts : value) : M value :=
  account_tool act_id "campaigns"
    (campaigns_by_adaccount_params fields filtering limit after before
       date_preset time_range updated_since effective_status is_completed
       special_ad_categories objective buyer_guarantee_agreement_status
       date_format include_drafts).

(** The parameters of lines 2490-2513 and 2601-2624: [time_range] takes
    precedence over [since] and [until]. *)
Definition activities_params
  (fields limit after before time_range since until access_token : value)
  : outcome dict :=
  with_fields access_token fields (fun params =>
    let params := put_given "limit" limit params in
    let params := put "after" after params in
    let params := put "before" before params in
    if Py.truthy time_range
    then Dict.set params "time_range" (VStr (json_dumps time_range))
    else
      let params := put "since" since params in
      put "until" until params).

(** Lines 2487-2515 *)
Definition get_activities_by_adaccount
  (act_id fields limit after before time_range since until : value) : M value :=
  account_tool act_id "activities"
    (activities_params fields limit after before time_range since until).

(** Lines 2599-2626 *)
Definition get_activities_by_adset (adset_id : string)
  (fields limit after before time_range since until : value) : M value :=
  object_tool (adset_id ++ "/activities")
    (activities_params fields limit after before time_range since until).

End Server.

Arguments state R : clear implicits.
Arguments M R A : clear implicits.

(* ===================================================================== *)
(** ** A simulated remote *)
(* ===================================================================== *)

(** A runtime to run the server against: the remote is a table from URL to
    reply, and the world keeps the journal of the requests made. *)
Module Sim.

Record world : Type := mkWorld {
  routes : list (string * value);
  requests : list (value * option dict)
}.

Definition get (url : value) (params : option dict) (w : world)
  : reply * world :=
  let w' := mkWorld (routes w) (requests w ++ [(url, params)])%list in
  match url with
  | VStr u =>
      match find (fun r => String.eqb (fst r) u) (routes w) with
      | Some r => (Body (snd r), w')
      | None => (Failed "404 Client Error", w')
      end
  | _ => (Failed "Invalid URL", w')
  end.

Definition quote (s : string) : string :=
  let q := String (ascii_of_nat 34) EmptyString in q ++ s ++ q.

(** A JSON encoder for text that needs no escaping. *)
Fixpoint dumps (v : value) : string :=
  match v with
  | VNone => "null"
  | VBool true => "true"
  | VBool false => "false"
  | VInt n => PyStr.of_Z n
  | VStr s => quote s
  | VList l => "[" ++ PyStr.join ", " (map dumps l) ++ "]"
  | VDict d =>
      "{" ++ PyStr.join ", "
               (map (fun kv : string * value =>
                       let (k, x) := kv in quote k ++ ": " ++ dumps x) d)
          ++ "}"
  end.

Definition runtime : Runtime :=
  {| World := world; requests_get := get; json_dumps := dumps;
     py_repr := dumps |}.

(** A process with no configuration at all. *)
Definition bare : process := mkProcess (VDict []) [] ["server.py"].

Definition remote (table : list (string * value)) : world := mkWorld table [].

(** A session that holds a token and no default account. *)
Definition session (table : list (string * value)) : state runtime :=
  @mkState runtime (VStr "TOKEN") VNone (remote table).

End Sim.

(* ===================================================================== *)
(** ** Reference notions for the properties *)
(* ===================================================================== *)

(** The canonical form of a stripped account identifier. *)
Definition canonical (t : string) : string :=
  if PyStr.startswith t "act_" then t else "act_" ++ t.

(** The default account [set_access_token] leaves behind. *)
Definition seeded_account (act_id act_name : value) : value :=
  match Py.nonblank act_id with
  | Some a =>
      VDict (("id", VStr (canonical a))
             :: match Py.nonblank act_name with
                | Some n => [("name", VStr n)]
                | None => []
                end)
  | None => VNone
  end.

Section Reference.
Context {R : Runtime}.

(** The strings of a list, as [','.join] takes them. *)
Definition texts (items : list value) : list string :=
  flat_map (fun x => match x with VStr s => [s] | _ => [] end) items.

(** The wire form of an argument, by the encoding table of the parameter
    normaliser: comma-joined lists, JSON-encoded lists and mappings, and
    everything else as it is. *)
Definition wire_encoding (key : string) (v : value) : value :=
  match v with
  | VList items =>
      if Py.mem key comma_joined_keys then VStr (PyStr.join "," (texts items))
      else if Py.mem key json_encoded_keys then VStr (json_dumps v)
      else v
  | VDict _ =>
      if Py.mem key json_encoded_keys then VStr (json_dumps v) else v
  | _ => v
  end.

(** Every list bound to a comma-joined key holds strings only. *)
Definition joinable (kwargs : list (string * value)) : Prop :=
  forall key items,
    In (key, VList items) kwargs -> Py.mem key comma_joined_keys = true ->
    Forall (fun x => Py.is_str x = true) items.

(** The keys of the time window of an insights request. *)
Definition time_keys : list string :=
  ["date_preset"; "time_range"; "time_ranges"; "time_increment"; "since";
   "until"].

End Reference.

Section Pages.
Context {R : Runtime}.

(** [follows next st pages st']: starting in state [st] with the cursor
    [next], the remote serves the envelopes [pages] one after the other,
    each reached through the [paging.next] of the one before, the last of
    them carrying no cursor; [st'] is the state after the last fetch. *)
Inductive follows : value -> state R -> list value -> state R -> Prop :=
| follows_end (next : value) (st : state R) :
    Py.truthy next = false -> follows next st [] st
| follows_page (next : value) (st : state R) (page : dict) (st1 : state R)
    (pages : list value) (st2 : state R) :
    Py.truthy next = true ->
    fetch_pagination_url next st = (Ok (VDict page), st1) ->
    follows (next_of page) st1 pages st2 ->
    follows next st (VDict page :: pages) st2.

(** The rows of a run of pages, in fetch order. *)
Definition all_rows (pages : list value) : list value :=
  concat (map page_rows pages).

(** A paging object, when there is one, holds no cursor to follow. *)
Definition cursors_stripped (envelope : dict) : Prop :=
  forall paging, Dict.get envelope "paging" = Some (VDict paging) ->
    Dict.get paging "next" = None /\ Dict.get paging "previous" = None.

(** The [data] of an envelope is a list, or is missing. *)
Definition data_listed (envelope : dict) : Prop :=
  Dict.get envelope "data" = None
  \/ exists rows, Dict.get envelope "data" = Some (VList rows).

End Pages.

(** [has_id v account]: the record carries an identifier, and it is [v]. *)
Definition has_id (v : value) (account : value) : bool :=
  Py.truthy (account_id_of account) && Py.eqb v (account_id_of account).

(** The records that survive de-duplication: all but those that carry an
    identifier which a record before them carries too. *)
Fixpoint survivors (earlier accounts : list value) : list value :=
  match accounts with
  | [] => []
  | account :: rest =>
      let tail := survivors (earlier ++ [account])%list rest in
      if Py.truthy (account_id_of account)
         && existsb (has_id (account_id_of account)) earlier
      then tail else account :: tail
  end.

(** Identifiers can be put in a [set]. *)
Definition ids_hashable (accounts : list value) : Prop :=
  Forall (fun account =>
            Py.truthy (account_id_of account) = true ->
            Py.hashable (account_id_of account) = true) accounts.

(** [subseq l1 l2]: [l1] is [l2] with some elements left out. *)
Inductive subseq {A : Type} : list A -> list A -> Prop :=
| subseq_nil : subseq [] []
| subseq_skip (x : A) (l1 l2 : list A) : subseq l1 l2 -> subseq l1 (x :: l2)
| subseq_keep (x : A) (l1 l2 : list A) : subseq l1 l2 -> subseq (x :: l1) (x :: l2).

(** What draining leaves of a [paging] entry: every key but the two
    cursors, and the entry itself when it is not a dict. *)
Definition paging_kept (before after : dict) : Prop :=
  match Dict.get before "paging" with
  | Some (VDict paging) =>
      exists paging',
        Dict.get after "paging" = Some (VDict paging')
        /\ forall key, key <> "next" -> key <> "previous" ->
             Dict.get paging' key = Dict.get paging key
  | other => Dict.get after "paging" = other
  end.

(** No record repeats the identifier of a record before it. *)
Definition distinct_ids (accounts : list value) : Prop :=
  forall before account after,
    accounts = (before ++ account :: after)%list ->
    existsb (has_id (account_id_of account)) before = false.

(** The record carries no identifier: it is no dict, has no [id], or has
    an [id] that counts as false. *)
Definition unidentified (account : value) : bool :=
  negb (Py.truthy (account_id_of account)).

(** The error of a resolution that found no account anywhere. *)
Definition ResolutionError : exn :=
  ValueError
    "Unable to automatically determine a default ad account. Please specify an 'act_id'.".

(** The parameters of the query for the first account of the token. *)
Definition me_params (access_token : value) : dict :=
  [("access_token", access_token);
   ("fields", VStr "adaccounts.limit(1){id,account_id,name}")].

(** A remote with three pages of accounts, the second of which repeats an
    account of the first, served for the account listing and for two
    insights edges alike. *)
Module Scenario.

Definition row (id : string) : value :=
  VDict [("id", VStr id); ("name", VStr ("Account " ++ id))].

Definition page2_url : string := "https://graph.facebook.com/v22.0/next?after=c1".
Definition page3_url : string := "https://graph.facebook.com/v22.0/next?after=c2".

Definition page1 : dict :=
  [("data", VList [row "act_1"; row "act_2"]);
   ("paging", VDict [("cursors", VDict [("after", VStr "c1")]);
                     ("next", VStr page2_url);
                     ("previous", VStr "https://graph.facebook.com/v22.0/prev")]);
   ("summary", VStr "kept")].

Definition page2 : dict :=
  [("data", VList [row "act_2"; row "act_3"]);
   ("paging", VDict [("next", VStr page3_url)])].

Definition page3 : dict :=
  [("data", VList [VDict [("name", VStr "No id")]; row "act_4"])].

Definition me : dict :=
  [("adaccounts", VDict page1); ("id", VStr "10001")].

Definition table : list (string * value) :=
  [(FB_GRAPH_URL ++ "/me", VDict me);
   (FB_GRAPH_URL ++ "/act_1/insights", VDict page1);
   (FB_GRAPH_URL ++ "/123/insights", VDict page1);
   (page2_url, VDict page2);
   (page3_url, VDict page3)].

(** Every row of the three pages, and the rows without the repeat. *)
Definition rows : list value :=
  [row "act_1"; row "act_2"; row "act_2"; row "act_3";
   VDict [("name", VStr "No id")]; row "act_4"].

Definition distinct_rows : list value :=
  [row "act_1"; row "act_2"; row "act_3";
   VDict [("name", VStr "No id")]; row "act_4"].

(** Insights arguments with both [time_range] and [time_ranges] set. *)
Definition both_ranges : insights_args :=
  let january := VDict [("since", VStr "2024-01-01"); ("until", VStr "2024-01-31")] in
  let february := VDict [("since", VStr "2024-02-01"); ("until", VStr "2024-02-29")] in
  {| fields := VNone; date_preset := VStr "last_30d"; time_range := january;
     time_ranges := VList [january; february];
     time_increment := VStr "all_days"; level := VStr "campaign";
     action_attribution_windows := VNone; action_breakdowns := VNone;
     action_report_time := VNone; breakdowns := VNone;
     default_summary := VBool false;
     use_account_attribution_setting := VBool false;
     use_unified_attribution_setting := VBool true; filtering := VNone;
     sort := VNone; limit := VNone; after := VNone; before := VNone;
     offset := VNone; since := VNone; until := VNone; locale := VNone |}.

(** A session that holds neither token nor default account, on a remote
    that knows nothing. *)
Definition blank : state Sim.runtime :=
  @mkState Sim.runtime VNone VNone (Sim.remote []).

(** The session after the first page of an insights request. *)
Definition after_first_insights : state Sim.runtime :=
  snd (adaccount_insights_request Sim.bare (VStr "act_1")
         (insights_defaults (VStr "account")) (Sim.session table)).

(** The session after the first page of the account listing. *)
Definition after_first_accounts : state Sim.runtime :=
  snd (ad_accounts_request Sim.bare (Sim.session table)).

(** The same sessions two fetches later. *)
Definition after_last_insights : state Sim.runtime :=
  snd (get_adaccount_insights Sim.bare 2 (VStr "act_1")
         (insights_defaults (VStr "account")) (Sim.session table)).

Definition after_last_accounts : state Sim.runtime :=
  snd (list_ad_accounts Sim.bare 2 (Sim.session table)).

End Scenario.

Section Session.
Context {R : Runtime}.

(** The cached default account is absent, or a dict whose [id] is a
    string that starts with [act_]. *)
Definition cache_ok (st : state R) : Prop :=
  DEFAULT_AD_ACCOUNT st = VNone
  \/ exists d id,
       DEFAULT_AD_ACCOUNT st = VDict d
       /\ Dict.get d "id" = Some (VStr id)
       /\ PyStr.startswith id "act_" = true.

(** The token found in the configuration blob. *)
Definition configured_token (proc : process) : value :=
  match MCP_CONFIG proc with
  | VDict d => Dict.get_none d "fbToken"
  | _ => VNone
  end.

End Session.

(** A call to one of the tools the server registers, with its arguments. *)
Inductive invocation : Type :=
| SetAccessToken (access_token act_id act_name : value)
| ListAdAccounts
| GetDetailsOfAdAccount (act_id fields : value)
| GetAdaccountInsights (act_id : value) (a : insights_args)
| GetCampaignInsights (campaign_id : string) (a : insights_args)
| GetAdsetInsights (adset_id : string) (a : insights_args)
| GetAdInsights (ad_id : string) (a : insights_args)
| FetchPaginationUrl (url : value)
| GetAdCreativeById (creative_id : string)
    (fields thumbnail_width thumbnail_height : value)
| GetAdCreativesByAdId (ad_id : string)
    (fields limit after before date_format : value)
| GetAdById (ad_id : string) (fields : value)
| GetAdsByAdaccount
    (act_id fields filtering limit after before date_preset time_range
       updated_since effective_status : value)
| GetAdsByCampaign (campaign_id : string)
    (fields filtering limit after before effective_status : value)
| GetAdsByAdset (adset_id : string)
    (fields filtering limit after before effective_status date_format : value)
| GetAdsetById (adset_id : string) (fields : value)
| GetAdsetsByIds (adset_ids fields date_format : value)
| GetAdsetsByAdaccount
    (act_id fields filtering limit after before date_preset time_range
       updated_since effective_status date_format : value)
| GetAdsetsByCampaign (campaign_id : string)
    (fields filtering limit after before effective_status date_format : value)
| GetCampaignById (campaign_id : string) (fields date_format : value)
| GetCampaignsByAdaccount
    (act_id fields filtering limit after before date_preset time_range
       updated_since effective_status is_completed special_ad_categories
       objective buyer_guarantee_agreement_status date_format
       include_drafts : value)
| GetActivitiesByAdaccount
    (act_id fields limit after before time_range since until : value)
| GetActivitiesByAdset (adset_id : string)
    (fields limit after before time_range since until : value).

Section Surface.
Context {R : Runtime}.
Variable proc : process.

(** What a call runs; [fuel] bounds the page fetches of the two tools
    that drain. *)
Definition invoke (fuel : nat) (call : invocation) : M R value :=
  match call with
  | SetAccessToken access_token act_id act_name =>
      set_access_token access_token act_id act_name
  | ListAdAccounts => list_ad_accounts proc fuel
  | GetDetailsOfAdAccount act_id fields =>
      get_details_of_ad_account proc act_id fields
  | GetAdaccountInsights act_id a => get_adaccount_insights proc fuel act_id a
  | GetCampaignInsights campaign_id a => get_campaign_insights proc campaign_id a
  | GetAdsetInsights adset_id a => get_adset_insights proc adset_id a
  | GetAdInsights ad_id a => get_ad_insights proc ad_id a
  | FetchPaginationUrl url => fetch_pagination_url url
  | GetAdCreativeById creative_id fields thumbnail_width thumbnail_height =>
      get_ad_creative_by_id proc creative_id fields thumbnail_width
        thumbnail_height
  | GetAdCreativesByAdId ad_id fields limit after before date_format =>
      get_ad_creatives_by_ad_id proc ad_id fields limit after before date_format
  | GetAdById ad_id fields => get_ad_by_id proc ad_id fields
  | GetAdsByAdaccount act_id fields filtering limit after before date_preset
      time_range updated_since effective_status =>
      get_ads_by_adaccount proc act_id fields filtering limit after before
        date_preset time_range updated_since effective_status
  | GetAdsByCampaign campaign_id fields filtering limit after before
      effective_status =>
      get_ads_by_campaign proc campaign_id fields filtering limit after before
        effective_status
  | GetAdsByAdset adset_id fields filtering limit after before effective_status
      date_format =>
      get_ads_by_adset proc adset_id fields filtering limit after before
        effective_status date_format
  | GetAdsetById adset_id fields => get_adset_by_id proc adset_id fields
  | GetAdsetsByIds adset_ids fields date_format =>
      get_adsets_by_ids proc adset_ids fields date_format
  | GetAdsetsByAdaccount act_id fields filtering limit after before date_preset
      time_range updated_since effective_status date_format =>
      get_adsets_by_adaccount proc act_id fields filtering limit after before
        date_preset time_range updated_since effective_status date_format
  | GetAdsetsByCampaign campaign_id fields filtering limit after before
      effective_status date_format =>
      get_adsets_by_campaign proc campaign_id fields filtering limit after
        before effective_status date_format
  | GetCampaignById campaign_id fields date_format =>
      get_campaign_by_id proc campaign_id fields date_format
  | GetCampaignsByAdaccount act_id fields filtering limit after before
      date_preset time_range updated_since effective_status is_completed
      special_ad_categories objective buyer_guarantee_agreement_status
      date_format include_drafts =>
      get_campaigns_by_adaccount proc act_id fields filtering limit after before
        date_preset time_range updated_since effective_status is_completed
        special_ad_categories objective buyer_guarantee_agreement_status
        date_format include_drafts
  | GetActivitiesByAdaccount act_id fields limit after before time_range since
      until =>
      get_activities_by_adaccount proc act_id fields limit after before
        time_range since until
  | GetActivitiesByAdset adset_id fields limit after before time_range since
      until =>
      get_activities_by_adset proc adset_id fields limit after before time_range
        since until
  end.

(** The calls that need the token of the session. *)
Definition needs_token (call : invocation) : bool :=
  match call with
  | SetAccessToken _ _ _ | FetchPaginationUrl _ => false
  | _ => true
  end.

(** Nothing in the session provides a token: none is set, none is
    configured, none is on the command line. *)
Definition token_missing (st : state R) : Prop :=
  exists e, _get_fb_access_token proc st = (Raise e, st).

(** From [st] to [st']: a cache in order stays in order, and a token that
    is set stays the same. *)
Definition evolves (st st' : state R) : Prop :=
  (cache_ok st -> cache_ok st')
  /\ (Py.is_none (FB_ACCESS_TOKEN st) = false ->
      FB_ACCESS_TOKEN st' = FB_ACCESS_TOKEN st).

End Surface.

(** A computation under which the session [evolves]. *)
Definition frames {R : Runtime} {A : Type} (m : M R A) : Prop :=
  forall st r st', m st = (r, st') -> evolves st st'.

(** The keys [_build_insights_params] may write. *)
Definition insights_keys : list string :=
  ["fields"; "level"; "action_attribution_windows"; "action_breakdowns";
   "action_report_time"; "breakdowns"; "filtering"; "sort"; "limit"; "after";
   "before"; "offset"; "locale"; "date_preset"; "time_range"; "time_ranges";
   "time_increment"; "since"; "until"; "default_summary";
   "use_account_attribution_setting"; "use_unified_attribution_setting"].

Section Reaching.
Context {R : Runtime}.

(** [reaches next st pages next' st']: starting in [st] with the cursor
    [next], the remote serves the envelopes [pages] one after the other;
    the last of them leaves the cursor [next'] and the state [st']. *)
Inductive reaches : value -> state R -> list value -> value -> state R -> Prop :=
| reaches_here (next : value) (st : state R) : reaches next st [] next st
| reaches_page (next : value) (st : state R) (page : dict) (st1 : state R)
    (pages : list value) (next' : value) (st2 : state R) :
    Py.truthy next = true ->
    fetch_pagination_url next st = (Ok (VDict page), st1) ->
    reaches (next_of page) st1 pages next' st2 ->
    reaches next st (VDict page :: pages) next' st2.

End Reaching.

(** The calls that return the response of one request to the Graph API. *)
Definition single_request (call : invocation) : bool :=
  match call with
  | SetAccessToken _ _ _ | ListAdAccounts | GetAdaccountInsights _ _
  | FetchPaginationUrl _ => false
  | _ => true
  end.

(** The [act_id] argument of the calls that work on an ad account. *)
Definition account_of (call : invocation) : option value :=
  match call with
  | GetDetailsOfAdAccount act_id _ | GetAdaccountInsights act_id _
  | GetAdsByAdaccount act_id _ _ _ _ _ _ _ _ _
  | GetAdsetsByAdaccount act_id _ _ _ _ _ _ _ _ _ _
  | GetCampaignsByAdaccount act_id _ _ _ _ _ _ _ _ _ _ _ _ _ _ _
  | GetActivitiesByAdaccount act_id _ _ _ _ _ _ _ => Some act_id
  | _ => None
  end.

Section Sending.
Context {R : Runtime}.

(** What a tool sends for an argument it tests with [if x:]. *)
Definition sent_if_true (x : value) : option value :=
  if Py.truthy x then Some x else None.

(** What a tool sends for an argument it tests with [if x is not None:]. *)
Definition sent_if_given (x : value) : option value :=
  if Py.is_none x then None else Some x.

(** What a tool sends for an argument it tests with [if x:] and encodes
    with [json.dumps]. *)
Definition sent_as_json (x : value) : option value :=
  if Py.truthy x then Some (VStr (json_dumps x)) else None.

(** What a tool sends for [fields]: the comma-joined names, unless
    [fields] counts as false. *)
Definition sent_joined (x : value) : option value :=
  if Py.truthy x then
    match py_join x with
    | Ok joined => Some (VStr joined)
    | _ => None
    end
  else None.

(** The keys a listing tool may send. *)
Definition listing_keys : list string :=
  ["access_token"; "fields"; "filtering"; "limit"; "after"; "before";
   "date_preset"; "time_range"; "updated_since"; "effective_status";
   "is_completed"; "special_ad_categories"; "objective";
   "buyer_guarantee_agreement_status"; "date_format"; "include_drafts"].

End Sending.

(** Further remotes and processes to run the server against. *)
Module Cases.
Import Scenario.

(** A remote that lost the third page. *)
Definition broken : list (string * value) :=
  [(FB_GRAPH_URL ++ "/me", VDict me);
   (FB_GRAPH_URL ++ "/act_1/insights", VDict page1);
   (page2_url, VDict page2)].

Definition broken_after_first : state Sim.runtime :=
  snd (adaccount_insights_request Sim.bare (VStr "act_1")
         (insights_defaults (VStr "account")) (Sim.session broken)).

Definition broken_after_second : state Sim.runtime :=
  snd (fetch_pagination_url (VStr page2_url) broken_after_first).

Definition broken_after_failure : state Sim.runtime :=
  snd (fetch_pagination_url (VStr page3_url) broken_after_second).

(** A remote with an account node, its activities, and a user without
    ad accounts. *)
Definition account : dict := [("id", VStr "act_1"); ("name", VStr "Main")].

Definition activities : dict :=
  [("data", VList [VDict [("event_type", VStr "update_campaign_budget")]])].

Definition user : dict := [("id", VStr "10001")].

Definition nodes : list (string * value) :=
  [(FB_GRAPH_URL ++ "/me", VDict user);
   (FB_GRAPH_URL ++ "/act_1", VDict account);
   (FB_GRAPH_URL ++ "/act_1/activities", VDict activities)].

Definition january : value :=
  VDict [("since", VStr "2024-01-01"); ("until", VStr "2024-01-31")].

(** A process with a token in its configuration and one on its command
    line. *)
Definition configured : process :=
  mkProcess (VDict [("fbToken", VStr "CONFIGURED")]) []
    ["server.py"; "--fb-token"; "FLAG"].

(** One filter on the spend. *)
Definition spend_filter : value :=
  VList [VDict [("field", VStr "spend"); ("operator", VStr "GREATER_THAN");
                ("value", VInt 50)]].

(** Keyword arguments that bind each of the eleven encoded keys to a list
    or a mapping, [limit] to [None], [sort] to a list and [locale] to the
    empty string. *)
Definition every_key : list (string * value) :=
  [("fields", VList [VStr "a"; VStr "b"; VStr "c"]);
   ("action_attribution_windows", VList [VStr "1d_view"; VStr "7d_click"]);
   ("action_breakdowns", VList [VStr "action_type"]);
   ("breakdowns", VList [VStr "age"; VStr "gender"]);
   ("filtering", spend_filter);
   ("time_range", january);
   ("time_ranges", VList [january]);
   ("effective_status", VList [VStr "ACTIVE"]);
   ("special_ad_categories", VList [VStr "HOUSING"]);
   ("objective", VList [VStr "OUTCOME_SALES"]);
   ("buyer_guarantee_agreement_status", VList [VStr "APPROVED"]);
   ("limit", VNone);
   ("sort", VList [VStr "spend_descending"]);
   ("locale", VStr "")].

(** A list of names with a number among them. *)
Definition mixed_fields : list (string * value) :=
  [("fields", VList [VStr "name"; VInt 1])].

End Cases.

(* ===================================================================== *)
(** ** Properties *)
(* ===================================================================== *)

Module PyStrFacts.
Import PyStr.

Lemma is_empty_true s : is_empty s = true <-> s = "".
Proof. destruct s; simpl; split; congruence. Qed.

Lemma is_empty_false s : is_empty s = false <-> s <> "".
Proof. destruct s; simpl; split; congruence. Qed.

Lemma rstrip_nonspace c s :
  is_space c = false -> rstrip (String c s) = String c (rstrip s).
Proof. intros H. simpl. now rewrite H. Qed.

Lemma rstrip_idem s : rstrip (rstrip s) = rstrip s.
Proof.
  induction s as [|c s IH]; [reflexivity|].
  simpl. destruct (is_space c && is_empty (rstrip s)) eqn:E; [reflexivity|].
  simpl. rewrite IH, E. reflexivity.
Qed.

Lemma lstrip_head s :
  lstrip s = "" \/ exists c r, lstrip s = String c r /\ is_space c = false.
Proof.
  induction s as [|c s IH]; [now left|].
  simpl. destruct (is_space c) eqn:E; [exact IH|].
  right. now exists c, s.
Qed.

(** A stripped string is empty or starts with a non-space character and
    has no trailing space. *)
Lemma strip_shape s :
  strip s = "" \/
  exists c r, strip s = String c (rstrip r) /\ is_space c = false.
Proof.
  unfold strip. destruct (lstrip_head s) as [H|(c & r & H & Hc)].
  - left. now rewrite H.
  - right. exists c, r. rewrite H. split; [now apply rstrip_nonspace|assumption].
Qed.

Lemma strip_idem s : strip (strip s) = strip s.
Proof.
  destruct (strip_shape s) as [H|(c & r & H & Hc)]; rewrite H.
  - reflexivity.
  - unfold strip. simpl lstrip. rewrite Hc.
    rewrite rstrip_nonspace by assumption. now rewrite rstrip_idem.
Qed.

Lemma rstrip_app_nonempty p t :
  rstrip t = t -> t <> "" -> rstrip (p ++ t) = p ++ t.
Proof.
  intros Ht Hne. induction p as [|c p IH]; [exact Ht|].
  simpl. rewrite IH.
  destruct (p ++ t) eqn:E.
  - destruct p; simpl in E; [congruence|discriminate].
  - simpl. now rewrite andb_false_r.
Qed.

(** Prefixing a stripped, non-empty string with text that starts with a
    non-space character leaves nothing to strip. *)
Lemma strip_prefixed c p s :
  is_space c = false -> strip s <> "" ->
  strip (String c p ++ strip s) = String c p ++ strip s.
Proof.
  intros Hc Hne. unfold strip at 1. simpl lstrip. rewrite Hc.
  change (String c (p ++ strip s)) with (String c p ++ strip s).
  apply rstrip_app_nonempty; [|assumption].
  unfold strip. apply rstrip_idem.
Qed.

Lemma prefix_app p s : String.prefix p (p ++ s) = true.
Proof.
  induction p as [|c p IH]; simpl.
  - now destruct s.
  - destruct (ascii_dec c c); [assumption|congruence].
Qed.

End PyStrFacts.

Module DictFacts.
Import Dict.

Lemma get_set_same d k v : get (set d k v) k = Some v.
Proof.
  induction d as [|[k' v'] d IH]; simpl.
  - now rewrite String.eqb_refl.
  - destruct (String.eqb k' k) eqn:E; simpl; now rewrite E.
Qed.

Lemma get_set_other d k k' v : k <> k' -> get (set d k v) k' = get d k'.
Proof.
  intros Hne. induction d as [|[k0 v0] d IH]; simpl.
  - destruct (String.eqb k k') eqn:E; [apply String.eqb_eq in E; congruence|reflexivity].
  - destruct (String.eqb k0 k) eqn:E; simpl.
    + apply String.eqb_eq in E. subst k0.
      destruct (String.eqb k k') eqn:E'; [apply String.eqb_eq in E'; congruence|reflexivity].
    + destruct (String.eqb k0 k'); [reflexivity|exact IH].
Qed.

Lemma get_set d k k' v :
  get (set d k v) k' = if String.eqb k k' then Some v else get d k'.
Proof.
  destruct (String.eqb k k') eqn:E.
  - apply String.eqb_eq in E. subst. apply get_set_same.
  - apply String.eqb_neq in E. now apply get_set_other.
Qed.

Lemma get_pop_same d k : get (pop d k) k = None.
Proof.
  induction d as [|[k' v'] d IH]; simpl; [reflexivity|].
  destruct (String.eqb k' k) eqn:E; simpl; [exact IH|now rewrite E].
Qed.

Lemma get_pop_other d k k' : k <> k' -> get (pop d k) k' = get d k'.
Proof.
  intros Hne. induction d as [|[k0 v0] d IH]; simpl; [reflexivity|].
  destruct (String.eqb k0 k) eqn:E; simpl.
  - apply String.eqb_eq in E. subst k0.
    destruct (String.eqb k k') eqn:E'; [apply String.eqb_eq in E'; congruence|exact IH].
  - destruct (String.eqb k0 k'); [reflexivity|exact IH].
Qed.

End DictFacts.

Ltac run :=
  unfold bind, ret, raise, lift, get_token, get_default_account, set_token,
    set_default_account; cbn [FB_ACCESS_TOKEN DEFAULT_AD_ACCOUNT world fst snd].

Ltac step :=
  cbn [FB_ACCESS_TOKEN DEFAULT_AD_ACCOUNT world fst snd Py.is_none negb].

Section Identifiers.
Context {R : Runtime}.
Variable proc : process.

Lemma nonblank_str v t :
  Py.nonblank v = Some t ->
  exists s, v = VStr s /\ t = PyStr.strip s /\ PyStr.strip s <> "".
Proof.
  destruct v; simpl; try discriminate.
  destruct (PyStr.is_empty (PyStr.strip s)) eqn:E; [discriminate|].
  intros [= <-]. exists s. repeat split. now apply PyStrFacts.is_empty_false.
Qed.

Lemma nonblank_stripped v t :
  Py.nonblank v = Some t -> PyStr.strip t = t /\ t <> "".
Proof.
  intros H. apply nonblank_str in H as (s & _ & -> & Hne).
  split; [apply PyStrFacts.strip_idem|assumption].
Qed.

Lemma normalize_nonblank s :
  PyStr.strip s <> "" ->
  _normalize_act_id (VStr s) = Ok (canonical (PyStr.strip s)).
Proof.
  intros H. unfold _normalize_act_id. simpl py_str.
  apply PyStrFacts.is_empty_false in H. now rewrite H.
Qed.

Lemma normalize_blank s :
  PyStr.strip s = "" ->
  _normalize_act_id (VStr s) = Raise (ValueError "Ad account ID cannot be empty.").
Proof.
  intros H. unfold _normalize_act_id. simpl py_str. now rewrite H.
Qed.

Lemma canonical_prefixed t : PyStr.startswith (canonical t) "act_" = true.
Proof.
  unfold canonical. destruct (PyStr.startswith t "act_") eqn:E; [exact E|].
  unfold PyStr.startswith. apply PyStrFacts.prefix_app.
Qed.

Lemma canonical_stripped s :
  PyStr.strip s <> "" ->
  PyStr.strip (canonical (PyStr.strip s)) = canonical (PyStr.strip s).
Proof.
  intros H. unfold canonical.
  destruct (PyStr.startswith (PyStr.strip s) "act_").
  - apply PyStrFacts.strip_idem.
  - apply (PyStrFacts.strip_prefixed "a" "ct_"); [reflexivity|assumption].
Qed.

Lemma canonical_nonempty t : canonical t <> "".
Proof.
  unfold canonical. destruct (PyStr.startswith t "act_") eqn:E.
  - destruct t; [discriminate|discriminate].
  - discriminate.
Qed.

Lemma canonical_idem t : canonical (canonical t) = canonical t.
Proof. unfold canonical at 1. now rewrite canonical_prefixed. Qed.

(** C8. Account-id normalisation: a string whose stripped text is not
    empty is returned stripped, with [act_] put in front unless it is there
    already; the result always carries the prefix, and normalising it again
    returns the identical string.  A string whose stripped text is empty
    raises the "cannot be empty" [ValueError].  [_resolve_act_id] hands
    every non-empty string to the same normalisation and touches no
    state. *)
Theorem normalize_act_id_idempotent (s : string) :
  (PyStr.strip s <> "" ->
     _normalize_act_id (VStr s)
       = Ok (if PyStr.startswith (PyStr.strip s) "act_" then PyStr.strip s
             else "act_" ++ PyStr.strip s)
     /\ (forall t, _normalize_act_id (VStr s) = Ok t ->
           PyStr.startswith t "act_" = true
           /\ _normalize_act_id (VStr t) = Ok t))
  /\ (PyStr.strip s = "" ->
        _normalize_act_id (VStr s)
          = Raise (ValueError "Ad account ID cannot be empty."))
  /\ (forall st : state R, s <> "" ->
        _resolve_act_id proc (VStr s) st
          = (match _normalize_act_id (VStr s) with
             | Ok t => Ok (VStr t)
             | Raise e => Raise e
             | OutOfFuel => OutOfFuel
             end, st)).
Proof.
  split; [|split].
  - intros Hne. split; [now apply normalize_nonblank|].
    intros t Ht. rewrite normalize_nonblank in Ht by assumption.
    injection Ht as <-. split; [apply canonical_prefixed|].
    rewrite normalize_nonblank; rewrite canonical_stripped by assumption.
    + now rewrite canonical_idem.
    + apply canonical_nonempty.
  - apply normalize_blank.
  - intros st Hne. unfold _resolve_act_id.
    assert (Py.truthy (VStr s) = true) as ->
      by (simpl; now destruct s).
    run. now destruct (_normalize_act_id (VStr s)).
Qed.

(** *** [set_access_token] *)

Lemma set_default_nonblank act_id act_name a (st : state R) :
  Py.nonblank act_id = Some a ->
  _set_default_ad_account act_id act_name st
    = (Ok true, mkState (FB_ACCESS_TOKEN st)
                  (seeded_account act_id act_name) (world st)).
Proof.
  intros Ha. unfold _set_default_ad_account, seeded_account. rewrite Ha.
  apply nonblank_str in Ha as (s & -> & -> & Hne).
  run. rewrite normalize_nonblank by assumption.
  now destruct (Py.nonblank act_name).
Qed.

Lemma set_default_blank act_id act_name (st : state R) :
  Py.nonblank act_id = None ->
  _set_default_ad_account act_id act_name st = (Ok false, st).
Proof. intros Ha. unfold _set_default_ad_account. now rewrite Ha. Qed.

(** C4. [set_access_token] with a token that is not blank stores the
    stripped token and leaves as default account exactly what the call
    itself supplies, whatever was cached before: nothing when [act_id] is
    missing or blank, and otherwise the [act_]-prefixed identifier with the
    stripped name when one is given.  The world behind the HTTP client is
    the one the call started in: no request is made. *)
Theorem set_access_token_resets_default
  (token : string) (act_id act_name : value) (st : state R) :
  PyStr.strip token <> "" ->
  set_access_token (VStr token) act_id act_name st
    = (Ok (VDict
            (let response := [("status", VStr "success");
                              ("access_token_configured", VBool true)] in
             if Py.truthy (seeded_account act_id act_name)
             then Dict.set response "default_ad_account"
                    (seeded_account act_id act_name)
             else response)),
       mkState (VStr (PyStr.strip token)) (seeded_account act_id act_name)
         (world st)).
Proof.
  intros Hne. unfold set_access_token. cbn [Py.nonblank].
  apply PyStrFacts.is_empty_false in Hne. rewrite Hne.
  destruct (Py.nonblank act_id) as [a|] eqn:Ha.
  - assert (Py.truthy act_id = true) as Ht.
    { apply nonblank_str in Ha as (s & -> & _ & Hs). simpl.
      destruct s; [now elim Hs|reflexivity]. }
    rewrite Ht. run. rewrite (set_default_nonblank _ _ a) by (cbn; assumption).
    reflexivity.
  - assert (seeded_account act_id act_name = VNone) as Hs
      by (unfold seeded_account; now rewrite Ha).
    rewrite Hs. destruct (Py.truthy act_id); run.
    + now rewrite set_default_blank.
    + reflexivity.
Qed.

End Identifiers.

Section Parameters.
Context {R : Runtime}.
Variable proc : process.

Lemma keys_disjoint key :
  Py.mem key json_encoded_keys = true -> Py.mem key comma_joined_keys = false.
Proof.
  unfold Py.mem, json_encoded_keys. simpl existsb. intros H.
  repeat (apply orb_prop in H as [H|H];
          [apply String.eqb_eq in H; subst key; reflexivity|]).
  discriminate.
Qed.

Lemma str_items_texts items l : str_items items = Ok l -> l = texts items.
Proof.
  revert l. induction items as [|x items IH]; intros l; simpl.
  - now intros [= <-].
  - destruct x; try discriminate.
    destruct (str_items items); try discriminate.
    intros [= <-]. simpl. f_equal. now apply IH.
Qed.

Lemma str_items_total items :
  Forall (fun x => Py.is_str x = true) items -> str_items items = Ok (texts items).
Proof.
  induction 1 as [|x items Hx _ IH]; [reflexivity|].
  destruct x; try discriminate. simpl. now rewrite IH.
Qed.

Lemma prepare_one_spec params key v params' :
  prepare_one params key v = Ok params' ->
  params' = if Py.is_none v then params
            else Dict.set params key (wire_encoding key v).
Proof.
  unfold prepare_one, wire_encoding.
  destruct v; cbn [Py.is_none Py.is_list Py.is_dict orb];
    rewrite ?andb_false_r, ?andb_true_r; try (now intros [= <-]).
  - destruct (Py.mem key json_encoded_keys) eqn:Ej.
    + rewrite (keys_disjoint _ Ej). now intros [= <-].
    + destruct (Py.mem key comma_joined_keys); [|now intros [= <-]].
      unfold comma_join. destruct (str_items l) eqn:El; try discriminate.
      intros [= <-]. now rewrite (str_items_texts _ _ El).
  - destruct (Py.mem key json_encoded_keys); now intros [= <-].
Qed.

Lemma prepare_one_total params key v :
  (forall items, v = VList items -> Py.mem key comma_joined_keys = true ->
     Forall (fun x => Py.is_str x = true) items) ->
  exists params', prepare_one params key v = Ok params'.
Proof.
  intros H. unfold prepare_one.
  destruct (Py.is_none v); [eauto|].
  destruct (Py.mem key json_encoded_keys && (Py.is_list v || Py.is_dict v));
    [eauto|].
  destruct v; eauto.
  destruct (Py.mem key comma_joined_keys) eqn:E; [|eauto].
  unfold comma_join. rewrite str_items_total by (now apply H). eauto.
Qed.

Lemma prepare_params_get kwargs : forall base out,
  NoDup (map fst kwargs) ->
  _prepare_params base kwargs = Ok out ->
  forall key,
    Dict.get out key =
      match Dict.get kwargs key with
      | Some v => if Py.is_none v then Dict.get base key
                  else Some (wire_encoding key v)
      | None => Dict.get base key
      end.
Proof.
  induction kwargs as [|[k v] kwargs IH]; intros base out Hnd Hrun key.
  - simpl in *. now injection Hrun as <-.
  - simpl in Hrun. destruct (prepare_one base k v) as [p| |] eqn:Ep;
      try discriminate.
    inversion Hnd as [|? ? Hnotin Hnd']; subst.
    rewrite (IH _ _ Hnd' Hrun key). apply prepare_one_spec in Ep.
    simpl. destruct (String.eqb k key) eqn:Ek.
    + apply String.eqb_eq in Ek. subst key.
      assert (Dict.get kwargs k = None) as ->.
      { clear -Hnotin. induction kwargs as [|[k' v'] kwargs IH]; [reflexivity|].
        simpl in *. destruct (String.eqb k' k) eqn:E.
        - apply String.eqb_eq in E. tauto.
        - apply IH. tauto. }
      subst p. destruct (Py.is_none v); [reflexivity|].
      apply DictFacts.get_set_same.
    + apply String.eqb_neq in Ek.
      assert (Dict.get p key = Dict.get base key) as ->.
      { subst p. destruct (Py.is_none v); [reflexivity|].
        now apply DictFacts.get_set_other. }
      reflexivity.
Qed.

Lemma prepare_params_total kwargs : forall base,
  joinable kwargs -> exists out, _prepare_params base kwargs = Ok out.
Proof.
  induction kwargs as [|[k v] kwargs IH]; intros base Hj; simpl; [eauto|].
  destruct (prepare_one_total base k v) as [p ->].
  - intros items -> Hk. apply (Hj k items); [now left|assumption].
  - apply IH. intros key items Hin. apply Hj. now right.
Qed.

(** A key that is not among the keyword arguments keeps the value the
    base mapping gives it. *)
Lemma prepare_params_get_other kwargs : forall base out key,
  _prepare_params base kwargs = Ok out ->
  ~ In key (map fst kwargs) ->
  Dict.get out key = Dict.get base key.
Proof.
  induction kwargs as [|[k v] kwargs IH]; intros base out key Hrun Hnotin.
  - simpl in Hrun. now injection Hrun as <-.
  - simpl in Hrun, Hnotin.
    destruct (prepare_one base k v) as [p| |] eqn:Ep; try discriminate.
    rewrite (IH _ _ _ Hrun) by tauto.
    apply prepare_one_spec in Ep. subst p.
    destruct (Py.is_none v); [reflexivity|].
    apply DictFacts.get_set_other. tauto.
Qed.

Lemma comma_joined_named key :
  Py.mem key comma_joined_keys = true
  <-> In key ["fields"; "action_attribution_windows"; "action_breakdowns";
              "breakdowns"].
Proof.
  unfold Py.mem, comma_joined_keys. rewrite existsb_exists. split.
  - intros (k & Hin & Hk). apply String.eqb_eq in Hk. now subst k.
  - intros Hin. exists key. split; [exact Hin|apply String.eqb_refl].
Qed.

Lemma json_encoded_named key :
  Py.mem key json_encoded_keys = true
  <-> In key ["filtering"; "time_range"; "time_ranges"; "effective_status";
              "special_ad_categories"; "objective";
              "buyer_guarantee_agreement_status"].
Proof.
  unfold Py.mem, json_encoded_keys. rewrite existsb_exists. split.
  - intros (k & Hin & Hk). apply String.eqb_eq in Hk. now subst k.
  - intros Hin. exists key. split; [exact Hin|apply String.eqb_refl].
Qed.

Lemma not_mem_false key l : (Py.mem key l = true -> False) -> Py.mem key l = false.
Proof. destruct (Py.mem key l); [intros H; now elim H|reflexivity]. Qed.

(** C6. The output of [_prepare_params] is the base mapping extended with
    exactly the keyword arguments that are not [None].  A key bound to
    [None], or not bound at all, reads as in the base mapping.  A list
    bound to [fields], [action_attribution_windows], [action_breakdowns]
    or [breakdowns] reads as its items joined with commas.  A list or a
    mapping bound to [filtering], [time_range], [time_ranges],
    [effective_status], [special_ad_categories], [objective] or
    [buyer_guarantee_agreement_status] reads as its JSON text.  Every
    other argument reads as it was given: under any other key, and under
    these eleven when the value has not the form named.  The call returns
    whenever the lists to join hold strings. *)
Theorem prepare_params_extends
  (base : dict) (kwargs : list (string * value)) :
  NoDup (map fst kwargs) ->
  ((forall key items,
      In (key, VList items) kwargs ->
      In key ["fields"; "action_attribution_windows"; "action_breakdowns";
              "breakdowns"] ->
      Forall (fun x => Py.is_str x = true) items) ->
   exists out, _prepare_params base kwargs = Ok out)
  /\ (forall out, _prepare_params base kwargs = Ok out ->
      (forall key,
         Dict.get kwargs key = None \/ Dict.get kwargs key = Some VNone ->
         Dict.get out key = Dict.get base key)
      /\ (forall key items,
         In key ["fields"; "action_attribution_windows"; "action_breakdowns";
                 "breakdowns"] ->
         Dict.get kwargs key = Some (VList items) ->
         Dict.get out key = Some (VStr (PyStr.join "," (texts items))))
      /\ (forall key v,
         In key ["filtering"; "time_range"; "time_ranges"; "effective_status";
                 "special_ad_categories"; "objective";
                 "buyer_guarantee_agreement_status"] ->
         Dict.get kwargs key = Some v ->
         Py.is_list v || Py.is_dict v = true ->
         Dict.get out key = Some (VStr (json_dumps v)))
      /\ (forall key v,
         Dict.get kwargs key = Some v -> Py.is_none v = false ->
         (In key ["filtering"; "time_range"; "time_ranges"; "effective_status";
                  "special_ad_categories"; "objective";
                  "buyer_guarantee_agreement_status"] ->
          Py.is_list v || Py.is_dict v = false) ->
         (In key ["fields"; "action_attribution_windows"; "action_breakdowns";
                  "breakdowns"] ->
          Py.is_list v = false) ->
         Dict.get out key = Some v)).
Proof.
  intros Hnd. split.
  - intros Hj. apply prepare_params_total.
    intros key items Hin Hkey. apply (Hj key items Hin).
    now apply comma_joined_named.
  - intros out Hrun.
    pose proof (prepare_params_get _ _ _ Hnd Hrun) as Hget.
    split; [|split; [|split]].
    + intros key [Hk|Hk]; rewrite Hget, Hk; reflexivity.
    + intros key items Hkey Hk. rewrite Hget, Hk. cbn [Py.is_none].
      unfold wire_encoding.
      now rewrite (proj2 (comma_joined_named key) Hkey).
    + intros key v Hkey Hk Hv. rewrite Hget, Hk.
      pose proof (proj2 (json_encoded_named key) Hkey) as Hj.
      unfold wire_encoding. rewrite Hj, (keys_disjoint _ Hj).
      destruct v; try discriminate Hv; reflexivity.
    + intros key v Hk Hnone Hjson Hcomma. rewrite Hget, Hk, Hnone.
      unfold wire_encoding.
      destruct v as [|b|n|t|items|d]; try reflexivity.
      * rewrite (not_mem_false key comma_joined_keys)
          by (intros H; apply comma_joined_named in H;
              now specialize (Hcomma H)).
        rewrite (not_mem_false key json_encoded_keys)
          by (intros H; apply json_encoded_named in H;
              now specialize (Hjson H)).
        reflexivity.
      * rewrite (not_mem_false key json_encoded_keys)
          by (intros H; apply json_encoded_named in H;
              now specialize (Hjson H)).
        reflexivity.
Qed.

Lemma get_set_if cond key v params key' :
  Dict.get (set_if cond key v params) key'
    = if cond && String.eqb key key' then Some v else Dict.get params key'.
Proof.
  unfold set_if. destruct cond; simpl; [apply DictFacts.get_set|reflexivity].
Qed.

Ltac time_key_absent Hrun Hbase :=
  rewrite (prepare_params_get_other _ _ _ _ Hrun)
    by (simpl; intuition discriminate);
  apply Hbase; simpl; tauto.

(** C5 (as the code has it).  In the mapping [_build_insights_params]
    builds over a base without time-window keys: [date_preset] is present
    exactly when it is set and none of [time_range], [time_ranges],
    [since], [until] is; [time_range] and [time_ranges] are each present,
    JSON-encoded, exactly when set, so both are present when both are set;
    [since] and [until] are present exactly when set with neither
    [time_range] nor [time_ranges]; [time_increment] is present exactly
    when set to something other than ['all_days'].  "Set" is Python
    truth: neither [None] nor empty. *)
Theorem insights_time_window (base : dict) (a : insights_args) (out : dict) :
  (forall key, In key time_keys -> Dict.get base key = None) ->
  _build_insights_params base a = Ok out ->
  let ranged := Py.truthy (time_range a) || Py.truthy (time_ranges a) in
  Dict.get out "date_preset"
    = (if negb (ranged || Py.truthy (since a) || Py.truthy (until a))
          && Py.truthy (date_preset a)
       then Some (date_preset a) else None)
  /\ Dict.get out "time_range"
    = (if Py.truthy (time_range a)
       then Some (VStr (json_dumps (time_range a))) else None)
  /\ Dict.get out "time_ranges"
    = (if Py.truthy (time_ranges a)
       then Some (VStr (json_dumps (time_ranges a))) else None)
  /\ Dict.get out "since"
    = (if negb ranged && Py.truthy (since a) then Some (since a) else None)
  /\ Dict.get out "until"
    = (if negb ranged && Py.truthy (until a) then Some (until a) else None)
  /\ Dict.get out "time_increment"
    = (if Py.truthy (time_increment a)
          && Py.neq_str (time_increment a) "all_days"
       then Some (time_increment a) else None).
Proof.
  intros Hbase Hrun ranged. unfold _build_insights_params in Hrun.
  match type of Hrun with
  | match ?c with _ => _ end = _ => destruct c as [p| |] eqn:Hp; try discriminate
  end.
  injection Hrun as <-. subst ranged.
  repeat split; rewrite !get_set_if; simpl String.eqb;
    rewrite ?andb_false_r, ?andb_true_r.
  - rewrite <- !orb_assoc.
    destruct (negb _ && _); [reflexivity|time_key_absent Hp Hbase].
  - destruct (Py.truthy (time_range a)); [reflexivity|time_key_absent Hp Hbase].
  - destruct (Py.truthy (time_ranges a)); [reflexivity|time_key_absent Hp Hbase].
  - rewrite negb_orb.
    destruct (_ && Py.truthy (since a)); [reflexivity|time_key_absent Hp Hbase].
  - rewrite negb_orb.
    destruct (_ && Py.truthy (until a)); [reflexivity|time_key_absent Hp Hbase].
  - destruct (_ && _); [reflexivity|time_key_absent Hp Hbase].
Qed.

End Parameters.

Section Requests.
Context {R : Runtime}.
Variable proc : process.

Lemma token_cached (st : state R) :
  Py.is_none (FB_ACCESS_TOKEN st) = false ->
  _get_fb_access_token proc st = (Ok (FB_ACCESS_TOKEN st), st).
Proof. intros H. unfold _get_fb_access_token. run. now rewrite H. Qed.

(** Looking the token up changes neither the cached account nor the
    world. *)
Lemma token_frame (st st' : state R) r :
  _get_fb_access_token proc st = (r, st') ->
  world st' = world st /\ DEFAULT_AD_ACCOUNT st' = DEFAULT_AD_ACCOUNT st.
Proof.
  unfold _get_fb_access_token, _ensure_fb_token_from_config. run.
  destruct (Py.is_none (FB_ACCESS_TOKEN st)); [|now intros [= _ <-]].
  destruct (Py.truthy (FB_ACCESS_TOKEN st)); run; [now intros [= _ <-]|].
  destruct (Py.truthy _); run; [now intros [= _ <-]|].
  destruct (Py.index _ _); [|now intros [= _ <-]].
  destruct (nth_error _ _); run; now intros [= _ <-].
Qed.

(** C7 (as the code has it).  [get_campaign_insights] with
    [campaign_id="123"] and every other argument at its default, in a
    session that holds a token, makes the request to [.../123/insights]
    whose parameters are the token, [level=campaign],
    [date_preset=last_30d] and [use_unified_attribution_setting=true], and
    nothing else: no [action_breakdowns] (its default is [None], which
    sends no key), no [time_range], [time_increment] or [breakdowns]. *)
Theorem campaign_insights_default_request (st : state R) :
  Py.is_none (FB_ACCESS_TOKEN st) = false ->
  let params := [("access_token", FB_ACCESS_TOKEN st);
                 ("level", VStr "campaign");
                 ("date_preset", VStr "last_30d");
                 ("use_unified_attribution_setting", VStr "true")] in
  get_campaign_insights proc "123" (insights_defaults VNone) st
    = _make_graph_api_call
        "https://graph.facebook.com/v22.0/123/insights" params st
  /\ Dict.get params "action_breakdowns" = None
  /\ Dict.get params "time_range" = None
  /\ Dict.get params "time_increment" = None
  /\ Dict.get params "breakdowns" = None.
Proof.
  intros Htok params. repeat split.
  unfold get_campaign_insights, object_insights.
  unfold bind at 1. rewrite token_cached by assumption.
  reflexivity.
Qed.

Lemma object_insights_single default_level object_id a (st st' : state R) page :
  object_insights proc default_level object_id a st = (Ok page, st') ->
  exists params,
    requests_get (VStr (FB_GRAPH_URL ++ "/" ++ object_id ++ "/insights"))
      (Some params) (world st) = (Body page, world st').
Proof.
  unfold object_insights. unfold bind at 1.
  destruct (_get_fb_access_token proc st) as [[tok| |] st1] eqn:Etok;
    try discriminate.
  apply token_frame in Etok as [Hw _].
  unfold bind, lift.
  destruct (_build_insights_params _ _) as [params| |]; try discriminate.
  unfold _make_graph_api_call, http. rewrite Hw.
  destruct (requests_get _ _ _) as [[body|msg] w] eqn:Eget; [|discriminate].
  intros [= -> <-]. now exists params.
Qed.

(** *** Draining *)

Lemma first_rows_eq (envelope : dict) :
  match Dict.get_none envelope "data" with
  | VList rows => rows
  | _ => []
  end = page_rows (VDict envelope).
Proof.
  unfold page_rows, Dict.get_none, Dict.get_default.
  now destruct (Dict.get envelope "data") as [[]|].
Qed.

Lemma drain_follows next (st : state R) pages st' :
  follows next st pages st' ->
  forall fuel rows, length pages <= fuel ->
    drain_pages fuel rows next st = (Ok (rows ++ all_rows pages)%list, st').
Proof.
  induction 1 as [next st Hnext|next st page st1 pages st2 Hnext Hfetch _ IH];
    intros fuel rows Hfuel.
  - destruct fuel; simpl; rewrite Hnext; unfold ret, all_rows; simpl;
      now rewrite app_nil_r.
  - destruct fuel as [|fuel]; [simpl in Hfuel; lia|].
    simpl. rewrite Hnext. unfold bind. rewrite Hfetch.
    rewrite IH by (simpl in Hfuel; lia).
    unfold all_rows. simpl. now rewrite app_assoc.
Qed.

Lemma drain_insights_follows fuel envelope (st : state R) pages st' :
  follows (next_of envelope) st pages st' -> length pages <= fuel ->
  drain_insights fuel (VDict envelope) st
    = (Ok (VDict (strip_cursors
                    (Dict.set envelope "data"
                       (VList (all_rows (VDict envelope :: pages)))))), st').
Proof.
  intros Hfollows Hfuel. unfold drain_insights, bind.
  rewrite (drain_follows _ _ _ _ Hfollows) by assumption.
  rewrite first_rows_eq. reflexivity.
Qed.

Lemma py_list_listed (section : dict) :
  data_listed section ->
  py_list (Dict.get_default section "data" (VList []))
    = Ok (page_rows (VDict section)).
Proof.
  unfold page_rows, Dict.get_default.
  intros [H|[rows H]]; now rewrite H.
Qed.

Lemma drain_accounts_follows fuel result_d section (st : state R) pages st'
  deduped :
  Dict.get_none result_d "adaccounts" = VDict section ->
  data_listed section ->
  follows (next_of section) st pages st' -> length pages <= fuel ->
  dedup_accounts [] (all_rows (VDict section :: pages)) = Ok deduped ->
  drain_accounts fuel (VDict result_d) st
    = (Ok (VDict (Dict.set result_d "adaccounts"
                    (VDict (strip_cursors
                              (Dict.set section "data" (VList deduped)))))),
       st').
Proof.
  intros Hsection Hdata Hfollows Hfuel Hdedup.
  unfold drain_accounts, attr_get. rewrite Hsection. run.
  rewrite (py_list_listed _ Hdata).
  rewrite (drain_follows _ _ _ _ Hfollows) by assumption.
  change (page_rows (VDict section) ++ all_rows pages)%list
    with (all_rows (VDict section :: pages)).
  now rewrite Hdedup.
Qed.

(** *** The envelope returned *)

Lemma stripped_data envelope rows :
  Dict.get (strip_cursors (Dict.set envelope "data" (VList rows))) "data"
    = Some (VList rows).
Proof.
  unfold strip_cursors.
  destruct (Dict.get_none (Dict.set envelope "data" (VList rows)) "paging");
    try apply DictFacts.get_set_same.
  rewrite DictFacts.get_set_other by discriminate.
  apply DictFacts.get_set_same.
Qed.

Lemma stripped_get envelope key :
  key <> "paging" ->
  Dict.get (strip_cursors envelope) key = Dict.get envelope key.
Proof.
  intros Hkey. unfold strip_cursors.
  destruct (Dict.get_none envelope "paging"); try reflexivity.
  apply DictFacts.get_set_other. congruence.
Qed.

(** What [strip_cursors] does to the [paging] entry. *)
Lemma stripped_paging envelope :
  match Dict.get envelope "paging" with
  | Some (VDict paging) =>
      Dict.get (strip_cursors envelope) "paging"
        = Some (VDict (Dict.pop (Dict.pop paging "next") "previous"))
  | other => Dict.get (strip_cursors envelope) "paging" = other
  end.
Proof.
  unfold strip_cursors, Dict.get_none, Dict.get_default.
  destruct (Dict.get envelope "paging") as [[]|] eqn:E; try exact E.
  apply DictFacts.get_set_same.
Qed.

Lemma stripped_cursors envelope : cursors_stripped (strip_cursors envelope).
Proof.
  intros paging Hp. pose proof (stripped_paging envelope) as H.
  destruct (Dict.get envelope "paging") as [[]|] eqn:E;
    try (rewrite H in Hp; discriminate).
  rewrite H in Hp. injection Hp as <-. split.
  - rewrite DictFacts.get_pop_other by discriminate.
    apply DictFacts.get_pop_same.
  - apply DictFacts.get_pop_same.
Qed.

End Requests.

Module PyFacts.
Import Py.

Ltac eqb_prop :=
  repeat match goal with
         | H : Z.eqb _ _ = true |- _ => apply Z.eqb_eq in H
         | H : String.eqb _ _ = true |- _ => apply String.eqb_eq in H
         | H : Bool.eqb _ _ = true |- _ => apply Bool.eqb_prop in H
         end.

Lemma eqb_refl v : hashable v = true -> eqb v v = true.
Proof.
  destruct v; simpl; try discriminate; intros _;
    [reflexivity|now destruct b|apply Z.eqb_refl|apply String.eqb_refl].
Qed.

Ltac eqb_cases :=
  cbn [eqb]; try discriminate; intros;
  repeat match goal with b : bool |- _ => destruct b end;
  cbv beta iota in *; try assumption; eqb_prop; subst;
  try reflexivity; try congruence; try apply Z.eqb_refl;
  try apply String.eqb_refl; try lia.

Lemma eqb_sym_true a b : eqb a b = true -> eqb b a = true.
Proof. destruct a, b; eqb_cases. Qed.

Lemma eqb_trans a b c : eqb a b = true -> eqb b c = true -> eqb a c = true.
Proof. destruct a, b, c; eqb_cases. Qed.

End PyFacts.

Section Accounts.

Lemma has_id_eqb v w x :
  Py.eqb v w = true -> has_id v x = has_id w x.
Proof.
  intros H. unfold has_id. destruct (Py.truthy (account_id_of x)); [|reflexivity].
  simpl. destruct (Py.eqb v (account_id_of x)) eqn:Ev,
                  (Py.eqb w (account_id_of x)) eqn:Ew; try reflexivity.
  - apply PyFacts.eqb_sym_true in H.
    now rewrite (PyFacts.eqb_trans _ _ _ H Ev) in Ew.
  - now rewrite (PyFacts.eqb_trans _ _ _ H Ew) in Ev.
Qed.

Lemma existsb_has_id_eqb v w l :
  Py.eqb v w = true -> existsb (has_id v) l = existsb (has_id w) l.
Proof.
  intros H. induction l as [|x l IH]; [reflexivity|].
  simpl. now rewrite IH, (has_id_eqb _ _ _ H).
Qed.

Lemma existsb_eqb_trans v w seen :
  Py.eqb w v = true -> existsb (Py.eqb v) seen = true ->
  existsb (Py.eqb w) seen = true.
Proof.
  intros Hwv Hv. apply existsb_exists in Hv as (s & Hin & Hs).
  apply existsb_exists. exists s. split; [assumption|].
  exact (PyFacts.eqb_trans _ _ _ Hwv Hs).
Qed.

(** The loop of [list_ad_accounts] computes [survivors], as long as
    [seen_ids] holds the identifiers of the records gone by. *)
Lemma dedup_survivors accounts : forall seen earlier,
  ids_hashable accounts ->
  (forall v, existsb (Py.eqb v) seen = existsb (has_id v) earlier) ->
  dedup_accounts seen accounts = Ok (survivors earlier accounts).
Proof.
  induction accounts as [|account rest IH]; intros seen earlier Hhash Hinv;
    [reflexivity|].
  inversion Hhash as [|? ? Hacc Hrest]; subst. simpl.
  destruct (Py.truthy (account_id_of account)) eqn:Ht; simpl.
  - rewrite (Hacc eq_refl). simpl. rewrite Hinv.
    destruct (existsb (has_id (account_id_of account)) earlier) eqn:Eseen.
    + apply IH; [assumption|]. intros v.
      rewrite existsb_app. simpl. rewrite orb_false_r, <- Hinv.
      destruct (has_id v account) eqn:Ev; [|now rewrite orb_false_r].
      rewrite orb_true_r. unfold has_id in Ev. rewrite Ht in Ev. simpl in Ev.
      apply (existsb_eqb_trans (account_id_of account)); [assumption|].
      now rewrite Hinv.
    + rewrite (IH (account_id_of account :: seen) (earlier ++ [account])%list);
        [reflexivity|assumption|].
      intros v. rewrite existsb_app. simpl. rewrite orb_false_r, Hinv.
      unfold has_id at 3. rewrite Ht. simpl. apply orb_comm.
  - rewrite (IH seen (earlier ++ [account])%list); [reflexivity|assumption|].
    intros v. rewrite existsb_app. simpl. rewrite orb_false_r, Hinv.
    unfold has_id at 3. rewrite Ht. simpl. now rewrite orb_false_r.
Qed.

Lemma survivors_app l1 : forall earlier l2,
  survivors earlier (l1 ++ l2)
    = (survivors earlier l1 ++ survivors (earlier ++ l1) l2)%list.
Proof.
  induction l1 as [|x l1 IH]; intros earlier l2; simpl.
  - now rewrite app_nil_r.
  - rewrite IH, <- app_assoc. simpl.
    now destruct (Py.truthy (account_id_of x) && _).
Qed.

Lemma survivors_subseq accounts : forall earlier,
  subseq (survivors earlier accounts) accounts.
Proof.
  induction accounts as [|x accounts IH]; intros earlier; simpl;
    [constructor|].
  destruct (Py.truthy (account_id_of x) && _); constructor; apply IH.
Qed.

Lemma filter_survivors v accounts : forall earlier,
  filter (has_id v) (survivors earlier accounts)
    = if existsb (has_id v) earlier then []
      else firstn 1 (filter (has_id v) accounts).
Proof.
  induction accounts as [|x accounts IH]; intros earlier; simpl.
  - now destruct (existsb (has_id v) earlier).
  - destruct (has_id v x) eqn:Ev.
    + assert (Py.truthy (account_id_of x) = true
              /\ Py.eqb v (account_id_of x) = true) as [Ht Heq]
        by (unfold has_id in Ev; now apply andb_prop in Ev).
      rewrite Ht, <- (existsb_has_id_eqb _ _ _ Heq). simpl.
      destruct (existsb (has_id v) earlier) eqn:Eseen.
      * rewrite IH, existsb_app, Eseen. reflexivity.
      * simpl. rewrite Ev, IH, existsb_app. simpl. rewrite Ev, orb_true_r.
        reflexivity.
    + assert (existsb (has_id v) (earlier ++ [x]) = existsb (has_id v) earlier)
        as Hsame
        by (rewrite existsb_app; simpl; now rewrite Ev, !orb_false_r).
      destruct (Py.truthy (account_id_of x) && _); simpl;
        rewrite ?Ev, IH, Hsame; reflexivity.
Qed.

Lemma first_occurrence {A} (f : A -> bool) l :
  existsb f l = true ->
  exists before first after,
    l = (before ++ first :: after)%list /\ f first = true
    /\ forall x, In x before -> f x = false.
Proof.
  induction l as [|x l IH]; simpl; [discriminate|].
  destruct (f x) eqn:Ex; simpl.
  - intros _. exists [], x, l. repeat split; [assumption|intros ? []].
  - intros H. destruct (IH H) as (before & first & after & -> & Hf & Hb).
    exists (x :: before), first, after. repeat split; [assumption|].
    intros y [<-|Hy]; [assumption|now apply Hb].
Qed.

Lemma filter_none {A} (f : A -> bool) l :
  (forall x, In x l -> f x = false) -> filter f l = [].
Proof.
  induction l as [|x l IH]; intros H; simpl; [reflexivity|].
  rewrite (H x) by now left. apply IH. intros y Hy. apply H. now right.
Qed.

Lemma existsb_none {A} (f : A -> bool) l :
  (forall x, In x l -> f x = false) -> existsb f l = false.
Proof.
  induction l as [|x l IH]; intros H; simpl; [reflexivity|].
  rewrite (H x) by now left. apply IH. intros y Hy. apply H. now right.
Qed.

(** Where the one surviving record of an identifier sits. *)
Lemma survivor_position accounts account :
  In account accounts ->
  Py.truthy (account_id_of account) = true ->
  Py.hashable (account_id_of account) = true ->
  exists before first after,
    accounts = (before ++ first :: after)%list
    /\ has_id (account_id_of account) first = true
    /\ (forall x, In x before -> has_id (account_id_of account) x = false)
    /\ filter (has_id (account_id_of account)) (survivors [] accounts) = [first]
    /\ survivors [] accounts
       = (survivors [] before
            ++ first :: survivors (before ++ [first]) after)%list.
Proof.
  intros Hin Ht Hh. remember (account_id_of account) as v eqn:Hv.
  assert (existsb (has_id v) accounts = true) as Hex.
  { apply existsb_exists. exists account. split; [assumption|].
    unfold has_id. rewrite <- Hv, Ht. now apply PyFacts.eqb_refl. }
  destruct (first_occurrence _ _ Hex) as (before & first & after & -> & Hf & Hb).
  exists before, first, after. repeat split; try assumption.
  - rewrite filter_survivors. simpl. rewrite filter_app.
    rewrite (filter_none _ _ Hb). simpl. now rewrite Hf.
  - rewrite survivors_app. simpl. f_equal.
    assert (Py.eqb v (account_id_of first) = true) as Heq
      by (unfold has_id in Hf; now apply andb_prop in Hf).
    rewrite <- (existsb_has_id_eqb _ _ _ Heq), (existsb_none _ _ Hb).
    now rewrite andb_false_r.
Qed.

End Accounts.

Section Draining.
Context {R : Runtime}.
Variable proc : process.

Lemma get_adaccount_insights_follows fuel act_id a (st : state R) envelope st1
  pages st2 :
  adaccount_insights_request proc act_id a st = (Ok (VDict envelope), st1) ->
  follows (next_of envelope) st1 pages st2 -> length pages <= fuel ->
  get_adaccount_insights proc fuel act_id a st
    = (Ok (VDict (strip_cursors
                    (Dict.set envelope "data"
                       (VList (all_rows (VDict envelope :: pages)))))), st2).
Proof.
  intros Hreq Hfollows Hfuel. unfold get_adaccount_insights, bind.
  rewrite Hreq. now apply drain_insights_follows.
Qed.

Lemma list_ad_accounts_follows fuel (st : state R) result_d st1 section pages
  st2 :
  ad_accounts_request proc st = (Ok (VDict result_d), st1) ->
  Dict.get_none result_d "adaccounts" = VDict section ->
  data_listed section ->
  follows (next_of section) st1 pages st2 -> length pages <= fuel ->
  ids_hashable (all_rows (VDict section :: pages)) ->
  list_ad_accounts proc fuel st
    = (Ok (VDict
             (Dict.set result_d "adaccounts"
                (VDict (strip_cursors
                          (Dict.set section "data"
                             (VList (survivors []
                                       (all_rows (VDict section :: pages))))))))),
       st2).
Proof.
  intros Hreq Hsection Hdata Hfollows Hfuel Hhash.
  unfold list_ad_accounts, bind. rewrite Hreq.
  apply (drain_accounts_follows _ _ _ _ pages); try assumption.
  now apply dedup_survivors.
Qed.

Lemma survivors_distinct accounts : forall earlier,
  (forall before account after,
     accounts = (before ++ account :: after)%list ->
     existsb (has_id (account_id_of account)) (earlier ++ before) = false) ->
  survivors earlier accounts = accounts.
Proof.
  induction accounts as [|x accounts IH]; intros earlier H; [reflexivity|].
  simpl. pose proof (H [] x accounts eq_refl) as Hx.
  rewrite app_nil_r in Hx. rewrite Hx, andb_false_r. f_equal.
  apply IH. intros before account after ->.
  rewrite <- app_assoc. now apply (H (x :: before) account after).
Qed.

Lemma paging_kept_stripped envelope rows :
  paging_kept envelope (strip_cursors (Dict.set envelope "data" (VList rows))).
Proof.
  unfold paging_kept.
  pose proof (stripped_paging (Dict.set envelope "data" (VList rows))) as H.
  rewrite DictFacts.get_set_other in H by discriminate.
  destruct (Dict.get envelope "paging") as [[]|]; try exact H.
  eexists. split; [exact H|]. intros key Hn Hp.
  rewrite !DictFacts.get_pop_other by congruence. reflexivity.
Qed.

Lemma frame_stripped envelope rows key :
  key <> "data" -> key <> "paging" ->
  Dict.get (strip_cursors (Dict.set envelope "data" (VList rows))) key
    = Dict.get envelope key.
Proof.
  intros Hd Hp. rewrite stripped_get by assumption.
  apply DictFacts.get_set_other. congruence.
Qed.

Lemma dedup_unidentified accounts : forall seen out,
  dedup_accounts seen accounts = Ok out ->
  filter unidentified out = filter unidentified accounts.
Proof.
  unfold unidentified.
  induction accounts as [|x accounts IH]; intros seen out; simpl.
  - now intros [= <-].
  - destruct (Py.truthy (account_id_of x)) eqn:Ht; simpl.
    + destruct (Py.hashable (account_id_of x)); simpl; [|discriminate].
      destruct (existsb _ seen); [apply IH|].
      destruct (dedup_accounts _ accounts) as [d| |] eqn:Ed; try discriminate.
      intros [= <-]. simpl. rewrite Ht. simpl. now apply (IH _ _ Ed).
    + destruct (dedup_accounts _ accounts) as [d| |] eqn:Ed; try discriminate.
      intros [= <-]. simpl. rewrite Ht. simpl. f_equal. now apply (IH _ _ Ed).
Qed.

(** C1 (as the code has it).  Whenever the pages reached through
    [paging.next] end in a page without cursor, the envelope returned has
    no [next] and no [previous] in its paging object, and its [data] is:
    for [get_adaccount_insights], the rows of all pages in fetch order, a
    missing or non-list [data] adding nothing; for [list_ad_accounts]
    (whose first page has a list as [data], or none), those rows without
    the records that repeat the identifier of an earlier record, which is
    all of them when no identifier repeats. *)
Theorem drained_envelope :
  (forall fuel act_id a (st : state R) envelope st1 pages st2,
     adaccount_insights_request proc act_id a st = (Ok (VDict envelope), st1) ->
     follows (next_of envelope) st1 pages st2 -> length pages <= fuel ->
     exists out,
       get_adaccount_insights proc fuel act_id a st = (Ok (VDict out), st2)
       /\ Dict.get out "data"
          = Some (VList (all_rows (VDict envelope :: pages)))
       /\ cursors_stripped out)
  /\ (forall fuel (st : state R) result_d st1 section pages st2,
     ad_accounts_request proc st = (Ok (VDict result_d), st1) ->
     Dict.get_none result_d "adaccounts" = VDict section ->
     data_listed section ->
     follows (next_of section) st1 pages st2 -> length pages <= fuel ->
     ids_hashable (all_rows (VDict section :: pages)) ->
     exists result' out,
       list_ad_accounts proc fuel st = (Ok (VDict result'), st2)
       /\ Dict.get result' "adaccounts" = Some (VDict out)
       /\ Dict.get out "data"
          = Some (VList (survivors [] (all_rows (VDict section :: pages))))
       /\ (distinct_ids (all_rows (VDict section :: pages)) ->
           Dict.get out "data"
           = Some (VList (all_rows (VDict section :: pages))))
       /\ cursors_stripped out).
Proof.
  split.
  - intros fuel act_id a st envelope st1 pages st2 Hreq Hfollows Hfuel.
    eexists. split; [eapply get_adaccount_insights_follows; eassumption|].
    split; [apply stripped_data|apply stripped_cursors].
  - intros fuel st result_d st1 section pages st2 Hreq Hsec Hdata Hfollows
      Hfuel Hhash.
    do 2 eexists. split; [eapply list_ad_accounts_follows; eassumption|].
    split; [apply DictFacts.get_set_same|].
    split; [apply stripped_data|].
    split; [|apply stripped_cursors].
    intros Hdistinct. rewrite stripped_data.
    rewrite survivors_distinct; [reflexivity|exact Hdistinct].
Qed.

(** C2 (as the code has it).  [get_campaign_insights],
    [get_adset_insights] and [get_ad_insights] make one request and
    return its reply as it is, whatever [paging.next] it carries: the
    world they end in is the world right after that request.  Only
    [get_adaccount_insights] and [list_ad_accounts] go on fetching until a
    page comes without [next], and return the rows of all pages. *)
Theorem only_account_tools_drain :
  (forall campaign_id a (st st' : state R) page,
     get_campaign_insights proc campaign_id a st = (Ok page, st') ->
     exists params,
       requests_get (VStr (FB_GRAPH_URL ++ "/" ++ campaign_id ++ "/insights"))
         (Some params) (world st) = (Body page, world st'))
  /\ (forall adset_id a (st st' : state R) page,
     get_adset_insights proc adset_id a st = (Ok page, st') ->
     exists params,
       requests_get (VStr (FB_GRAPH_URL ++ "/" ++ adset_id ++ "/insights"))
         (Some params) (world st) = (Body page, world st'))
  /\ (forall ad_id a (st st' : state R) page,
     get_ad_insights proc ad_id a st = (Ok page, st') ->
     exists params,
       requests_get (VStr (FB_GRAPH_URL ++ "/" ++ ad_id ++ "/insights"))
         (Some params) (world st) = (Body page, world st'))
  /\ (forall fuel act_id a (st : state R) envelope st1 pages st2,
     adaccount_insights_request proc act_id a st = (Ok (VDict envelope), st1) ->
     follows (next_of envelope) st1 pages st2 -> length pages <= fuel ->
     get_adaccount_insights proc fuel act_id a st
       = (Ok (VDict (strip_cursors
                       (Dict.set envelope "data"
                          (VList (all_rows (VDict envelope :: pages)))))),
          st2))
  /\ (forall fuel (st : state R) result_d st1 section pages st2,
     ad_accounts_request proc st = (Ok (VDict result_d), st1) ->
     Dict.get_none result_d "adaccounts" = VDict section ->
     data_listed section ->
     follows (next_of section) st1 pages st2 -> length pages <= fuel ->
     ids_hashable (all_rows (VDict section :: pages)) ->
     list_ad_accounts proc fuel st
       = (Ok (VDict
                (Dict.set result_d "adaccounts"
                   (VDict (strip_cursors
                             (Dict.set section "data"
                                (VList (survivors []
                                   (all_rows (VDict section :: pages))))))))),
          st2)).
Proof.
  repeat split.
  - intros *. apply object_insights_single.
  - intros *. apply object_insights_single.
  - intros *. apply object_insights_single.
  - intros. eapply get_adaccount_insights_follows; eassumption.
  - intros. eapply list_ad_accounts_follows; eassumption.
Qed.

(** C9.  The de-duplication of [list_ad_accounts], on records whose
    identifiers can be hashed, returns the records in their original
    order, leaving out exactly those that carry an identifier which an
    earlier record carries too.  So for every identifier met, one record
    with it remains, the first one, and it sits right after the survivors
    of the records before it.  This is the [data] that [list_ad_accounts]
    returns; [get_adaccount_insights] drops no row.  An identifier is an
    [id] that counts as true in Python. *)
Theorem accounts_deduplicated (accounts : list value) :
  ids_hashable accounts ->
  dedup_accounts [] accounts = Ok (survivors [] accounts)
  /\ subseq (survivors [] accounts) accounts
  /\ (forall account,
        In account accounts -> Py.truthy (account_id_of account) = true ->
        exists before first after,
          accounts = (before ++ first :: after)%list
          /\ has_id (account_id_of account) first = true
          /\ (forall x, In x before -> has_id (account_id_of account) x = false)
          /\ filter (has_id (account_id_of account)) (survivors [] accounts)
             = [first]
          /\ survivors [] accounts
             = (survivors [] before
                  ++ first :: survivors (before ++ [first]) after)%list)
  /\ (forall fuel (st : state R) result_d st1 section pages st2,
        ad_accounts_request proc st = (Ok (VDict result_d), st1) ->
        Dict.get_none result_d "adaccounts" = VDict section ->
        data_listed section ->
        follows (next_of section) st1 pages st2 -> length pages <= fuel ->
        accounts = all_rows (VDict section :: pages) ->
        exists result' out,
          list_ad_accounts proc fuel st = (Ok (VDict result'), st2)
          /\ Dict.get result' "adaccounts" = Some (VDict out)
          /\ Dict.get out "data" = Some (VList (survivors [] accounts)))
  /\ (forall fuel act_id a (st : state R) envelope st1 pages st2,
        adaccount_insights_request proc act_id a st
          = (Ok (VDict envelope), st1) ->
        follows (next_of envelope) st1 pages st2 -> length pages <= fuel ->
        accounts = all_rows (VDict envelope :: pages) ->
        exists out,
          get_adaccount_insights proc fuel act_id a st = (Ok (VDict out), st2)
          /\ Dict.get out "data" = Some (VList accounts)).
Proof.
  intros Hhash. split; [|split; [|split; [|split]]].
  - apply dedup_survivors; [assumption|reflexivity].
  - apply survivors_subseq.
  - intros account Hin Ht. apply survivor_position; try assumption.
    unfold ids_hashable in Hhash. rewrite Forall_forall in Hhash.
    now apply Hhash.
  - intros fuel st result_d st1 section pages st2 Hreq Hsec Hdata Hfollows
      Hfuel ->.
    do 2 eexists. split; [eapply list_ad_accounts_follows; eassumption|].
    split; [apply DictFacts.get_set_same|apply stripped_data].
  - intros fuel act_id a st envelope st1 pages st2 Hreq Hfollows Hfuel ->.
    eexists. split; [eapply get_adaccount_insights_follows; eassumption|].
    apply stripped_data.
Qed.

(** C10.  Draining changes nothing but [data] and the two cursors: in the
    envelope [get_adaccount_insights] returns, and in the [adaccounts]
    section [list_ad_accounts] returns, every key other than [data] and
    [paging] reads as on the first page, and [paging] keeps every key but
    [next] and [previous]; the other keys of the [list_ad_accounts] result
    are untouched too.  De-duplication keeps every record without an
    identifier, a record lacking the [id] field among them. *)
Theorem draining_frame :
  (forall fuel act_id a (st : state R) envelope st1 pages st2,
     adaccount_insights_request proc act_id a st = (Ok (VDict envelope), st1) ->
     follows (next_of envelope) st1 pages st2 -> length pages <= fuel ->
     exists out,
       get_adaccount_insights proc fuel act_id a st = (Ok (VDict out), st2)
       /\ (forall key, key <> "data" -> key <> "paging" ->
             Dict.get out key = Dict.get envelope key)
       /\ paging_kept envelope out)
  /\ (forall fuel (st : state R) result_d st1 section pages st2,
     ad_accounts_request proc st = (Ok (VDict result_d), st1) ->
     Dict.get_none result_d "adaccounts" = VDict section ->
     data_listed section ->
     follows (next_of section) st1 pages st2 -> length pages <= fuel ->
     ids_hashable (all_rows (VDict section :: pages)) ->
     exists result' out,
       list_ad_accounts proc fuel st = (Ok (VDict result'), st2)
       /\ (forall key, key <> "adaccounts" ->
             Dict.get result' key = Dict.get result_d key)
       /\ Dict.get result' "adaccounts" = Some (VDict out)
       /\ (forall key, key <> "data" -> key <> "paging" ->
             Dict.get out key = Dict.get section key)
       /\ paging_kept section out)
  /\ (forall accounts out,
     dedup_accounts [] accounts = Ok out ->
     filter unidentified out = filter unidentified accounts
     /\ forall record,
          In (VDict record) accounts -> Dict.get record "id" = None ->
          In (VDict record) out).
Proof.
  split; [|split].
  - intros fuel act_id a st envelope st1 pages st2 Hreq Hfollows Hfuel.
    eexists. split; [eapply get_adaccount_insights_follows; eassumption|].
    split; [intros key; apply frame_stripped|apply paging_kept_stripped].
  - intros fuel st result_d st1 section pages st2 Hreq Hsec Hdata Hfollows
      Hfuel Hhash.
    do 2 eexists. split; [eapply list_ad_accounts_follows; eassumption|].
    split; [|split; [apply DictFacts.get_set_same|]].
    + intros key Hkey. apply DictFacts.get_set_other. congruence.
    + split; [intros key; apply frame_stripped|apply paging_kept_stripped].
  - intros accounts out Hrun.
    pose proof (dedup_unidentified _ _ _ Hrun) as Hkeep.
    split; [exact Hkeep|]. intros record Hin Hid.
    assert (In (VDict record) (filter unidentified accounts)) as Hf.
    { apply filter_In. split; [assumption|].
      unfold unidentified, account_id_of, Dict.get_none, Dict.get_default.
      now rewrite Hid. }
    rewrite <- Hkeep in Hf. now apply filter_In in Hf.
Qed.

End Draining.

Section Resolution.
Context {R : Runtime}.
Variable proc : process.

#[local] Abbreviation local_candidates :=
  (argv_candidates proc (environ_candidates proc (config_candidates proc))).

Lemma nonblank_falsy v : Py.truthy v = false -> Py.nonblank v = None.
Proof.
  destruct v; simpl; try reflexivity.
  destruct s; [reflexivity|discriminate].
Qed.

(** What the configuration sources do to a session without default
    account. *)
Lemma ensure_local (st : state R) :
  DEFAULT_AD_ACCOUNT st = VNone ->
  _ensure_default_ad_account_from_config_sources proc st =
    match local_candidates with
    | Ok c =>
        match Py.nonblank (opt_value (fst c)) with
        | Some _ =>
            (Ok true,
             mkState (FB_ACCESS_TOKEN st)
               (seeded_account (opt_value (fst c)) (opt_value (snd c)))
               (world st))
        | None => (Ok false, st)
        end
    | Raise e => (Raise e, st)
    | OutOfFuel => (OutOfFuel, st)
    end.
Proof.
  intros Hnone. unfold _ensure_default_ad_account_from_config_sources. run.
  rewrite Hnone. cbn [Py.is_none negb].
  destruct local_candidates as [c| |]; try reflexivity.
  destruct (Py.truthy (opt_value (fst c))) eqn:Ht.
  - destruct (Py.nonblank (opt_value (fst c))) eqn:Hn.
    + now apply set_default_nonblank with (a := s).
    + now apply set_default_blank.
  - now rewrite (nonblank_falsy _ Ht).
Qed.

Lemma seeded_id act_id act_name t :
  Py.nonblank act_id = Some t ->
  exists d, seeded_account act_id act_name = VDict d
            /\ Dict.get_none d "id" = VStr (canonical t).
Proof.
  intros H. unfold seeded_account. rewrite H. eexists. split; reflexivity.
Qed.

Lemma canonical_truthy t : Py.truthy (VStr (canonical t)) = true.
Proof.
  simpl. pose proof (canonical_nonempty t). now destruct (canonical t).
Qed.

(** The resolution of a missing [act_id], stage by stage. *)
Lemma resolve_unfold (st : state R) :
  DEFAULT_AD_ACCOUNT st = VNone ->
  _resolve_act_id proc VNone st =
    match local_candidates with
    | Ok c =>
        match Py.nonblank (opt_value (fst c)) with
        | Some t =>
            (Ok (VStr (canonical t)),
             mkState (FB_ACCESS_TOKEN st)
               (seeded_account (opt_value (fst c)) (opt_value (snd c)))
               (world st))
        | None =>
            match fetch_default_ad_account proc st with
            | (Ok _, st2) =>
                match DEFAULT_AD_ACCOUNT st2 with
                | VNone => (Raise ResolutionError, st2)
                | VDict d =>
                    (if Py.truthy (Dict.get_none d "id")
                     then Ok (Dict.get_none d "id")
                     else Raise (ValueError
                       "Unable to determine ad account ID. Provide 'act_id' explicitly."),
                     st2)
                | _ =>
                    (Raise (ValueError
                       "Unable to determine ad account ID. Provide 'act_id' explicitly."),
                     st2)
                end
            | (Raise e, st2) => (Raise e, st2)
            | (OutOfFuel, st2) => (OutOfFuel, st2)
            end
        end
    | Raise e => (Raise e, st)
    | OutOfFuel => (OutOfFuel, st)
    end.
Proof.
  intros Hnone. unfold _resolve_act_id, _get_default_ad_account.
  cbn [Py.truthy]. run. rewrite Hnone. cbn [Py.is_none].
  rewrite (ensure_local st Hnone).
  destruct local_candidates as [c| |]; try reflexivity.
  destruct (Py.nonblank (opt_value (fst c))) as [t|] eqn:Hn.
  - destruct (seeded_id _ (opt_value (snd c)) _ Hn) as (d & Hd & Hid).
    rewrite Hd. step. rewrite Hid, canonical_truthy. reflexivity.
  - rewrite Hnone. step.
    destruct (fetch_default_ad_account proc st) as [[[]| |] st2];
      try reflexivity.
    destruct (DEFAULT_AD_ACCOUNT st2); try reflexivity.
    step. now destruct (Py.truthy (Dict.get_none d "id")).
Qed.

(** *** What each stage can raise *)

Lemma argv_raises c e :
  argv_candidates proc c = Raise e -> exists msg, e = Exception msg.
Proof.
  unfold argv_candidates. destruct (fst c); [discriminate|].
  destruct (Py.index _ _); [|discriminate].
  destruct (nth_error _ _); [|intros [= <-]; eauto].
  destruct (Py.index _ _); [|discriminate].
  destruct (nth_error _ _); [discriminate|intros [= <-]; eauto].
Qed.

Lemma token_raises (st st' : state R) e :
  _get_fb_access_token proc st = (Raise e, st') -> exists msg, e = Exception msg.
Proof.
  unfold _get_fb_access_token, _ensure_fb_token_from_config. run.
  destruct (Py.is_none (FB_ACCESS_TOKEN st)); [|discriminate].
  destruct (Py.truthy (FB_ACCESS_TOKEN st)); run; [discriminate|].
  destruct (Py.truthy _); run; [discriminate|].
  destruct (Py.index _ _); [|intros [= <- _]; eauto].
  destruct (nth_error _ _); run; [discriminate|intros [= <- _]; eauto].
Qed.

Lemma call_frame url params (st st' : state R) r :
  _make_graph_api_call url params st = (r, st') ->
  DEFAULT_AD_ACCOUNT st' = DEFAULT_AD_ACCOUNT st
  /\ FB_ACCESS_TOKEN st' = FB_ACCESS_TOKEN st
  /\ match r with
     | Ok _ => True
     | Raise e => exists msg, e = RequestException msg
     | OutOfFuel => False
     end.
Proof.
  unfold _make_graph_api_call, http.
  destruct (requests_get _ _ _) as [[body|msg] w]; intros [= <- <-];
    repeat split; eauto.
Qed.

Lemma first_adaccount_raises reply e :
  first_adaccount reply = Raise e -> e = AttributeError.
Proof.
  unfold first_adaccount. destruct reply; try (now intros [= <-]).
  destruct (Dict.get_none d "adaccounts"); try discriminate.
  destruct (Dict.get_none d0 "data"); try discriminate.
  destruct l as [|[] ?]; discriminate.
Qed.

Lemma normalize_outcome v :
  (exists t, _normalize_act_id v = Ok t /\ t <> "")
  \/ _normalize_act_id v = Raise (ValueError "Ad account ID cannot be empty.").
Proof.
  unfold _normalize_act_id.
  destruct (PyStr.is_empty (PyStr.strip (py_str v))); [now right|].
  left. eexists. split; [reflexivity|apply canonical_nonempty].
Qed.

(** The remote stage, step by step. *)
Lemma fetch_unfold (st : state R) :
  fetch_default_ad_account proc st =
    match _get_fb_access_token proc st with
    | (Ok tok, st1) =>
        match _make_graph_api_call (FB_GRAPH_URL ++ "/me") (me_params tok) st1
        with
        | (Ok reply, st2) =>
            match first_adaccount reply with
            | Ok (Some account) =>
                if Py.truthy (resolved_account_id account) then
                  match _normalize_act_id (resolved_account_id account) with
                  | Ok rid =>
                      (Ok tt,
                       mkState (FB_ACCESS_TOKEN st2)
                         (VDict [("id", VStr rid);
                                 ("name", Dict.get_none account "name")])
                         (world st2))
                  | Raise e => (Raise e, st2)
                  | OutOfFuel => (OutOfFuel, st2)
                  end
                else (Ok tt, st2)
            | Ok None => (Ok tt, st2)
            | Raise e => (Raise e, st2)
            | OutOfFuel => (OutOfFuel, st2)
            end
        | (Raise e, st2) => (Raise e, st2)
        | (OutOfFuel, st2) => (OutOfFuel, st2)
        end
    | (Raise e, st1) => (Raise e, st1)
    | (OutOfFuel, st1) => (OutOfFuel, st1)
    end.
Proof.
  unfold fetch_default_ad_account, me_params. run.
  destruct (_get_fb_access_token proc st) as [[tok| |] st1]; try reflexivity.
  destruct (_make_graph_api_call _ _ st1) as [[reply| |] st2]; try reflexivity.
  destruct (first_adaccount reply) as [[account|]| |]; try reflexivity.
  destruct (Py.truthy (resolved_account_id account)); [|reflexivity].
  now destruct (_normalize_act_id (resolved_account_id account)).
Qed.

(** *** The local sources *)

Lemma first_nonblank_stripped mapping aliases t :
  first_nonblank mapping aliases = Some t -> Py.nonblank (VStr t) = Some t.
Proof.
  induction aliases as [|key rest IH]; simpl; [discriminate|].
  destruct (Py.nonblank (Dict.get_none mapping key)) eqn:E; [|exact IH].
  intros [= <-]. apply nonblank_stripped in E as [Hs Hne].
  simpl. rewrite Hs. apply PyStrFacts.is_empty_false in Hne. now rewrite Hne.
Qed.

Lemma extract_stripped mapping c :
  (forall i, fst c = Some i -> Py.nonblank (VStr i) = Some i) ->
  forall i, fst (_extract_from_mapping mapping c) = Some i ->
            Py.nonblank (VStr i) = Some i.
Proof.
  intros Hc i. unfold _extract_from_mapping.
  destruct mapping; try apply Hc. cbn [fst].
  destruct (fst c) eqn:E; [intros [= <-]; now apply Hc|].
  apply first_nonblank_stripped.
Qed.

Lemma config_id_stripped i :
  fst (config_candidates proc) = Some i -> Py.nonblank (VStr i) = Some i.
Proof.
  unfold config_candidates.
  assert (forall j, fst (_extract_from_mapping (_load_config_from_env proc)
                           (None, None)) = Some j ->
                    Py.nonblank (VStr j) = Some j) as H0
    by (apply extract_stripped; discriminate).
  destruct (_load_config_from_env proc); try apply H0.
  now apply extract_stripped.
Qed.

Lemma local_of_config i :
  fst (config_candidates proc) = Some i ->
  local_candidates = Ok (config_candidates proc).
Proof.
  intros H. unfold environ_candidates, argv_candidates. now rewrite H, H.
Qed.

Lemma local_of_environ e :
  fst (config_candidates proc) = None ->
  os_environ_get proc "FB_DEFAULT_ACT_ID" = Some e -> PyStr.strip e <> "" ->
  exists name, local_candidates = Ok (Some (PyStr.strip e), name).
Proof.
  intros Hc He Hne. unfold environ_candidates. rewrite Hc, He.
  apply PyStrFacts.is_empty_false in Hne. rewrite Hne.
  unfold argv_candidates. cbn [fst]. eauto.
Qed.

Lemma nonblank_of_stripped s :
  PyStr.strip s <> "" -> Py.nonblank (VStr (PyStr.strip s)) = Some (PyStr.strip s).
Proof.
  intros H. simpl. rewrite PyStrFacts.strip_idem.
  apply PyStrFacts.is_empty_false in H. now rewrite H.
Qed.

Lemma resolve_local (st : state R) c t :
  DEFAULT_AD_ACCOUNT st = VNone ->
  local_candidates = Ok c -> Py.nonblank (opt_value (fst c)) = Some t ->
  exists st',
    _resolve_act_id proc VNone st = (Ok (VStr (canonical t)), st')
    /\ world st' = world st.
Proof.
  intros Hnone Hc Ht. rewrite (resolve_unfold st Hnone), Hc, Ht.
  eexists. split; reflexivity.
Qed.

(** *** The remote source *)

Lemma resolve_remote (st : state R) c tok st1 reply st2 account rid :
  DEFAULT_AD_ACCOUNT st = VNone ->
  local_candidates = Ok c -> Py.nonblank (opt_value (fst c)) = None ->
  _get_fb_access_token proc st = (Ok tok, st1) ->
  _make_graph_api_call (FB_GRAPH_URL ++ "/me") (me_params tok) st1
    = (Ok reply, st2) ->
  first_adaccount reply = Ok (Some account) ->
  Py.truthy (resolved_account_id account) = true ->
  _normalize_act_id (resolved_account_id account) = Ok rid ->
  _resolve_act_id proc VNone st
    = (Ok (VStr rid),
       mkState (FB_ACCESS_TOKEN st2)
         (VDict [("id", VStr rid); ("name", Dict.get_none account "name")])
         (world st2)).
Proof.
  intros Hnone Hc Hn Htok Hcall Hfirst Htruthy Hnorm.
  rewrite (resolve_unfold st Hnone), Hc, Hn.
  rewrite fetch_unfold, Htok, Hcall, Hfirst, Htruthy, Hnorm. step.
  destruct (normalize_outcome (resolved_account_id account))
    as [(t & Ht & Hne)|Hr]; [|congruence].
  assert (t = rid) as -> by congruence.
  unfold Dict.get_none, Dict.get_default. simpl.
  now destruct rid.
Qed.

Lemma resolved_by_id account s :
  Dict.get account "id" = Some (VStr s) -> PyStr.strip s <> "" ->
  Py.truthy (resolved_account_id account) = true
  /\ _normalize_act_id (resolved_account_id account)
     = Ok (canonical (PyStr.strip s)).
Proof.
  intros Hid Hne. unfold resolved_account_id, Dict.get_none, Dict.get_default.
  rewrite Hid.
  assert (Py.truthy (VStr s) = true) as Ht.
  { simpl. destruct s; [now elim Hne|reflexivity]. }
  rewrite Ht. split; [exact Ht|now apply normalize_nonblank].
Qed.

Lemma resolved_by_account_id account n :
  Dict.get account "id" = None ->
  Dict.get account "account_id" = Some (VStr n) ->
  PyStr.strip n = n -> n <> "" ->
  Py.truthy (resolved_account_id account) = true
  /\ _normalize_act_id (resolved_account_id account) = Ok (canonical n).
Proof.
  intros Hid Hacc Hs Hne.
  unfold resolved_account_id, Dict.get_none, Dict.get_default.
  rewrite Hid, Hacc. cbn [Py.truthy py_str].
  assert (PyStr.is_empty n = false) as -> by now apply PyStrFacts.is_empty_false.
  cbn [negb]. fold (canonical n). split; [apply canonical_truthy|].
  assert (PyStr.strip n <> "") as Hne' by congruence.
  rewrite normalize_nonblank; rewrite <- Hs, canonical_stripped by assumption.
  - now rewrite canonical_idem.
  - apply canonical_nonempty.
Qed.

(** *** The error *)

Lemma resolution_error_iff (st : state R) :
  DEFAULT_AD_ACCOUNT st = VNone ->
  fst (_resolve_act_id proc VNone st) = Raise ResolutionError <->
  exists c tok st1 reply st2 found,
    local_candidates = Ok c
    /\ Py.nonblank (opt_value (fst c)) = None
    /\ _get_fb_access_token proc st = (Ok tok, st1)
    /\ _make_graph_api_call (FB_GRAPH_URL ++ "/me") (me_params tok) st1
       = (Ok reply, st2)
    /\ first_adaccount reply = Ok found
    /\ match found with
       | Some account => Py.truthy (resolved_account_id account) = false
       | None => True
       end.
Proof.
  intros Hnone. rewrite (resolve_unfold st Hnone), fetch_unfold. split.
  - destruct local_candidates as [c|e|] eqn:Hc;
      [|apply argv_raises in Hc as [msg ->]; discriminate|discriminate].
    destruct (Py.nonblank (opt_value (fst c))) eqn:Hn; [discriminate|].
    destruct (_get_fb_access_token proc st) as [[tok|e|] st1] eqn:Htok;
      [|apply token_raises in Htok as [msg ->]; discriminate|discriminate].
    destruct (_make_graph_api_call _ _ st1) as [[reply|e|] st2] eqn:Hcall;
      [|apply call_frame in Hcall as (_ & _ & [msg ->]); discriminate
       |discriminate].
    destruct (first_adaccount reply) as [[account|]|e|] eqn:Hfirst;
      [| |apply first_adaccount_raises in Hfirst as ->; discriminate
       |discriminate].
    + destruct (Py.truthy (resolved_account_id account)) eqn:Ht.
      * destruct (normalize_outcome (resolved_account_id account))
          as [(t & Hnorm & Hne)|Hnorm]; rewrite Hnorm; [|discriminate].
        step. unfold Dict.get_none, Dict.get_default. simpl.
        destruct t; [now elim Hne|discriminate].
      * intros _. exists c, tok, st1, reply, st2, (Some account).
        repeat split; assumption.
    + intros _. exists c, tok, st1, reply, st2, None. repeat split; assumption.
  - intros (c & tok & st1 & reply & st2 & found & Hc & Hn & Htok & Hcall
            & Hfirst & Hfound).
    rewrite Hc, Hn, Htok, Hcall, Hfirst.
    apply token_frame in Htok as [_ Hd1].
    apply call_frame in Hcall as (Hd2 & _ & _).
    assert (DEFAULT_AD_ACCOUNT st2 = VNone) as Hd by congruence.
    destruct found as [account|]; [rewrite Hfound|]; now rewrite Hd.
Qed.

Lemma resolve_propagates (st : state R) c :
  DEFAULT_AD_ACCOUNT st = VNone ->
  local_candidates = Ok c -> Py.nonblank (opt_value (fst c)) = None ->
  (forall e st1,
     _get_fb_access_token proc st = (Raise e, st1) ->
     _resolve_act_id proc VNone st = (Raise e, st1))
  /\ (forall tok st1 e st2,
     _get_fb_access_token proc st = (Ok tok, st1) ->
     _make_graph_api_call (FB_GRAPH_URL ++ "/me") (me_params tok) st1
       = (Raise e, st2) ->
     _resolve_act_id proc VNone st = (Raise e, st2)).
Proof.
  intros Hnone Hc Hn. rewrite (resolve_unfold st Hnone), Hc, Hn, fetch_unfold.
  split.
  - intros e st1 ->. reflexivity.
  - intros tok st1 e st2 -> ->. reflexivity.
Qed.

Lemma local_cli_missing i :
  fst (environ_candidates proc (config_candidates proc)) = None ->
  Py.index "--default-act-id" (argv proc) = Some i ->
  nth_error (argv proc) (i + 1) = None ->
  local_candidates
    = Raise (Exception
        "--default-act-id argument provided but no value followed it").
Proof. intros Hc Hi Hv. unfold argv_candidates. now rewrite Hc, Hi, Hv. Qed.

Lemma local_cli_value i v c :
  fst (environ_candidates proc (config_candidates proc)) = None ->
  Py.index "--default-act-id" (argv proc) = Some i ->
  nth_error (argv proc) (i + 1) = Some v ->
  local_candidates = Ok c -> fst c = Some v.
Proof.
  intros Hc Hi Hv. unfold argv_candidates. rewrite Hc, Hi, Hv.
  destruct (Py.index "--default-act-name" (argv proc)) as [j|];
    [|now intros [= <-]].
  destruct (nth_error (argv proc) (j + 1)); [now intros [= <-]|discriminate].
Qed.

(** C3 (as the code has it).  With no [act_id] and no cached default
    account, the default comes from the first source that has one, in this
    order: the configuration aliases; [FB_DEFAULT_ACT_ID]; the value after
    [--default-act-id], a flag with nothing after it being a configuration
    error; the first account the remote lists for the token, whose [id] is
    taken, or else its raw [account_id] with [act_] put in front.  The
    first three make no request.  The resolution error is raised exactly
    when the configuration has nothing usable and the remote query
    completes without an account identifier; when the token cannot be
    found or the query fails, that error is the one raised. *)
Theorem default_account_resolution (st : state R) :
  DEFAULT_AD_ACCOUNT st = VNone ->
  (forall i,
     fst (config_candidates proc) = Some i ->
     exists st',
       _resolve_act_id proc VNone st = (Ok (VStr (canonical i)), st')
       /\ world st' = world st)
  /\ (forall e,
     fst (config_candidates proc) = None ->
     os_environ_get proc "FB_DEFAULT_ACT_ID" = Some e ->
     PyStr.strip e <> "" ->
     exists st',
       _resolve_act_id proc VNone st
         = (Ok (VStr (canonical (PyStr.strip e))), st')
       /\ world st' = world st)
  /\ (forall i,
     fst (environ_candidates proc (config_candidates proc)) = None ->
     Py.index "--default-act-id" (argv proc) = Some i ->
     (nth_error (argv proc) (i + 1) = None ->
      _resolve_act_id proc VNone st
        = (Raise (Exception
             "--default-act-id argument provided but no value followed it"),
           st))
     /\ (forall v c,
         nth_error (argv proc) (i + 1) = Some v ->
         local_candidates = Ok c -> PyStr.strip v <> "" ->
         exists st',
           _resolve_act_id proc VNone st
             = (Ok (VStr (canonical (PyStr.strip v))), st')
           /\ world st' = world st))
  /\ (forall c tok st1 reply st2 account,
     local_candidates = Ok c -> Py.nonblank (opt_value (fst c)) = None ->
     _get_fb_access_token proc st = (Ok tok, st1) ->
     _make_graph_api_call (FB_GRAPH_URL ++ "/me") (me_params tok) st1
       = (Ok reply, st2) ->
     first_adaccount reply = Ok (Some account) ->
     (forall s,
        Dict.get account "id" = Some (VStr s) -> PyStr.strip s <> "" ->
        fst (_resolve_act_id proc VNone st)
          = Ok (VStr (canonical (PyStr.strip s))))
     /\ (forall n,
        Dict.get account "id" = None ->
        Dict.get account "account_id" = Some (VStr n) ->
        PyStr.strip n = n -> n <> "" ->
        fst (_resolve_act_id proc VNone st) = Ok (VStr (canonical n))))
  /\ (fst (_resolve_act_id proc VNone st) = Raise ResolutionError <->
      exists c tok st1 reply st2 found,
        local_candidates = Ok c
        /\ Py.nonblank (opt_value (fst c)) = None
        /\ _get_fb_access_token proc st = (Ok tok, st1)
        /\ _make_graph_api_call (FB_GRAPH_URL ++ "/me") (me_params tok) st1
           = (Ok reply, st2)
        /\ first_adaccount reply = Ok found
        /\ match found with
           | Some account => Py.truthy (resolved_account_id account) = false
           | None => True
           end)
  /\ (forall c,
     local_candidates = Ok c -> Py.nonblank (opt_value (fst c)) = None ->
     (forall e st1,
        _get_fb_access_token proc st = (Raise e, st1) ->
        _resolve_act_id proc VNone st = (Raise e, st1))
     /\ (forall tok st1 e st2,
        _get_fb_access_token proc st = (Ok tok, st1) ->
        _make_graph_api_call (FB_GRAPH_URL ++ "/me") (me_params tok) st1
          = (Raise e, st2) ->
        _resolve_act_id proc VNone st = (Raise e, st2))).
Proof.
  intros Hnone. split; [|split; [|split; [|split; [|split]]]].
  - intros i Hi. apply (resolve_local st (config_candidates proc));
      [assumption|now apply (local_of_config i)|].
    rewrite Hi. now apply config_id_stripped.
  - intros e Hc He Hne.
    destruct (local_of_environ e Hc He Hne) as [name Hlocal].
    apply (resolve_local st _ _ Hnone Hlocal). now apply nonblank_of_stripped.
  - intros i Hc Hi. split.
    + intros Hv. rewrite (resolve_unfold st Hnone).
      now rewrite (local_cli_missing i).
    + intros v c Hv Hlocal Hne.
      apply (resolve_local st c _ Hnone Hlocal).
      rewrite (local_cli_value i v c) by assumption.
      simpl. apply PyStrFacts.is_empty_false in Hne. now rewrite Hne.
  - intros c tok st1 reply st2 account Hlocal Hn Htok Hcall Hfirst. split.
    + intros s Hid Hne. destruct (resolved_by_id account s Hid Hne) as [Ht Hr].
      now rewrite (resolve_remote st c tok st1 reply st2 account _
                     Hnone Hlocal Hn Htok Hcall Hfirst Ht Hr).
    + intros n Hid Hacc Hs Hne.
      destruct (resolved_by_account_id account n Hid Hacc Hs Hne) as [Ht Hr].
      now rewrite (resolve_remote st c tok st1 reply st2 account _
                     Hnone Hlocal Hn Htok Hcall Hfirst Ht Hr).
  - now apply resolution_error_iff.
  - intros c. now apply resolve_propagates.
Qed.

End Resolution.

(* ===================================================================== *)
(** ** Worked examples *)
(* ===================================================================== *)

Module Examples.
Import Scenario.

Ltac chain :=
  repeat first
    [ apply follows_end; reflexivity
    | eapply follows_page; [reflexivity|reflexivity|] ].

Example normalize_examples :
  @_normalize_act_id Sim.runtime (VStr " 123 ") = Ok "act_123"
  /\ @_normalize_act_id Sim.runtime (VStr "act_123") = Ok "act_123"
  /\ @_normalize_act_id Sim.runtime (VInt 42) = Ok "act_42".
Proof. repeat split. Qed.

Example drain_insights_example :
  fst (get_adaccount_insights Sim.bare 2 (VStr "act_1")
         (insights_defaults (VStr "account")) (Sim.session table))
  = Ok (VDict [("data", VList rows);
               ("paging", VDict [("cursors", VDict [("after", VStr "c1")])]);
               ("summary", VStr "kept")]).
Proof. reflexivity. Qed.

Example drain_out_of_fuel :
  fst (get_adaccount_insights Sim.bare 1 (VStr "act_1")
         (insights_defaults (VStr "account")) (Sim.session table))
  = OutOfFuel.
Proof. reflexivity. Qed.

Example list_accounts_example :
  fst (list_ad_accounts Sim.bare 2 (Sim.session table))
  = Ok (VDict
          [("adaccounts",
            VDict [("data", VList distinct_rows);
                   ("paging", VDict [("cursors", VDict [("after", VStr "c1")])]);
                   ("summary", VStr "kept")]);
           ("id", VStr "10001")]).
Proof. reflexivity. Qed.

Lemma insights_chain :
  follows (next_of page1) after_first_insights [VDict page2; VDict page3]
    after_last_insights.
Proof. chain. Qed.

Lemma accounts_chain :
  follows (next_of page1) after_first_accounts [VDict page2; VDict page3]
    after_last_accounts.
Proof. chain. Qed.

Lemma rows_hashable : ids_hashable rows.
Proof. repeat constructor. Qed.

Lemma page1_listed : data_listed page1.
Proof. right. eexists. reflexivity. Qed.

(** *** C1 *)

Lemma drained_envelope_witness :
  exists out,
    get_adaccount_insights Sim.bare 2 (VStr "act_1")
      (insights_defaults (VStr "account")) (Sim.session table)
      = (Ok (VDict out), after_last_insights)
    /\ Dict.get out "data" = Some (VList rows)
    /\ cursors_stripped out.
Proof.
  destruct (proj1 (drained_envelope Sim.bare) 2 (VStr "act_1")
              (insights_defaults (VStr "account")) (Sim.session table)
              page1 after_first_insights [VDict page2; VDict page3]
              after_last_insights eq_refl insights_chain (le_n 2))
    as (out & Hrun & Hdata & Hpaging).
  exists out. split; [exact Hrun|]. split; [exact Hdata|exact Hpaging].
Defined.

(** The account listing does not return the concatenation of its pages:
    the second [act_2] is gone. *)
Lemma list_ad_accounts_not_concatenation :
  exists result section st',
    list_ad_accounts Sim.bare 2 (Sim.session table) = (Ok (VDict result), st')
    /\ Dict.get result "adaccounts" = Some (VDict section)
    /\ Dict.get section "data" = Some (VList distinct_rows)
    /\ all_rows [VDict page1; VDict page2; VDict page3] = rows
    /\ Dict.get section "data"
       <> Some (VList (all_rows [VDict page1; VDict page2; VDict page3])).
Proof.
  do 3 eexists. split; [reflexivity|].
  split; [reflexivity|]. split; [reflexivity|].
  split; [reflexivity|discriminate].
Qed.

(** *** C2 *)

Lemma only_account_tools_drain_witness :
  exists params,
    Sim.get (VStr (FB_GRAPH_URL ++ "/123/insights")) (Some params)
      (world (Sim.session table))
    = (Body (VDict page1),
       world (snd (get_campaign_insights Sim.bare "123"
                     (insights_defaults VNone) (Sim.session table)))).
Proof.
  exact (proj1 (only_account_tools_drain Sim.bare) "123"
           (insights_defaults VNone) (Sim.session table) _ (VDict page1)
           eq_refl).
Defined.

(** [get_campaign_insights] hands back the first page with [paging.next]
    still in it, after a single request. *)
Lemma campaign_insights_returns_first_page :
  let run := get_campaign_insights Sim.bare "123" (insights_defaults VNone)
               (Sim.session table) in
  fst run = Ok (VDict page1)
  /\ Py.truthy (next_of page1) = true
  /\ Sim.requests (world (snd run))
     = [(VStr (FB_GRAPH_URL ++ "/123/insights"),
         Some [("access_token", VStr "TOKEN"); ("level", VStr "campaign");
               ("date_preset", VStr "last_30d");
               ("use_unified_attribution_setting", VStr "true")])]
  /\ page_rows (VDict page1)
     <> all_rows [VDict page1; VDict page2; VDict page3].
Proof.
  split; [reflexivity|]. split; [reflexivity|].
  split; [reflexivity|discriminate].
Qed.

(** *** C3 *)

Lemma default_account_resolution_witness :
  DEFAULT_AD_ACCOUNT (Sim.session table) = VNone
  /\ fst (_resolve_act_id Sim.bare VNone (Sim.session table))
     = Ok (VStr "act_1").
Proof.
  split; [reflexivity|].
  destruct (default_account_resolution Sim.bare (Sim.session table) eq_refl)
    as (_ & _ & _ & Hremote & _).
  destruct (Hremote (None, None) (VStr "TOKEN") (Sim.session table)
              (VDict me)
              (snd (_make_graph_api_call (FB_GRAPH_URL ++ "/me")
                      (me_params (VStr "TOKEN")) (Sim.session table)))
              [("id", VStr "act_1"); ("name", VStr "Account act_1")]
              eq_refl eq_refl eq_refl eq_refl eq_refl) as [Hid _].
  apply (Hid "act_1" eq_refl). discriminate.
Defined.

(** With nothing configured, no source yields an account in a session
    without token, nor in one whose token the remote turns down; the error
    raised is the one about the token in the first, the one of the HTTP
    client in the second, and the resolution error in neither. *)
Lemma failed_sources_raise_their_own_error :
  argv_candidates Sim.bare
    (environ_candidates Sim.bare (config_candidates Sim.bare))
    = Ok (None, None)
  /\ _resolve_act_id Sim.bare VNone blank
     = (Raise (Exception
          "Facebook token must be provided via '--fb-token' command line argument"),
        blank)
  /\ Sim.requests (world blank) = []
  /\ fst (_resolve_act_id Sim.bare VNone blank) <> Raise ResolutionError
  /\ fst (_resolve_act_id Sim.bare VNone (Sim.session []))
     = Raise (RequestException "404 Client Error")
  /\ DEFAULT_AD_ACCOUNT (snd (_resolve_act_id Sim.bare VNone (Sim.session [])))
     = VNone
  /\ fst (_resolve_act_id Sim.bare VNone (Sim.session []))
     <> Raise ResolutionError.
Proof.
  split; [reflexivity|]. split; [reflexivity|]. split; [reflexivity|].
  split; [discriminate|]. split; [reflexivity|]. split; [reflexivity|].
  discriminate.
Qed.

(** *** C4 *)

Lemma set_access_token_resets_default_witness :
  PyStr.strip " TOKEN " <> ""
  /\ snd (set_access_token (VStr " TOKEN ") (VStr "123") (VStr " Main ")
            (@mkState Sim.runtime (VStr "old") (row "act_9") (Sim.remote table)))
     = @mkState Sim.runtime (VStr "TOKEN")
         (VDict [("id", VStr "act_123"); ("name", VStr "Main")])
         (Sim.remote table).
Proof.
  assert (PyStr.strip " TOKEN " <> "") as Hne by discriminate.
  split; [exact Hne|].
  now rewrite (set_access_token_resets_default " TOKEN " (VStr "123")
                 (VStr " Main ")
                 (@mkState Sim.runtime (VStr "old") (row "act_9")
                    (Sim.remote table)) Hne).
Defined.

(** *** C5 *)

Lemma insights_time_window_witness :
  exists out,
    @_build_insights_params Sim.runtime [("access_token", VStr "TOKEN")]
      (insights_defaults (VStr "account")) = Ok out
    /\ Dict.get out "date_preset" = Some (VStr "last_30d")
    /\ Dict.get out "time_increment" = None.
Proof.
  eexists. split; [reflexivity|].
  assert (forall key, In key time_keys ->
            Dict.get [("access_token", VStr "TOKEN")] key = None) as Hbase.
  { intros key Hin. simpl in Hin.
    repeat (destruct Hin as [<-|Hin]; [reflexivity|]). contradiction. }
  destruct (insights_time_window (R := Sim.runtime)
              [("access_token", VStr "TOKEN")]
              (insights_defaults (VStr "account")) _ Hbase eq_refl)
    as (Hpreset & _ & _ & _ & _ & Hincrement).
  split; [exact Hpreset|exact Hincrement].
Defined.

(** With both [time_range] and [time_ranges] set, the mapping carries
    both: [time_ranges] does not displace [time_range]. *)
Lemma time_ranges_keeps_time_range :
  exists out,
    @_build_insights_params Sim.runtime [("access_token", VStr "TOKEN")]
      both_ranges = Ok out
    /\ Py.truthy (time_ranges both_ranges) = true
    /\ Dict.get out "time_ranges" <> None
    /\ Dict.get out "time_range" <> None.
Proof.
  eexists. split; [reflexivity|]. split; [reflexivity|].
  split; discriminate.
Qed.

(** *** C6 *)

Lemma prepare_params_extends_witness :
  exists out,
    @_prepare_params Sim.runtime [("access_token", VStr "TOKEN")] Cases.every_key
      = Ok out
    /\ Dict.get out "fields" = Some (VStr "a,b,c")
    /\ Dict.get out "action_attribution_windows" = Some (VStr "1d_view,7d_click")
    /\ Dict.get out "action_breakdowns" = Some (VStr "action_type")
    /\ Dict.get out "breakdowns" = Some (VStr "age,gender")
    /\ Dict.get out "filtering" = Some (VStr (Sim.dumps Cases.spend_filter))
    /\ Dict.get out "time_range" = Some (VStr (Sim.dumps Cases.january))
    /\ Dict.get out "time_ranges"
       = Some (VStr (Sim.dumps (VList [Cases.january])))
    /\ Dict.get out "effective_status"
       = Some (VStr (Sim.dumps (VList [VStr "ACTIVE"])))
    /\ Dict.get out "special_ad_categories"
       = Some (VStr (Sim.dumps (VList [VStr "HOUSING"])))
    /\ Dict.get out "objective"
       = Some (VStr (Sim.dumps (VList [VStr "OUTCOME_SALES"])))
    /\ Dict.get out "buyer_guarantee_agreement_status"
       = Some (VStr (Sim.dumps (VList [VStr "APPROVED"])))
    /\ Dict.get out "limit" = None
    /\ Dict.get out "offset" = None
    /\ Dict.get out "sort" = Some (VList [VStr "spend_descending"])
    /\ Dict.get out "locale" = Some (VStr "")
    /\ Dict.get out "access_token" = Some (VStr "TOKEN").
Proof.
  assert (NoDup (map fst Cases.every_key)) as Hnd
    by (repeat constructor; simpl; intuition discriminate).
  destruct (prepare_params_extends (R := Sim.runtime)
              [("access_token", VStr "TOKEN")] Cases.every_key Hnd) as [_ Hout].
  eexists. split; [reflexivity|].
  destruct (Hout _ eq_refl) as (Habsent & Hjoined & Hjson & Hplain).
  repeat split;
    first
      [ apply Hjoined; [simpl; tauto|reflexivity]
      | apply Hjson; [simpl; tauto|reflexivity|reflexivity]
      | apply (Habsent "limit"); right; reflexivity
      | apply (Habsent "offset"); left; reflexivity
      | apply (Habsent "access_token"); left; reflexivity
      | apply Hplain;
        [reflexivity|reflexivity|simpl; intuition discriminate
        |simpl; intuition discriminate] ].
Defined.

(** *** C7 *)

Lemma campaign_insights_default_request_witness :
  get_campaign_insights Sim.bare "123" (insights_defaults VNone)
    (Sim.session table)
  = _make_graph_api_call "https://graph.facebook.com/v22.0/123/insights"
      [("access_token", VStr "TOKEN"); ("level", VStr "campaign");
       ("date_preset", VStr "last_30d");
       ("use_unified_attribution_setting", VStr "true")]
      (Sim.session table).
Proof.
  exact (proj1 (campaign_insights_default_request Sim.bare
                  (Sim.session table) eq_refl)).
Defined.

(** The request that [get_campaign_insights] makes by default carries no
    [action_breakdowns] parameter. *)
Lemma default_request_omits_action_breakdowns :
  exists params,
    Sim.requests
      (world (snd (get_campaign_insights Sim.bare "123"
                     (insights_defaults VNone) (Sim.session table))))
    = [(VStr "https://graph.facebook.com/v22.0/123/insights", Some params)]
    /\ ~ (exists v, Dict.get params "action_breakdowns" = Some v).
Proof.
  eexists. split; [reflexivity|]. intros [v Hv]. discriminate.
Qed.

(** *** C8 *)

Lemma normalize_act_id_idempotent_witness :
  PyStr.strip " 123 " <> ""
  /\ @_normalize_act_id Sim.runtime (VStr " 123 ") = Ok "act_123"
  /\ @_normalize_act_id Sim.runtime (VStr "act_123") = Ok "act_123".
Proof.
  assert (PyStr.strip " 123 " <> "") as Hne by discriminate.
  destruct (normalize_act_id_idempotent (R := Sim.runtime) Sim.bare " 123 ")
    as [Hok _].
  destruct (Hok Hne) as [Hfirst Hagain].
  split; [exact Hne|]. split; [exact Hfirst|].
  exact (proj2 (Hagain "act_123" Hfirst)).
Defined.

(** *** C9 *)

Lemma accounts_deduplicated_witness :
  ids_hashable rows
  /\ dedup_accounts [] rows = Ok distinct_rows
  /\ exists result out,
       list_ad_accounts Sim.bare 2 (Sim.session table)
         = (Ok (VDict result), after_last_accounts)
       /\ Dict.get result "adaccounts" = Some (VDict out)
       /\ Dict.get out "data" = Some (VList distinct_rows).
Proof.
  destruct (accounts_deduplicated (R := Sim.runtime) Sim.bare rows
              rows_hashable) as (Hrun & _ & _ & Hlisting & _).
  split; [exact rows_hashable|]. split; [exact Hrun|].
  exact (Hlisting 2 (Sim.session table) me after_first_accounts page1
           [VDict page2; VDict page3] after_last_accounts eq_refl eq_refl
           page1_listed accounts_chain (le_n 2) eq_refl).
Defined.

(** *** C10 *)

Lemma draining_frame_witness :
  exists out,
    get_adaccount_insights Sim.bare 2 (VStr "act_1")
      (insights_defaults (VStr "account")) (Sim.session table)
      = (Ok (VDict out), after_last_insights)
    /\ Dict.get out "summary" = Some (VStr "kept")
    /\ paging_kept page1 out.
Proof.
  destruct (proj1 (draining_frame Sim.bare) 2 (VStr "act_1")
              (insights_defaults (VStr "account")) (Sim.session table)
              page1 after_first_insights [VDict page2; VDict page3]
              after_last_insights eq_refl insights_chain (le_n 2))
    as (out & Hrun & Hkeys & Hpaging).
  exists out. split; [exact Hrun|]. split; [|exact Hpaging].
  rewrite Hkeys by discriminate. reflexivity.
Defined.

End Examples.

(* ===================================================================== *)
(** ** Further properties of the session *)
(* ===================================================================== *)

Section SessionFacts.
Context {R : Runtime}.
Variable proc : process.

(** X1.  Where the access token comes from: a token that is set (even the
    empty string) is returned as it is; otherwise the [fbToken] of the
    configuration when it is true, otherwise the value after [--fb-token],
    a flag without value or no flag at all being an error that changes
    nothing.  A token found is stored, so looking it up again returns the
    same token and changes nothing; no lookup makes a request or touches
    the cached account. *)
Theorem access_token_sources (st : state R) :
  (Py.is_none (FB_ACCESS_TOKEN st) = false ->
   _get_fb_access_token proc st = (Ok (FB_ACCESS_TOKEN st), st))
  /\ (FB_ACCESS_TOKEN st = VNone ->
      (Py.truthy (configured_token proc) = true ->
       _get_fb_access_token proc st
         = (Ok (configured_token proc),
            mkState (configured_token proc) (DEFAULT_AD_ACCOUNT st) (world st)))
      /\ (Py.truthy (configured_token proc) = false ->
          match Py.index "--fb-token" (argv proc) with
          | Some i =>
              match nth_error (argv proc) (i + 1) with
              | Some token =>
                  _get_fb_access_token proc st
                    = (Ok (VStr token),
                       mkState (VStr token) (DEFAULT_AD_ACCOUNT st) (world st))
              | None =>
                  _get_fb_access_token proc st
                    = (Raise (Exception
                         "--fb-token argument provided but no token value followed it"),
                       st)
              end
          | None =>
              _get_fb_access_token proc st
                = (Raise (Exception
                     "Facebook token must be provided via '--fb-token' command line argument"),
                   st)
          end))
  /\ (forall tok st1,
      _get_fb_access_token proc st = (Ok tok, st1) ->
      _get_fb_access_token proc st1 = (Ok tok, st1)
      /\ world st1 = world st
      /\ DEFAULT_AD_ACCOUNT st1 = DEFAULT_AD_ACCOUNT st).
Proof.
  split; [apply token_cached|]. split.
  - destruct st as [tok cached w]. cbn [FB_ACCESS_TOKEN]. intros ->.
    unfold _get_fb_access_token, _ensure_fb_token_from_config.
    unfold configured_token, _load_config_from_env.
    run. cbn [Py.is_none Py.truthy]. split.
    + intros Ht. rewrite Ht. reflexivity.
    + intros Ht. rewrite Ht. step.
      destruct (Py.index "--fb-token" (argv proc)); [|reflexivity].
      now destruct (nth_error (argv proc) (n + 1)).
  - intros tok st1 Hrun.
    destruct (token_frame proc _ _ _ Hrun) as [Hw Hd].
    split; [|split; assumption].
    assert (FB_ACCESS_TOKEN st1 = tok /\ Py.is_none tok = false) as [Htok Hset].
    { revert Hrun. clear Hw Hd. destruct st as [tok0 cached w].
      unfold _get_fb_access_token, _ensure_fb_token_from_config. run.
      destruct (Py.is_none tok0) eqn:Hn;
        [|intros [= <- <-]; split; [reflexivity|assumption]].
      destruct tok0; try discriminate. cbn [Py.truthy].
      change (match _load_config_from_env proc with
              | VDict d => Dict.get_none d "fbToken"
              | _ => VNone
              end) with (configured_token proc).
      destruct (Py.truthy (configured_token proc)) eqn:Ht; step.
      - intros [= <- <-]. split; [reflexivity|].
        now destruct (configured_token proc).
      - destruct (Py.index _ _); [|discriminate].
        destruct (nth_error _ _); step; [|discriminate].
        intros [= <- <-]. split; reflexivity. }
    rewrite <- Htok in Hset |- *. now apply token_cached.
Qed.

(** *** The cached account *)

Lemma resolve_cached (st : state R) :
  Py.is_none (DEFAULT_AD_ACCOUNT st) = false ->
  _resolve_act_id proc VNone st
    = (match DEFAULT_AD_ACCOUNT st with
       | VDict d =>
           if Py.truthy (Dict.get_none d "id") then Ok (Dict.get_none d "id")
           else Raise (ValueError
             "Unable to determine ad account ID. Provide 'act_id' explicitly.")
       | _ => Raise (ValueError
             "Unable to determine ad account ID. Provide 'act_id' explicitly.")
       end, st).
Proof.
  intros Hset. unfold _resolve_act_id, _get_default_ad_account.
  cbn [Py.truthy]. run. rewrite Hset. run. rewrite Hset. run. rewrite Hset.
  destruct (DEFAULT_AD_ACCOUNT st); try reflexivity.
  now destruct (Py.truthy (Dict.get_none d "id")).
Qed.

(** A resolution that succeeds leaves the identifier it returns in the
    cache. *)
Lemma resolve_leaves_cached (st st1 : state R) v :
  _resolve_act_id proc VNone st = (Ok v, st1) ->
  exists d, DEFAULT_AD_ACCOUNT st1 = VDict d
            /\ Dict.get_none d "id" = v /\ Py.truthy v = true.
Proof.
  destruct (Py.is_none (DEFAULT_AD_ACCOUNT st)) eqn:Hnone.
  - assert (DEFAULT_AD_ACCOUNT st = VNone) as Hd
      by (destruct (DEFAULT_AD_ACCOUNT st); now try discriminate).
    rewrite (resolve_unfold proc st Hd).
    destruct (argv_candidates _ _) as [c| |]; try discriminate.
    destruct (Py.nonblank (opt_value (fst c))) as [t|] eqn:Hn.
    + intros [= <- <-].
      destruct (seeded_id _ (opt_value (snd c)) _ Hn) as (d & Hsd & Hid).
      exists d. cbn [DEFAULT_AD_ACCOUNT].
      split; [assumption|]. split; [assumption|apply canonical_truthy].
    + destruct (fetch_default_ad_account proc st) as [[[]| |] st2];
        try discriminate.
      destruct (DEFAULT_AD_ACCOUNT st2) eqn:Hd2; try discriminate.
      destruct (Py.truthy (Dict.get_none d "id")) eqn:Ht; [|discriminate].
      intros [= <- <-]. exists d. now repeat split.
  - rewrite (resolve_cached st Hnone).
    destruct (DEFAULT_AD_ACCOUNT st) eqn:Hd; try discriminate.
    destruct (Py.truthy (Dict.get_none d "id")) eqn:Ht; [|discriminate].
    intros [= <- <-]. exists d. now repeat split.
Qed.

(** X2.  Once a resolution without [act_id] has succeeded, resolving
    again returns the same identifier and leaves the session, the world
    behind the HTTP client included, exactly as it is: the second call
    makes no request. *)
Theorem default_account_cached (st st1 : state R) (v : value) :
  _resolve_act_id proc VNone st = (Ok v, st1) ->
  _resolve_act_id proc VNone st1 = (Ok v, st1).
Proof.
  intros Hrun. destruct (resolve_leaves_cached _ _ _ Hrun) as (d & Hd & Hid & Ht).
  rewrite resolve_cached by now rewrite Hd.
  now rewrite Hd, Hid, Ht.
Qed.

End SessionFacts.

Section Frames.
Context {R : Runtime}.
Variable proc : process.

Lemma evolves_refl (st : state R) : evolves st st.
Proof. split; auto. Qed.

Lemma evolves_trans (st1 st2 st3 : state R) :
  evolves st1 st2 -> evolves st2 st3 -> evolves st1 st3.
Proof.
  intros [Hc1 Ht1] [Hc2 Ht2]. split; [auto|].
  intros Hset. rewrite Ht2, Ht1; auto. now rewrite Ht1.
Qed.

Lemma evolves_same (st st' : state R) :
  FB_ACCESS_TOKEN st' = FB_ACCESS_TOKEN st ->
  DEFAULT_AD_ACCOUNT st' = DEFAULT_AD_ACCOUNT st ->
  evolves st st'.
Proof.
  intros Ht Hd. split; [|auto]. unfold cache_ok. now rewrite Hd.
Qed.

Lemma frames_ret {A} (a : A) : frames (R := R) (ret a).
Proof. intros st r st' [= _ <-]. apply evolves_refl. Qed.

Lemma frames_raise {A} e : frames (R := R) (A := A) (raise e).
Proof. intros st r st' [= _ <-]. apply evolves_refl. Qed.

Lemma frames_lift {A} (x : outcome A) : frames (R := R) (lift x).
Proof. intros st r st' [= _ <-]. apply evolves_refl. Qed.

Lemma frames_bind {A B} (m : M R A) (k : A -> M R B) :
  frames m -> (forall a, frames (k a)) -> frames (bind m k).
Proof.
  intros Hm Hk st r st'. unfold bind.
  destruct (m st) as [[a|e|] st1] eqn:E.
  - intros Hrun. eapply evolves_trans; [exact (Hm _ _ _ E)|exact (Hk _ _ _ _ Hrun)].
  - intros [= _ <-]. exact (Hm _ _ _ E).
  - intros [= _ <-]. exact (Hm _ _ _ E).
Qed.

Lemma frames_http url params : frames (R := R) (http url params).
Proof.
  intros st r st'. unfold http.
  destruct (requests_get _ _ _) as [x w]. intros [= _ <-].
  now apply evolves_same.
Qed.

Lemma frames_token : frames (_get_fb_access_token proc).
Proof.
  intros st r st' Hrun. split.
  - destruct (token_frame proc _ _ _ Hrun) as [_ Hd].
    unfold cache_ok. now rewrite Hd.
  - intros Hset. rewrite (token_cached proc st Hset) in Hrun.
    now injection Hrun as _ <-.
Qed.

Lemma normalize_prefixed x t :
  _normalize_act_id x = Ok t -> PyStr.startswith t "act_" = true.
Proof.
  unfold _normalize_act_id.
  destruct (PyStr.is_empty _); [discriminate|].
  intros [= <-]. apply (canonical_prefixed (PyStr.strip (py_str x))).
Qed.

Lemma cache_ok_seeded tok act_id act_name w t :
  Py.nonblank act_id = Some t ->
  cache_ok (@mkState R tok (seeded_account act_id act_name) w).
Proof.
  intros Hn. right. unfold seeded_account. rewrite Hn.
  do 2 eexists. cbn [DEFAULT_AD_ACCOUNT].
  split; [reflexivity|]. split; [reflexivity|apply canonical_prefixed].
Qed.

Lemma cache_ok_fetched tok rid name w :
  PyStr.startswith rid "act_" = true ->
  cache_ok (@mkState R tok (VDict [("id", VStr rid); ("name", name)]) w).
Proof.
  intros Hp. right. do 2 eexists. cbn [DEFAULT_AD_ACCOUNT].
  split; [reflexivity|]. split; [reflexivity|assumption].
Qed.

Lemma frames_fetch : frames (fetch_default_ad_account proc).
Proof.
  intros st r st'. rewrite fetch_unfold.
  destruct (_get_fb_access_token proc st) as [[tok|e|] st1] eqn:Htok;
    try (intros [= _ <-]; exact (frames_token _ _ _ Htok)).
  pose proof (frames_token _ _ _ Htok) as H1.
  destruct (_make_graph_api_call _ _ st1) as [[reply|e|] st2] eqn:Hcall;
    pose proof (frames_http _ _ _ _ _ Hcall) as H2;
    pose proof (evolves_trans _ _ _ H1 H2) as H12;
    try (intros [= _ <-]; exact H12).
  destruct (first_adaccount reply) as [[account|]|e|];
    try (intros [= _ <-]; exact H12).
  destruct (Py.truthy (resolved_account_id account));
    [|intros [= _ <-]; exact H12].
  destruct (_normalize_act_id (resolved_account_id account)) as [rid|e|] eqn:Hn;
    try (intros [= _ <-]; exact H12).
  intros [= _ <-]. apply (evolves_trans _ _ _ H12). split.
  - intros _. apply cache_ok_fetched. exact (normalize_prefixed _ _ Hn).
  - reflexivity.
Qed.

Lemma resolve_falsy act_id (st : state R) :
  Py.truthy act_id = false ->
  _resolve_act_id proc act_id st = _resolve_act_id proc VNone st.
Proof. intros H. unfold _resolve_act_id. now rewrite H. Qed.

Lemma resolve_truthy act_id (st : state R) :
  Py.truthy act_id = true ->
  _resolve_act_id proc act_id st
    = (match _normalize_act_id act_id with
       | Ok t => Ok (VStr t)
       | Raise e => Raise e
       | OutOfFuel => OutOfFuel
       end, st).
Proof.
  intros H. unfold _resolve_act_id. rewrite H. run.
  now destruct (_normalize_act_id act_id).
Qed.

Lemma frames_resolve act_id : frames (_resolve_act_id proc act_id).
Proof.
  intros st r st'. destruct (Py.truthy act_id) eqn:Ha.
  - rewrite resolve_truthy by assumption. intros [= _ <-]. apply evolves_refl.
  - rewrite resolve_falsy by assumption.
    destruct (Py.is_none (DEFAULT_AD_ACCOUNT st)) eqn:Hnone.
    + assert (DEFAULT_AD_ACCOUNT st = VNone) as Hd
        by (destruct (DEFAULT_AD_ACCOUNT st); now try discriminate).
      rewrite (resolve_unfold proc st Hd).
      destruct (argv_candidates _ _) as [c| |];
        try (intros [= _ <-]; apply evolves_refl).
      destruct (Py.nonblank (opt_value (fst c))) as [t|] eqn:Hn.
      * intros [= _ <-]. split; [|reflexivity].
        intros _. now apply (cache_ok_seeded _ _ _ _ t).
      * destruct (fetch_default_ad_account proc st) as [[[]|e|] st2] eqn:Hf;
          pose proof (frames_fetch _ _ _ Hf) as H2;
          try (intros [= _ <-]; exact H2).
        destruct (DEFAULT_AD_ACCOUNT st2); intros [= _ <-]; exact H2.
    + rewrite (resolve_cached proc st Hnone). intros [= _ <-].
      apply evolves_refl.
Qed.

(** X3.  Every identifier [_resolve_act_id] returns, whether it comes
    from the argument, the cache, the configuration or the remote, is a
    string that starts with [act_], provided that the cached account (if
    any) has such an identifier, which the resolution keeps true. *)
Theorem resolved_id_prefixed (act_id : value) (st st' : state R) (v : value) :
  cache_ok st ->
  _resolve_act_id proc act_id st = (Ok v, st') ->
  cache_ok st'
  /\ exists id, v = VStr id /\ PyStr.startswith id "act_" = true.
Proof.
  intros Hok Hrun.
  assert (cache_ok st') as Hok' by (apply (frames_resolve _ _ _ _ Hrun); exact Hok).
  split; [exact Hok'|].
  destruct (Py.truthy act_id) eqn:Ha.
  - rewrite resolve_truthy in Hrun by assumption.
    destruct (_normalize_act_id act_id) as [t| |] eqn:Hn; try discriminate.
    injection Hrun as <- _. exists t. split; [reflexivity|].
    exact (normalize_prefixed _ _ Hn).
  - rewrite resolve_falsy in Hrun by assumption.
    destruct (resolve_leaves_cached proc _ _ _ Hrun) as (d & Hd & Hid & _).
    destruct Hok' as [Hnone|(d' & id & Hd' & Hget & Hp)]; [congruence|].
    assert (d' = d) as -> by congruence.
    exists id. split; [|assumption].
    unfold Dict.get_none, Dict.get_default in Hid. now rewrite Hget in Hid.
Qed.

End Frames.

Section Invocations.
Context {R : Runtime}.
Variable proc : process.

Ltac frame_binds :=
  repeat first
    [ progress cbv zeta
    | apply frames_token | apply frames_resolve | apply frames_http
    | apply frames_ret | apply frames_raise | apply frames_lift
    | apply frames_bind; [|intros ?] ].

Lemma frames_drain fuel : forall rows next,
  frames (R := R) (drain_pages fuel rows next).
Proof.
  induction fuel as [|fuel IH]; intros rows next; simpl;
    destruct (Py.truthy next); try apply frames_ret; try apply frames_lift.
  apply frames_bind; [apply frames_http|].
  intros page. destruct page; try apply frames_raise. apply IH.
Qed.

Lemma frames_object_tool path build : frames (object_tool proc path build).
Proof. unfold object_tool, _make_graph_api_call. frame_binds. Qed.

Lemma frames_account_tool act_id edge build :
  frames (account_tool proc act_id edge build).
Proof. unfold account_tool, _make_graph_api_call. frame_binds. Qed.

Lemma frames_object_insights level id a :
  frames (object_insights proc level id a).
Proof. unfold object_insights, _make_graph_api_call. frame_binds. Qed.

Lemma frames_fetch_node node_id kwargs : frames (_fetch_node proc node_id kwargs).
Proof. unfold _fetch_node, _make_graph_api_call. frame_binds. Qed.

Lemma frames_drain_accounts fuel result :
  frames (R := R) (drain_accounts fuel result).
Proof.
  unfold drain_accounts. apply frames_bind; [apply frames_lift|].
  intros section. destruct result; try apply frames_ret.
  destruct section; try apply frames_ret.
  apply frames_bind; [apply frames_lift|]. intros first_rows.
  apply frames_bind; [apply frames_drain|]. intros rows.
  frame_binds.
Qed.

Lemma frames_list_ad_accounts fuel : frames (list_ad_accounts proc fuel).
Proof.
  unfold list_ad_accounts, ad_accounts_request, _make_graph_api_call.
  apply frames_bind; [frame_binds|]. intros result.
  apply frames_drain_accounts.
Qed.

Lemma frames_drain_insights fuel response :
  frames (R := R) (drain_insights fuel response).
Proof.
  unfold drain_insights. destruct response; try apply frames_raise.
  apply frames_bind; [apply frames_drain|]. intros rows. apply frames_ret.
Qed.

Lemma frames_adaccount_insights fuel act_id a :
  frames (get_adaccount_insights proc fuel act_id a).
Proof.
  unfold get_adaccount_insights, adaccount_insights_request,
    _make_graph_api_call.
  apply frames_bind; [frame_binds|]. intros response.
  apply frames_drain_insights.
Qed.

(** The session a call to [set_access_token] ends in. *)
Lemma set_access_token_state access_token act_id act_name (st st' : state R) r :
  set_access_token access_token act_id act_name st = (r, st') ->
  st' = st
  \/ exists token,
       Py.nonblank access_token = Some token
       /\ st' = mkState (VStr token) (seeded_account act_id act_name) (world st).
Proof.
  unfold set_access_token.
  destruct (Py.nonblank access_token) as [token|] eqn:Htok;
    [|intros [= _ <-]; now left].
  intros Hrun. right. exists token. split; [reflexivity|]. revert Hrun.
  destruct (Py.nonblank act_id) as [a|] eqn:Ha.
  - assert (Py.truthy act_id = true) as Ht.
    { apply nonblank_str in Ha as (s & -> & _ & Hs). simpl.
      destruct s; [now elim Hs|reflexivity]. }
    rewrite Ht. run. rewrite (set_default_nonblank _ _ a) by (cbn; assumption).
    now intros [= _ <-].
  - assert (seeded_account act_id act_name = VNone) as Hs
      by (unfold seeded_account; now rewrite Ha).
    rewrite Hs. destruct (Py.truthy act_id); run.
    + rewrite set_default_blank by assumption. now intros [= _ <-].
    + now intros [= _ <-].
Qed.

Lemma cache_ok_seeded_any tok act_id act_name w :
  cache_ok (@mkState R tok (seeded_account act_id act_name) w).
Proof.
  destruct (Py.nonblank act_id) as [t|] eqn:Hn.
  - now apply (cache_ok_seeded _ _ _ _ t).
  - left. unfold seeded_account. now rewrite Hn.
Qed.

(** X4.  Whatever tool is called, with whatever arguments and outcome, a
    cached default account whose [id] starts with [act_] is followed by
    one that does (or by none); and no tool but [set_access_token] changes
    a token that is set. *)
Theorem session_invariant (fuel : nat) (call : invocation)
  (st st' : state R) (r : outcome value) :
  invoke proc fuel call st = (r, st') ->
  (cache_ok st -> cache_ok st')
  /\ match call with
     | SetAccessToken _ _ _ => True
     | _ => Py.is_none (FB_ACCESS_TOKEN st) = false ->
            FB_ACCESS_TOKEN st' = FB_ACCESS_TOKEN st
     end.
Proof.
  destruct call; cbn [invoke]; intros Hrun;
    try exact (frames_object_tool _ _ _ _ _ Hrun);
    try exact (frames_account_tool _ _ _ _ _ _ Hrun);
    try exact (frames_object_insights _ _ _ _ _ _ Hrun);
    try exact (frames_http _ _ _ _ _ Hrun).
  - split; [|exact I]. intros Hok.
    destruct (set_access_token_state _ _ _ _ _ _ Hrun) as [->|(t & _ & ->)];
      [assumption|apply cache_ok_seeded_any].
  - exact (frames_list_ad_accounts _ _ _ _ Hrun).
  - assert (frames (get_details_of_ad_account proc act_id fields0)) as Hf.
    { unfold get_details_of_ad_account.
      apply frames_bind; [apply frames_resolve|].
      intros ?; apply frames_fetch_node. }
    exact (Hf _ _ _ Hrun).
  - exact (frames_adaccount_insights _ _ _ _ _ _ Hrun).
Qed.

(** *** Calls without a token *)

Lemma token_missing_depends (st st' : state R) :
  token_missing proc st ->
  FB_ACCESS_TOKEN st' = FB_ACCESS_TOKEN st ->
  token_missing proc st'.
Proof.
  intros [e Hrun] Ht. exists e. revert Hrun.
  destruct st as [tok cached w], st' as [tok' cached' w'].
  cbn [FB_ACCESS_TOKEN] in Ht. subst tok'.
  unfold _get_fb_access_token, _ensure_fb_token_from_config. run.
  destruct (Py.is_none tok); step; [|discriminate].
  destruct (Py.truthy tok); step; [discriminate|].
  destruct (Py.truthy _); step; [discriminate|].
  destruct (Py.index _ _); step; [|now intros [= <-]].
  destruct (nth_error _ _); step; [discriminate|now intros [= <-]].
Qed.

(** Without a token, resolving an account makes no request. *)
Lemma resolve_quiet act_id (st st' : state R) r :
  token_missing proc st ->
  _resolve_act_id proc act_id st = (r, st') ->
  world st' = world st /\ FB_ACCESS_TOKEN st' = FB_ACCESS_TOKEN st.
Proof.
  intros [e Hmiss]. destruct (Py.truthy act_id) eqn:Ha.
  - rewrite resolve_truthy by assumption. now intros [= _ <-].
  - rewrite resolve_falsy by assumption.
    destruct (Py.is_none (DEFAULT_AD_ACCOUNT st)) eqn:Hnone.
    + assert (DEFAULT_AD_ACCOUNT st = VNone) as Hd
        by (destruct (DEFAULT_AD_ACCOUNT st); now try discriminate).
      rewrite (resolve_unfold proc st Hd).
      destruct (argv_candidates _ _) as [c| |]; try (now intros [= _ <-]).
      destruct (Py.nonblank (opt_value (fst c))); [now intros [= _ <-]|].
      rewrite fetch_unfold, Hmiss. now intros [= _ <-].
    + rewrite (resolve_cached proc st Hnone). now intros [= _ <-].
Qed.

(** X5.  In a session where no token can be found, every tool that needs
    one ends in an exception, and the world behind the HTTP client is the
    one the call started in: no request is made. *)
Theorem no_request_without_token (fuel : nat) (call : invocation)
  (st : state R) :
  needs_token call = true ->
  token_missing proc st ->
  exists e st',
    invoke proc fuel call st = (Raise e, st') /\ world st' = world st.
Proof.
  intros Hneeds Hmiss.
  destruct call; try discriminate Hneeds; cbn [invoke];
    try (destruct Hmiss as [e He]; exists e, st; split; [|reflexivity];
         unfold list_ad_accounts, ad_accounts_request,
           get_adaccount_insights, adaccount_insights_request,
           get_campaign_insights, get_adset_insights, get_ad_insights,
           object_insights, get_ad_creative_by_id, get_ad_creatives_by_ad_id,
           get_ad_by_id, get_ads_by_adaccount, get_ads_by_campaign,
           get_ads_by_adset, get_adset_by_id, get_adsets_by_ids,
           get_adsets_by_adaccount, get_adsets_by_campaign,
           get_campaign_by_id, get_campaigns_by_adaccount,
           get_activities_by_adaccount, get_activities_by_adset,
           object_tool, account_tool, bind;
         now rewrite He).
  unfold get_details_of_ad_account, bind.
  destruct (_resolve_act_id proc act_id st) as [[v|e|] st1] eqn:Hres;
    destruct (resolve_quiet _ _ _ _ Hmiss Hres) as [Hw Ht].
  - destruct (token_missing_depends _ _ Hmiss Ht) as [e He].
    exists e, st1. split; [|assumption].
    unfold _fetch_node, bind. now rewrite He.
  - exists e, st1. split; [reflexivity|assumption].
  - exfalso. revert Hres. destruct (Py.truthy act_id) eqn:Ha.
    + rewrite resolve_truthy by assumption.
      destruct (normalize_outcome act_id) as [(t & Hn & _)|Hn]; rewrite Hn;
        discriminate.
    + rewrite resolve_falsy by assumption.
      destruct (Py.is_none (DEFAULT_AD_ACCOUNT st)) eqn:Hnone.
      * assert (DEFAULT_AD_ACCOUNT st = VNone) as Hd
          by (destruct (DEFAULT_AD_ACCOUNT st); now try discriminate).
        rewrite (resolve_unfold proc st Hd).
        destruct (argv_candidates _ _) as [c|e0|] eqn:Hc; try discriminate.
        -- destruct (Py.nonblank (opt_value (fst c))); [discriminate|].
           destruct Hmiss as [e He]. rewrite fetch_unfold, He. discriminate.
        -- unfold argv_candidates in Hc.
           destruct (fst _); [discriminate|].
           destruct (Py.index "--default-act-id" (argv proc)); [|discriminate].
           destruct (nth_error (argv proc) (n + 1)); [|discriminate].
           destruct (Py.index "--default-act-name" (argv proc)) as [j|];
             [|discriminate].
           destruct (nth_error (argv proc) (j + 1)); discriminate.
      * rewrite (resolve_cached proc st Hnone).
        destruct (DEFAULT_AD_ACCOUNT st); try discriminate.
        destruct (Py.truthy (Dict.get_none d "id")); discriminate.
Qed.

End Invocations.

Section MoreParameters.
Context {R : Runtime}.
Variable proc : process.

Lemma comma_keys_not_json key :
  Py.mem key comma_joined_keys = true -> Py.mem key json_encoded_keys = false.
Proof.
  intros Hc. destruct (Py.mem key json_encoded_keys) eqn:Hj; [|reflexivity].
  now rewrite (keys_disjoint _ Hj) in Hc.
Qed.

Lemma str_items_forall items l :
  str_items items = Ok l -> Forall (fun x => Py.is_str x = true) items.
Proof.
  revert l. induction items as [|x items IH]; intros l; simpl; [constructor|].
  destruct x; try discriminate.
  destruct (str_items items) as [l'| |] eqn:E; try discriminate.
  intros _. constructor; [reflexivity|now apply (IH l')].
Qed.

Lemma str_items_cases items :
  (exists l, str_items items = Ok l) \/ str_items items = Raise TypeError.
Proof.
  induction items as [|x items IH]; simpl; [eauto|].
  destruct x; try (now right).
  destruct IH as [[l ->]| ->]; eauto.
Qed.

Lemma prepare_one_cases params key v :
  (exists params', prepare_one params key v = Ok params')
  \/ prepare_one params key v = Raise TypeError.
Proof.
  unfold prepare_one. destruct (Py.is_none v); [eauto|].
  destruct (_ && _); [eauto|]. destruct v; eauto.
  destruct (Py.mem key comma_joined_keys); [|eauto].
  unfold comma_join. destruct (str_items_cases l) as [[x ->]| ->]; eauto.
Qed.

Lemma prepare_params_cases kwargs : forall base,
  (exists out, _prepare_params base kwargs = Ok out)
  \/ _prepare_params base kwargs = Raise TypeError.
Proof.
  induction kwargs as [|[k v] kwargs IH]; intros base; simpl; [eauto|].
  destruct (prepare_one_cases base k v) as [[p ->]| ->]; [apply IH|now right].
Qed.

Lemma prepare_params_ok_joinable kwargs : forall base out,
  _prepare_params base kwargs = Ok out -> joinable kwargs.
Proof.
  induction kwargs as [|[k v] kwargs IH]; intros base out Hrun key items Hin Hk.
  - destruct Hin.
  - simpl in Hrun. destruct (prepare_one base k v) as [p| |] eqn:Ep;
      try discriminate.
    destruct Hin as [[= -> ->]|Hin]; [|exact (IH _ _ Hrun key items Hin Hk)].
    unfold prepare_one in Ep. cbn [Py.is_none] in Ep.
    rewrite (comma_keys_not_json _ Hk), Hk in Ep. cbn [andb] in Ep.
    unfold comma_join in Ep.
    destruct (str_items items) eqn:Ei; try discriminate.
    exact (str_items_forall _ _ Ei).
Qed.

(** X6.  [_prepare_params] fails in one way only: it raises [TypeError]
    exactly when a list given for [fields], [action_attribution_windows],
    [action_breakdowns] or [breakdowns] holds something that is no string;
    in every other case it returns a mapping. *)
Theorem prepare_params_failure (base : dict) (kwargs : list (string * value)) :
  (joinable kwargs <-> exists out, _prepare_params base kwargs = Ok out)
  /\ (~ joinable kwargs <-> _prepare_params base kwargs = Raise TypeError).
Proof.
  split; split.
  - apply prepare_params_total.
  - intros [out Hrun]. exact (prepare_params_ok_joinable _ _ _ Hrun).
  - intros Hnot. destruct (prepare_params_cases kwargs base) as [[out Hrun]|Hr];
      [|assumption].
    elim Hnot. exact (prepare_params_ok_joinable _ _ _ Hrun).
  - intros Hr Hj. destruct (prepare_params_total kwargs base Hj) as [out Hrun].
    congruence.
Qed.

Ltac other_key Hkey :=
  repeat match goal with
         | |- context [String.eqb ?l ?k] =>
             is_var k;
             replace (String.eqb l k) with false
               by (symmetry; apply String.eqb_neq; intros <-; apply Hkey;
                   simpl; intuition)
         end.

(** The keys [_build_insights_params] does not handle read as in the
    base mapping. *)
Lemma insights_other_keys (base : dict) (a : insights_args) (out : dict) :
  _build_insights_params base a = Ok out ->
  forall key, ~ In key insights_keys -> Dict.get out key = Dict.get base key.
Proof.
  intros Hrun. unfold _build_insights_params in Hrun.
  match type of Hrun with
  | match ?c with _ => _ end = _ => destruct c as [p| |] eqn:Hp; try discriminate
  end.
  injection Hrun as <-.
  intros key Hkey. rewrite !get_set_if. other_key Hkey.
  rewrite ?andb_false_r.
  apply (prepare_params_get_other _ _ _ _ Hp).
  intros Hin. apply Hkey. simpl in Hin |- *. intuition.
Qed.

(** X7.  In the mapping [_build_insights_params] returns, each of
    [default_summary], [use_account_attribution_setting] and
    [use_unified_attribution_setting] is the string ['true'] when its flag
    is true and is left as the base mapping has it when the flag is false:
    ['false'] is never written.  Every key outside the twenty-two that the
    function handles, the access token among them, reads as in the base
    mapping. *)
Theorem insights_flags (base : dict) (a : insights_args) (out : dict) :
  _build_insights_params base a = Ok out ->
  Dict.get out "default_summary"
    = (if Py.truthy (default_summary a) then Some (VStr "true")
       else Dict.get base "default_summary")
  /\ Dict.get out "use_account_attribution_setting"
    = (if Py.truthy (use_account_attribution_setting a)
       then Some (VStr "true")
       else Dict.get base "use_account_attribution_setting")
  /\ Dict.get out "use_unified_attribution_setting"
    = (if Py.truthy (use_unified_attribution_setting a)
       then Some (VStr "true")
       else Dict.get base "use_unified_attribution_setting")
  /\ (forall key, ~ In key insights_keys ->
        Dict.get out key = Dict.get base key).
Proof.
  intros Hrun. unfold _build_insights_params in Hrun.
  match type of Hrun with
  | match ?c with _ => _ end = _ => destruct c as [p| |] eqn:Hp; try discriminate
  end.
  injection Hrun as <-.
  split; [|split; [|split]].
  - rewrite !get_set_if; simpl String.eqb;
      rewrite ?andb_false_r, ?andb_true_r.
    destruct (Py.truthy (default_summary a)); [reflexivity|].
    apply (prepare_params_get_other _ _ _ _ Hp). simpl. intuition discriminate.
  - rewrite !get_set_if; simpl String.eqb;
      rewrite ?andb_false_r, ?andb_true_r.
    destruct (Py.truthy (use_account_attribution_setting a)); [reflexivity|].
    apply (prepare_params_get_other _ _ _ _ Hp). simpl. intuition discriminate.
  - rewrite !get_set_if; simpl String.eqb;
      rewrite ?andb_false_r, ?andb_true_r.
    destruct (Py.truthy (use_unified_attribution_setting a)); [reflexivity|].
    apply (prepare_params_get_other _ _ _ _ Hp). simpl. intuition discriminate.
  - intros key Hkey. rewrite !get_set_if. other_key Hkey.
    rewrite ?andb_false_r.
    apply (prepare_params_get_other _ _ _ _ Hp).
    intros Hin. apply Hkey. simpl in Hin |- *. intuition.
Qed.



End MoreParameters.

Section MoreInsights.
Context {R : Runtime}.
Variable proc : process.



(** *** A fetch that fails *)

Lemma drain_reaches next (st : state R) pages next' st' :
  reaches next st pages next' st' ->
  forall fuel rows,
    drain_pages (length pages + fuel) rows next st
      = drain_pages fuel (rows ++ all_rows pages)%list next' st'.
Proof.
  induction 1 as [next st|next st page st1 pages next' st2 Hnext Hfetch _ IH];
    intros fuel rows.
  - unfold all_rows. simpl. now rewrite app_nil_r.
  - simpl. rewrite Hnext. unfold bind. rewrite Hfetch.
    rewrite IH. unfold all_rows. simpl. now rewrite app_assoc.
Qed.

Lemma drain_stops fuel rows next' (st1 st2 : state R) r :
  Py.truthy next' = true ->
  fetch_pagination_url next' st1 = (r, st2) ->
  match r with
  | Ok (VDict _) => True
  | Ok _ => drain_pages (S fuel) rows next' st1 = (Raise AttributeError, st2)
  | Raise e => drain_pages (S fuel) rows next' st1 = (Raise e, st2)
  | OutOfFuel => True
  end.
Proof.
  intros Hnext Hfetch. simpl. rewrite Hnext. unfold bind. rewrite Hfetch.
  now destruct r as [[]| |].
Qed.

Lemma drain_fails next (st : state R) pages next' st1 r st2 fuel rows :
  reaches next st pages next' st1 ->
  Py.truthy next' = true ->
  fetch_pagination_url next' st1 = (r, st2) ->
  length pages < fuel ->
  match r with
  | Ok (VDict _) => True
  | Ok _ => drain_pages fuel rows next st = (Raise AttributeError, st2)
  | Raise e => drain_pages fuel rows next st = (Raise e, st2)
  | OutOfFuel => True
  end.
Proof.
  intros Hreach Hnext Hfetch Hfuel.
  replace fuel with (length pages + S (fuel - S (length pages))) by lia.
  rewrite (drain_reaches _ _ _ _ _ Hreach).
  exact (drain_stops _ _ _ _ _ _ Hnext Hfetch).
Qed.

(** X9.  When a fetch of a further page fails, after any number of pages
    fetched well, [get_adaccount_insights] and [list_ad_accounts] raise
    the error of that fetch and return nothing of what they gathered; a
    page that is no JSON object makes them raise [AttributeError]. *)
Theorem failed_page_propagates
  (fuel : nat) (pages : list value) (next' : value) (st0 st1 st2 : state R) :
  length pages < fuel ->
  Py.truthy next' = true ->
  (forall act_id a st envelope,
     adaccount_insights_request proc act_id a st = (Ok (VDict envelope), st0) ->
     reaches (next_of envelope) st0 pages next' st1 ->
     (forall e,
        fetch_pagination_url next' st1 = (Raise e, st2) ->
        get_adaccount_insights proc fuel act_id a st = (Raise e, st2))
     /\ (forall page,
        fetch_pagination_url next' st1 = (Ok page, st2) ->
        Py.is_dict page = false ->
        get_adaccount_insights proc fuel act_id a st
          = (Raise AttributeError, st2)))
  /\ (forall st result_d section,
     ad_accounts_request proc st = (Ok (VDict result_d), st0) ->
     Dict.get_none result_d "adaccounts" = VDict section ->
     data_listed section ->
     reaches (next_of section) st0 pages next' st1 ->
     (forall e,
        fetch_pagination_url next' st1 = (Raise e, st2) ->
        list_ad_accounts proc fuel st = (Raise e, st2))
     /\ (forall page,
        fetch_pagination_url next' st1 = (Ok page, st2) ->
        Py.is_dict page = false ->
        list_ad_accounts proc fuel st = (Raise AttributeError, st2))).
Proof.
  intros Hfuel Hnext. split.
  - intros act_id a st envelope Hreq Hreach.
    unfold get_adaccount_insights, bind. rewrite Hreq.
    unfold drain_insights, bind. split.
    + intros e Hfetch.
      now rewrite (drain_fails _ _ _ _ _ _ _ fuel _ Hreach Hnext Hfetch Hfuel).
    + intros page Hfetch Hpage.
      pose proof (drain_fails _ _ _ _ _ _ _ fuel
                    match Dict.get_none envelope "data" with
                    | VList rows => rows
                    | _ => []
                    end Hreach Hnext Hfetch Hfuel) as H.
      destruct page; try discriminate Hpage; now rewrite H.
  - intros st result_d section Hreq Hsec Hdata Hreach.
    unfold list_ad_accounts, bind. rewrite Hreq.
    unfold drain_accounts, attr_get. rewrite Hsec. run.
    rewrite (py_list_listed _ Hdata). split.
    + intros e Hfetch.
      now rewrite (drain_fails _ _ _ _ _ _ _ fuel _ Hreach Hnext Hfetch Hfuel).
    + intros page Hfetch Hpage.
      pose proof (drain_fails _ _ _ _ _ _ _ fuel
                    (page_rows (VDict section)) Hreach Hnext Hfetch Hfuel) as H.
      destruct page; try discriminate Hpage; now rewrite H.
Qed.

End MoreInsights.

Section Responses.
Context {R : Runtime}.
Variable proc : process.

(** A token that was looked up is held by the session from then on. *)
Lemma token_held (st st1 : state R) tok :
  _get_fb_access_token proc st = (Ok tok, st1) ->
  FB_ACCESS_TOKEN st1 = tok /\ Py.is_none tok = false
  /\ world st1 = world st.
Proof.
  intros Hrun. destruct (token_frame proc _ _ _ Hrun) as [Hw _].
  enough (FB_ACCESS_TOKEN st1 = tok /\ Py.is_none tok = false) by tauto.
  revert Hrun. clear Hw.
  unfold _get_fb_access_token, _ensure_fb_token_from_config; run.
  destruct (Py.is_none (FB_ACCESS_TOKEN st)) eqn:Hn.
  2:{ now intros [= <- <-]. }
  destruct (Py.truthy (FB_ACCESS_TOKEN st)) eqn:Ht; run.
  { destruct (FB_ACCESS_TOKEN st); discriminate. }
  clear Hn Ht.
  destruct (Py.truthy _) eqn:Hc; run.
  { intros [= <- <-]. split; [reflexivity|].
    destruct (match _load_config_from_env proc with
              | VDict d => Dict.get_none d "fbToken"
              | _ => VNone
              end); now try discriminate. }
  destruct (Py.index _ _); [|discriminate].
  destruct (nth_error _ _); run; [|discriminate].
  now intros [= <- <-].
Qed.

Lemma call_body url params (st st' : state R) page :
  _make_graph_api_call url params st = (Ok page, st') ->
  requests_get (VStr url) (Some params) (world st) = (Body page, world st')
  /\ FB_ACCESS_TOKEN st' = FB_ACCESS_TOKEN st.
Proof.
  unfold _make_graph_api_call, http.
  destruct (requests_get _ _ _) as [[body|msg] w]; [|discriminate].
  now intros [= <- <-].
Qed.

Lemma object_tool_request path build (st st' : state R) page :
  object_tool proc path build st = (Ok page, st') ->
  exists params,
    build (FB_ACCESS_TOKEN st') = Ok params
    /\ requests_get (VStr (FB_GRAPH_URL ++ "/" ++ path)) (Some params)
         (world st) = (Body page, world st')
    /\ Py.is_none (FB_ACCESS_TOKEN st') = false.
Proof.
  unfold object_tool. unfold bind at 1.
  destruct (_get_fb_access_token proc st) as [[tok| |] st1] eqn:Etok;
    try discriminate.
  destruct (token_held _ _ _ Etok) as (Hheld & Hset & Hw).
  unfold bind, lift. destruct (build tok) as [params| |] eqn:Hb;
    try discriminate.
  intros Hcall. apply call_body in Hcall as [Hget Htok].
  rewrite Htok, Hheld. exists params.
  split; [exact Hb|]. split; [now rewrite <- Hw|exact Hset].
Qed.

Lemma account_tool_request act_id edge build (st st' : state R) page :
  account_tool proc act_id edge build st = (Ok page, st') ->
  exists params st1 id st2,
    build (FB_ACCESS_TOKEN st') = Ok params
    /\ world st1 = world st
    /\ _resolve_act_id proc act_id st1 = (Ok id, st2)
    /\ requests_get (VStr (FB_GRAPH_URL ++ "/" ++ py_str id ++ "/" ++ edge))
         (Some params) (world st2) = (Body page, world st')
    /\ Py.is_none (FB_ACCESS_TOKEN st') = false.
Proof.
  unfold account_tool. unfold bind at 1.
  destruct (_get_fb_access_token proc st) as [[tok| |] st1] eqn:Etok;
    try discriminate.
  destruct (token_held _ _ _ Etok) as (Hheld & Hset & Hw).
  unfold bind at 1.
  destruct (_resolve_act_id proc act_id st1) as [[id| |] st2] eqn:Eres;
    try discriminate.
  assert (FB_ACCESS_TOKEN st2 = tok) as Hkept.
  { destruct (frames_resolve proc act_id _ _ _ Eres) as [_ Hsame].
    rewrite Hsame; rewrite Hheld; [reflexivity|exact Hset]. }
  unfold bind, lift. destruct (build tok) as [params| |] eqn:Hb;
    try discriminate.
  intros Hcall. apply call_body in Hcall as [Hget Htok].
  rewrite Htok, Hkept. exists params, st1, id, st2.
  repeat split; assumption.
Qed.

(** The token is the first entry of what a tool builds, and stays. *)
Ltac built_token Hb :=
  revert Hb;
  unfold ads_by_adaccount_params, ads_by_parent_params,
    adsets_by_adaccount_params, campaigns_by_adaccount_params,
    activities_params, adsets_by_ids_params, with_fields, put, put_given,
    put_json;
  repeat match goal with
         | |- context [if Py.truthy ?x then _ else _] =>
             destruct (Py.truthy x)
         | |- context [match py_join ?x with _ => _ end] =>
             destruct (py_join x); try discriminate
         end;
  intros [= <-];
  repeat (rewrite get_set_if || rewrite DictFacts.get_set);
  simpl String.eqb; rewrite ?andb_false_r; reflexivity.

(** X10.  Every tool but [set_access_token], [fetch_pagination_url] and
    the two that drain returns, when it returns, the body of one request
    as it came: the request goes to a path under the Graph URL and carries
    as [access_token] the token the session holds afterwards.  A tool on
    an object makes that request in the world it was called in; a tool on
    an ad account makes it after resolving the account, to a path that
    starts with the identifier resolved. *)
Theorem result_is_response_body
  (fuel : nat) (call : invocation) (st st' : state R) (page : value) :
  single_request call = true ->
  invoke proc fuel call st = (Ok page, st') ->
  exists path params w,
    requests_get (VStr (FB_GRAPH_URL ++ "/" ++ path)) (Some params) w
      = (Body page, world st')
    /\ Dict.get params "access_token" = Some (FB_ACCESS_TOKEN st')
    /\ Py.is_none (FB_ACCESS_TOKEN st') = false
    /\ match account_of call with
       | None => w = world st
       | Some act_id =>
           exists st1 id st2 rest,
             world st1 = world st
             /\ _resolve_act_id proc act_id st1 = (Ok id, st2)
             /\ w = world st2
             /\ path = py_str id ++ rest
       end.
Proof.
  intros Hsingle.
  destruct call; try discriminate Hsingle; cbn [invoke account_of];
    unfold get_campaign_insights, get_adset_insights, get_ad_insights,
      get_ad_creative_by_id, get_ad_creatives_by_ad_id, get_ad_by_id,
      get_ads_by_adaccount, get_ads_by_campaign, get_ads_by_adset,
      get_adset_by_id, get_adsets_by_ids, get_adsets_by_adaccount,
      get_adsets_by_campaign, get_campaign_by_id, get_campaigns_by_adaccount,
      get_activities_by_adaccount, get_activities_by_adset;
    intros Hrun;
    try (apply object_tool_request in Hrun as (params & Hb & Hget & Hset);
         eexists _, params, _; split; [exact Hget|];
         split; [built_token Hb|]; split; [exact Hset|reflexivity]);
    try (apply account_tool_request in Hrun
           as (params & st1 & id & st2 & Hb & Hw & Hres & Hget & Hset);
         eexists _, params, _; split; [exact Hget|];
         split; [built_token Hb|]; split; [exact Hset|];
         exists st1, id, st2; eexists; repeat split; eassumption).
  - (* get_details_of_ad_account *)
    revert Hrun. unfold get_details_of_ad_account. unfold bind at 1.
    destruct (_resolve_act_id proc act_id st) as [[id| |] st2] eqn:Eres;
      try discriminate.
    intros Hrun.
    change (_fetch_node proc id ?k) with
      (object_tool proc (py_str id)
         (fun tok => _prepare_params [("access_token", tok)] k)) in Hrun.
    apply object_tool_request in Hrun as (params & Hb & Hget & Hset).
    exists (py_str id), params, (world st2). split; [exact Hget|].
    split; [|split; [exact Hset|]].
    + rewrite (prepare_params_get_other _ _ _ _ Hb);
        [reflexivity|simpl; intuition discriminate].
    + exists st, id, st2, "". repeat split; try assumption.
      clear. induction (py_str id) as [|c s IH]; simpl; congruence.
  - (* get_campaign_insights *)
    change (object_insights proc ?l ?i ?a) with
      (object_tool proc (i ++ "/insights")
         (fun tok => _build_insights_params [("access_token", tok)]
            (with_level a (if Py.truthy (level a) then level a else VStr l))))
      in Hrun.
    apply object_tool_request in Hrun as (params & Hb & Hget & Hset).
    eexists _, params, _. split; [exact Hget|].
    split; [|split; [exact Hset|reflexivity]].
    rewrite (insights_other_keys _ _ _ Hb); [reflexivity|].
    unfold insights_keys. simpl. intuition discriminate.
  - change (object_insights proc ?l ?i ?a) with
      (object_tool proc (i ++ "/insights")
         (fun tok => _build_insights_params [("access_token", tok)]
            (with_level a (if Py.truthy (level a) then level a else VStr l))))
      in Hrun.
    apply object_tool_request in Hrun as (params & Hb & Hget & Hset).
    eexists _, params, _. split; [exact Hget|].
    split; [|split; [exact Hset|reflexivity]].
    rewrite (insights_other_keys _ _ _ Hb); [reflexivity|].
    unfold insights_keys. simpl. intuition discriminate.
  - change (object_insights proc ?l ?i ?a) with
      (object_tool proc (i ++ "/insights")
         (fun tok => _build_insights_params [("access_token", tok)]
            (with_level a (if Py.truthy (level a) then level a else VStr l))))
      in Hrun.
    apply object_tool_request in Hrun as (params & Hb & Hget & Hset).
    eexists _, params, _. split; [exact Hget|].
    split; [|split; [exact Hset|reflexivity]].
    rewrite (insights_other_keys _ _ _ Hb); [reflexivity|].
    unfold insights_keys. simpl. intuition discriminate.
Qed.

End Responses.

Section Listings.
Context {R : Runtime}.

Ltac built Hb :=
  revert Hb;
  unfold campaigns_by_adaccount_params, activities_params, with_fields,
    sent_joined;
  match goal with
  | |- context [if Py.truthy ?x then match py_join ?x with _ => _ end else _] =>
      destruct (Py.truthy x);
      [destruct (py_join x); try discriminate|]
  end;
  intros [= <-]; unfold put, put_given, put_json, sent_if_true, sent_if_given,
    sent_as_json.

Ltac unlisted Hkey :=
  repeat match goal with
         | |- context [String.eqb ?l ?k] =>
             is_var k;
             replace (String.eqb l k) with false
               by (symmetry; apply String.eqb_neq; intros <-; apply Hkey;
                   simpl; intuition)
         end.

Ltac looked_up :=
  repeat (rewrite get_set_if || rewrite DictFacts.get_set);
  cbn [Dict.get]; simpl String.eqb; rewrite ?andb_false_r, ?andb_true_r;
  cbv iota;
  repeat match goal with
         | |- context [Py.is_none ?x] => destruct (Py.is_none x)
         | |- context [Py.truthy ?x] => destruct (Py.truthy x)
         end;
  try reflexivity.

(** X11.  The parameters of the listing tools.  The tools that list the
    ads, ad sets and campaigns of an account, and the ads and ad sets of a
    campaign or an ad set, build their parameters as
    [get_campaigns_by_adaccount] does with the arguments they lack left
    out.  Of what that tool builds: [limit], [is_completed] and
    [include_drafts] are sent whenever they are not [None], so [0] and
    [False] are sent; [after], [before], [date_preset], [updated_since]
    and [date_format] are sent when they count as true; [filtering],
    [time_range], [effective_status], [special_ad_categories], [objective]
    and [buyer_guarantee_agreement_status] are sent JSON-encoded when they
    count as true, so an empty list is not sent; [fields] is sent
    comma-joined; and no other key is sent. *)
Theorem listing_parameters :
  (forall fields filtering limit after before date_preset time_range
     updated_since effective_status tok,
     ads_by_adaccount_params fields filtering limit after before date_preset
       time_range updated_since effective_status tok
     = campaigns_by_adaccount_params fields filtering limit after before
         date_preset time_range updated_since effective_status VNone VNone
         VNone VNone VNone VNone tok)
  /\ (forall fields filtering limit after before date_preset time_range
        updated_since effective_status date_format tok,
     adsets_by_adaccount_params fields filtering limit after before
       date_preset time_range updated_since effective_status date_format tok
     = campaigns_by_adaccount_params fields filtering limit after before
         date_preset time_range updated_since effective_status VNone VNone
         VNone VNone date_format VNone tok)
  /\ (forall fields filtering limit after before effective_status date_format
        tok,
     ads_by_parent_params fields filtering limit after before effective_status
       date_format tok
     = campaigns_by_adaccount_params fields filtering limit after before
         VNone VNone VNone effective_status VNone VNone VNone VNone
         date_format VNone tok)
  /\ (forall fields filtering limit after before date_preset time_range
        updated_since effective_status is_completed special_ad_categories
        objective buyer_guarantee_agreement_status date_format include_drafts
        tok params,
     campaigns_by_adaccount_params fields filtering limit after before
       date_preset time_range updated_since effective_status is_completed
       special_ad_categories objective buyer_guarantee_agreement_status
       date_format include_drafts tok = Ok params ->
     Dict.get params "access_token" = Some tok
     /\ Dict.get params "fields" = sent_joined fields
     /\ Dict.get params "limit" = sent_if_given limit
     /\ Dict.get params "is_completed" = sent_if_given is_completed
     /\ Dict.get params "include_drafts" = sent_if_given include_drafts
     /\ Dict.get params "after" = sent_if_true after
     /\ Dict.get params "before" = sent_if_true before
     /\ Dict.get params "date_preset" = sent_if_true date_preset
     /\ Dict.get params "updated_since" = sent_if_true updated_since
     /\ Dict.get params "date_format" = sent_if_true date_format
     /\ Dict.get params "filtering" = sent_as_json filtering
     /\ Dict.get params "time_range" = sent_as_json time_range
     /\ Dict.get params "effective_status" = sent_as_json effective_status
     /\ Dict.get params "special_ad_categories"
        = sent_as_json special_ad_categories
     /\ Dict.get params "objective" = sent_as_json objective
     /\ Dict.get params "buyer_guarantee_agreement_status"
        = sent_as_json buyer_guarantee_agreement_status
     /\ (forall key, ~ In key listing_keys -> Dict.get params key = None)).
Proof.
  split; [reflexivity|]. split; [reflexivity|]. split; [reflexivity|].
  intros fields filtering limit after before date_preset time_range
    updated_since effective_status is_completed special_ad_categories
    objective buyer_guarantee_agreement_status date_format include_drafts
    tok params Hb.
  repeat split; try (intros key Hkey); built Hb;
    try (repeat (rewrite get_set_if || rewrite DictFacts.get_set);
         cbn [Dict.get]; unlisted Hkey; rewrite ?andb_false_r; cbv iota;
         reflexivity);
    looked_up.
Qed.

(** X12.  The time window of the activity tools: a [time_range] that
    counts as true is sent JSON-encoded and silences [since] and [until];
    without it, [since] and [until] are sent when they count as true.
    [limit] is sent whenever it is not [None], and the token always. *)
Theorem activities_window
  (fields limit after before time_range since until tok : value)
  (params : dict) :
  activities_params fields limit after before time_range since until tok
    = Ok params ->
  Dict.get params "time_range" = sent_as_json time_range
  /\ Dict.get params "since"
     = (if Py.truthy time_range then None else sent_if_true since)
  /\ Dict.get params "until"
     = (if Py.truthy time_range then None else sent_if_true until)
  /\ Dict.get params "limit" = sent_if_given limit
  /\ Dict.get params "fields" = sent_joined fields
  /\ Dict.get params "access_token" = Some tok.
Proof.
  intros Hb.
  repeat split; built Hb; destruct (Py.truthy time_range); looked_up.
Qed.

End Listings.

Section TokenSetting.
Context {R : Runtime}.
Variable proc : process.

Lemma set_access_token_accepted access_token act_id act_name (st st' : state R)
  r token :
  Py.nonblank access_token = Some token ->
  set_access_token access_token act_id act_name st = (r, st') ->
  st' = mkState (VStr token) (seeded_account act_id act_name) (world st).
Proof.
  intros Htok. unfold set_access_token. rewrite Htok.
  destruct (Py.nonblank act_id) as [a|] eqn:Ha.
  - assert (Py.truthy act_id = true) as Ht.
    { apply nonblank_str in Ha as (s & -> & _ & Hs). simpl.
      destruct s; [now elim Hs|reflexivity]. }
    rewrite Ht. run. rewrite (set_default_nonblank _ _ a) by (cbn; assumption).
    now intros [= _ <-].
  - assert (seeded_account act_id act_name = VNone) as Hs
      by (unfold seeded_account; now rewrite Ha).
    rewrite Hs. destruct (Py.truthy act_id); run.
    + rewrite set_default_blank by assumption. now intros [= _ <-].
    + now intros [= _ <-].
Qed.

(** X13.  What [set_access_token] leaves is what the tools then use,
    whatever the configuration of the process.  After a call with a token
    that is not blank, the token lookup returns the stripped token without
    consulting [MCP_CONFIG] or the command line, and, when an [act_id]
    that is not blank came with it, a tool called without [act_id]
    resolves the [act_]-prefixed form of it without any request.  A call
    with a blank token, or one that is no string, raises and leaves the
    session as it was. *)
Theorem set_token_prevails
  (access_token act_id act_name : value) (st st' : state R) (r : outcome value) :
  set_access_token access_token act_id act_name st = (r, st') ->
  match Py.nonblank access_token with
  | Some token =>
      _get_fb_access_token proc st' = (Ok (VStr token), st')
      /\ (forall a, Py.nonblank act_id = Some a ->
            _resolve_act_id proc VNone st' = (Ok (VStr (canonical a)), st'))
  | None =>
      r = Raise (ValueError "A non-empty Facebook access token must be provided.")
      /\ st' = st
  end.
Proof.
  intros Hrun. destruct (Py.nonblank access_token) as [token|] eqn:Htok.
  - rewrite (set_access_token_accepted _ _ _ _ _ _ _ Htok Hrun). split.
    + now rewrite token_cached.
    + intros a Ha.
      destruct (seeded_id act_id act_name a Ha) as (d & Hd & Hid).
      rewrite resolve_cached by (cbn [DEFAULT_AD_ACCOUNT]; now rewrite Hd).
      cbn [DEFAULT_AD_ACCOUNT]. rewrite Hd, Hid.
      now rewrite canonical_truthy.
  - revert Hrun. unfold set_access_token. rewrite Htok. now intros [= <- <-].
Qed.

End TokenSetting.

Section MoreAccounts.

Lemma eqb_truthy v w : Py.eqb v w = true -> Py.truthy v = Py.truthy w.
Proof.
  destruct v as [|b|x|x|x|x], w as [|c|y|y|y|y]; cbn [Py.eqb Py.truthy];
    try discriminate; try reflexivity; intros H.
  - now apply Bool.eqb_prop in H.
  - apply Z.eqb_eq in H. subst y. now destruct b.
  - apply Z.eqb_eq in H. subst x. now destruct c.
  - apply Z.eqb_eq in H. now subst y.
  - apply String.eqb_eq in H. now subst y.
Qed.

Lemma has_id_falsy v x : Py.truthy v = false -> has_id v x = false.
Proof.
  intros Hv. unfold has_id.
  destruct (Py.truthy (account_id_of x)) eqn:Hx; [|reflexivity].
  destruct (Py.eqb v (account_id_of x)) eqn:E; [|reflexivity].
  apply eqb_truthy in E. congruence.
Qed.

Lemma existsb_has_id_falsy v l :
  Py.truthy v = false -> existsb (has_id v) l = false.
Proof.
  intros Hv. induction l as [|x l IH]; [reflexivity|].
  simpl. now rewrite IH, has_id_falsy.
Qed.

(** No survivor repeats an identifier met before it. *)
Lemma survivors_fresh accounts : forall earlier before account after,
  survivors earlier accounts = (before ++ account :: after)%list ->
  existsb (has_id (account_id_of account)) (earlier ++ before) = false.
Proof.
  induction accounts as [|x accounts IH]; intros earlier before account after.
  - simpl. now destruct before.
  - simpl.
    destruct (Py.truthy (account_id_of x)
              && existsb (has_id (account_id_of x)) earlier) eqn:Hdrop.
    + intros Hsplit. specialize (IH _ _ _ _ Hsplit).
      rewrite <- app_assoc in IH. rewrite !existsb_app in IH.
      rewrite existsb_app.
      apply orb_false_elim in IH as [He IH].
      apply orb_false_elim in IH as [_ Hb]. now rewrite He, Hb.
    + destruct before as [|b before]; simpl; intros [= <- Hsplit].
      * rewrite app_nil_r.
        destruct (Py.truthy (account_id_of x)) eqn:Ht;
          [exact Hdrop|now apply existsb_has_id_falsy].
      * specialize (IH _ _ _ _ Hsplit).
        now rewrite <- app_assoc in IH.
Qed.

Lemma subseq_hashable (l1 l2 : list value) :
  subseq l1 l2 -> ids_hashable l2 -> ids_hashable l1.
Proof.
  unfold ids_hashable.
  induction 1 as [|x l1 l2 _ IH|x l1 l2 _ IH]; intros H;
    [constructor|inversion H; subst; now apply IH|].
  inversion H; subst. constructor; [assumption|now apply IH].
Qed.

Lemma subseq_length {A : Type} (l1 l2 : list A) :
  subseq l1 l2 -> length l1 <= length l2.
Proof. induction 1; simpl; lia. Qed.

Lemma dedup_unhashable accounts : forall seen,
  Exists (fun account =>
            Py.truthy (account_id_of account) = true
            /\ Py.hashable (account_id_of account) = false) accounts ->
  dedup_accounts seen accounts = Raise TypeError.
Proof.
  induction accounts as [|x accounts IH]; intros seen Hex;
    [inversion Hex|].
  simpl. inversion Hex as [? ? [Ht Hh]|? ? Hrest]; subst.
  - now rewrite Ht, Hh.
  - destruct (Py.truthy (account_id_of x)); [|now rewrite IH].
    destruct (Py.hashable (account_id_of x)); [|reflexivity]. simpl.
    destruct (existsb _ seen); now rewrite IH.
Qed.

Lemma unhashable_exists accounts :
  ~ ids_hashable accounts ->
  Exists (fun account =>
            Py.truthy (account_id_of account) = true
            /\ Py.hashable (account_id_of account) = false) accounts.
Proof.
  unfold ids_hashable. induction accounts as [|x accounts IH]; intros Hn.
  - elim Hn. constructor.
  - destruct (Py.truthy (account_id_of x)) eqn:Ht,
             (Py.hashable (account_id_of x)) eqn:Hh;
      try (apply Exists_cons_tl, IH; intros Hrest; apply Hn;
           constructor; [congruence|assumption]).
    apply Exists_cons_hd. now split.
Qed.

(** X14.  The de-duplication of [list_ad_accounts] fails in one way only:
    it raises [TypeError] exactly when some record carries an identifier
    that cannot be hashed (a list or a dict that counts as true).
    Otherwise it returns a list in which no record repeats the identifier
    of a record before it, never longer than the list it was given, and
    which a second de-duplication returns as it is. *)
Theorem dedup_outcome (accounts : list value) :
  (~ ids_hashable accounts <-> dedup_accounts [] accounts = Raise TypeError)
  /\ (ids_hashable accounts ->
      exists out,
        dedup_accounts [] accounts = Ok out
        /\ distinct_ids out
        /\ length out <= length accounts
        /\ dedup_accounts [] out = Ok out).
Proof.
  assert (ids_hashable accounts ->
          dedup_accounts [] accounts = Ok (survivors [] accounts)) as Hok
    by (intros H; apply dedup_survivors; [assumption|reflexivity]).
  split; [split|].
  - intros Hn. now apply dedup_unhashable, unhashable_exists.
  - intros Hraise Hhash. rewrite (Hok Hhash) in Hraise. discriminate.
  - intros Hhash. exists (survivors [] accounts).
    pose proof (survivors_subseq accounts []) as Hsub.
    assert (distinct_ids (survivors [] accounts)) as Hdistinct.
    { intros before account after Hsplit.
      exact (survivors_fresh _ _ _ _ _ Hsplit). }
    split; [exact (Hok Hhash)|]. split; [exact Hdistinct|].
    split; [exact (subseq_length _ _ Hsub)|].
    rewrite (dedup_survivors _ [] []);
      [|exact (subseq_hashable _ _ Hsub Hhash)|reflexivity].
    f_equal. apply survivors_distinct. exact Hdistinct.
Qed.

End MoreAccounts.

Section Edges.
Context {R : Runtime}.
Variable proc : process.

Lemma pop_keys (d : dict) k k' :
  In k' (map fst (Dict.pop d k)) -> In k' (map fst d) /\ k' <> k.
Proof.
  unfold Dict.pop. rewrite in_map_iff. intros ([k0 v] & <- & Hin).
  apply filter_In in Hin as [Hin Hk]. simpl in *. split.
  - apply in_map_iff. now exists (k0, v).
  - intros ->. now rewrite String.eqb_refl in Hk.
Qed.

Lemma wire_plain key v :
  Py.mem key comma_joined_keys = false ->
  Py.mem key json_encoded_keys = false ->
  wire_encoding key v = v.
Proof. intros Hc Hj. unfold wire_encoding. rewrite Hc, Hj. now destruct v. Qed.

Lemma truthy_given v : Py.truthy v = true -> Py.is_none v = false.
Proof. now destruct v. Qed.

(** What [_prepare_params] makes of the time parameters of the
    [activities] edge. *)
Lemma activity_time_prepared time_range since until timed :
  _prepare_params [] (activity_time_params time_range since until) = Ok timed ->
  timed
  = if Py.truthy time_range
    then [("time_range", wire_encoding "time_range" time_range)]
    else ((if Py.truthy since then [("since", since)] else [])
            ++ (if Py.truthy until then [("until", until)] else []))%list.
Proof.
  unfold activity_time_params, set_if.
  destruct (Py.truthy time_range) eqn:Hr.
  - simpl. destruct (prepare_one _ _ _) eqn:E; try discriminate.
    intros [= <-]. apply prepare_one_spec in E.
    now rewrite (truthy_given _ Hr) in E.
  - destruct (Py.truthy since) eqn:Hs, (Py.truthy until) eqn:Hu; simpl;
      repeat (destruct (prepare_one _ _ _) eqn:?E; try discriminate;
              apply prepare_one_spec in E; subst);
      intros [= <-];
      rewrite ?(truthy_given _ Hs), ?(truthy_given _ Hu);
      rewrite ?wire_plain by reflexivity; reflexivity.
Qed.

(** X15.  The time window of the edge helper.  On the [activities] edge,
    [_fetch_edge] sends a [time_range] that counts as true in its wire
    form and then neither [since] nor [until]; without it, [since] and
    [until] are sent when they count as true; none of the three reaches
    the request any other way.  On every other edge the keyword
    arguments are sent as [_prepare_params] encodes them, so [since] and
    [until] go out beside [time_range] whenever they are not [None]. *)
Theorem fetch_edge_time_window
  (parent_id : value) (edge_name : string) (kwargs : list (string * value))
  (st st' : state R) (page : value) :
  _fetch_edge proc parent_id edge_name kwargs st = (Ok page, st') ->
  exists tok st1 params,
    _get_fb_access_token proc st = (Ok tok, st1)
    /\ requests_get
         (VStr (FB_GRAPH_URL ++ "/" ++ py_str parent_id ++ "/" ++ edge_name))
         (Some params) (world st) = (Body page, world st')
    /\ (edge_name = "activities" ->
        let time_range := Dict.get_none kwargs "time_range" in
        Dict.get params "time_range"
          = (if Py.truthy time_range
             then Some (wire_encoding "time_range" time_range) else None)
        /\ Dict.get params "since"
           = (if Py.truthy time_range then None
              else sent_if_true (Dict.get_none kwargs "since"))
        /\ Dict.get params "until"
           = (if Py.truthy time_range then None
              else sent_if_true (Dict.get_none kwargs "until")))
    /\ (edge_name <> "activities" ->
        NoDup (map fst kwargs) ->
        forall key,
          Dict.get params key
          = match Dict.get kwargs key with
            | Some v =>
                if Py.is_none v then Dict.get [("access_token", tok)] key
                else Some (wire_encoding key v)
            | None => Dict.get [("access_token", tok)] key
            end).
Proof.
  unfold _fetch_edge. unfold bind at 1.
  destruct (_get_fb_access_token proc st) as [[tok| |] st1] eqn:Etok;
    try discriminate.
  destruct (token_frame proc _ _ _ Etok) as [Hw _].
  unfold bind at 1. unfold lift at 1.
  destruct (_prepare_params [("access_token", tok)] _) as [p| |] eqn:Hp;
    try discriminate.
  unfold bind at 1. unfold lift at 1.
  destruct (_prepare_params [] _) as [timed| |] eqn:Ht; try discriminate.
  intros Hcall. apply call_body in Hcall as [Hget _]. rewrite Hw in Hget.
  exists tok, st1, (dict_update p timed).
  split; [reflexivity|]. split; [exact Hget|]. split.
  - intros ->. rewrite String.eqb_refl in Hp, Ht.
    apply activity_time_prepared in Ht. cbv zeta.
    assert (forall key,
              In key ["time_range"; "since"; "until"] ->
              Dict.get p key = None) as Hnone.
    { intros key Hkey.
      rewrite (prepare_params_get_other _ _ _ _ Hp).
      - simpl in Hkey. simpl.
        destruct Hkey as [<-|[<-|[<-|[]]]]; reflexivity.
      - intros Hin.
        apply pop_keys in Hin as [Hin Hu].
        apply pop_keys in Hin as [Hin Hs].
        apply pop_keys in Hin as [_ Hr].
        simpl in Hkey. intuition congruence. }
    pose proof (Hnone "time_range" ltac:(simpl; tauto)) as Hr.
    pose proof (Hnone "since" ltac:(simpl; tauto)) as Hs.
    pose proof (Hnone "until" ltac:(simpl; tauto)) as Hu.
    subst timed. unfold sent_if_true.
    destruct (Py.truthy (Dict.get_none kwargs "time_range"));
      [|destruct (Py.truthy (Dict.get_none kwargs "since")),
                 (Py.truthy (Dict.get_none kwargs "until"))];
      unfold dict_update; simpl fold_left;
      rewrite ?DictFacts.get_set; simpl String.eqb; auto.
  - intros Hedge Hnd key.
    apply String.eqb_neq in Hedge. rewrite Hedge in Hp, Ht.
    simpl in Ht. injection Ht as <-. unfold dict_update. simpl fold_left.
    exact (prepare_params_get _ _ _ Hnd Hp key).
Qed.

End Edges.

Section FirstResponses.
Context {R : Runtime}.
Variable proc : process.

(** X16.  First responses that are not drained.  When the [/me] response
    is a JSON object whose [adaccounts] is missing or is no object,
    [list_ad_accounts] returns that response as it came, after its one
    request and whatever the bound on the page fetches.  When the first
    response is no JSON object at all, [list_ad_accounts] and
    [get_adaccount_insights] raise [AttributeError]. *)
Theorem undrained_responses (fuel : nat) (st st1 : state R) (result : value) :
  (ad_accounts_request proc st = (Ok result, st1) ->
   (forall d, result = VDict d ->
      Py.is_dict (Dict.get_none d "adaccounts") = false ->
      list_ad_accounts proc fuel st = (Ok result, st1))
   /\ (Py.is_dict result = false ->
       list_ad_accounts proc fuel st = (Raise AttributeError, st1)))
  /\ (forall act_id a,
      adaccount_insights_request proc act_id a st = (Ok result, st1) ->
      Py.is_dict result = false ->
      get_adaccount_insights proc fuel act_id a st
        = (Raise AttributeError, st1)).
Proof.
  split.
  - intros Hreq. unfold list_ad_accounts, bind. rewrite Hreq. split.
    + intros d -> Hsection. unfold drain_accounts, attr_get. run.
      now destruct (Dict.get_none d "adaccounts").
    + intros Hresult. unfold drain_accounts, attr_get. run.
      now destruct result.
  - intros act_id a Hreq Hresult.
    unfold get_adaccount_insights, bind. rewrite Hreq.
    now destruct result.
Qed.

(** X17.  [get_details_of_ad_account] always sends [fields], to the node
    of the account it resolved: the fourteen default names when [fields]
    is [None], and otherwise the names given, comma-joined, so an empty
    list sends an empty [fields] and not the defaults.  Beside [fields]
    and the token it sends nothing. *)
Theorem details_fields_sent
  (act_id fields : value) (st st' : state R) (page : value) :
  get_details_of_ad_account proc act_id fields st = (Ok page, st') ->
  exists id st2 params,
    _resolve_act_id proc act_id st = (Ok id, st2)
    /\ requests_get (VStr (FB_GRAPH_URL ++ "/" ++ py_str id)) (Some params)
         (world st2) = (Body page, world st')
    /\ Dict.get params "fields"
       = Some match fields with
              | VNone => VStr (PyStr.join "," DEFAULT_AD_ACCOUNT_FIELDS)
              | VList items => VStr (PyStr.join "," (texts items))
              | other => other
              end
    /\ (forall key, key <> "fields" -> key <> "access_token" ->
          Dict.get params key = None).
Proof.
  unfold get_details_of_ad_account. unfold bind at 1.
  destruct (_resolve_act_id proc act_id st) as [[id| |] st2] eqn:Eres;
    try discriminate.
  intros Hrun.
  change (_fetch_node proc id ?k) with
    (object_tool proc (py_str id)
       (fun tok => _prepare_params [("access_token", tok)] k)) in Hrun.
  apply object_tool_request in Hrun as (params & Hb & Hget & _).
  exists id, st2, params. split; [reflexivity|]. split; [exact Hget|].
  assert (forall x : value, NoDup (map fst [("fields", x)])) as Hnd
    by (intros x; repeat constructor; simpl; tauto).
  split.
  - rewrite (prepare_params_get _ _ _ (Hnd _) Hb "fields").
    destruct fields; reflexivity.
  - intros key Hf Ha.
    rewrite (prepare_params_get_other _ _ _ _ Hb) by (simpl; intuition).
    cbn [Dict.get]. destruct (String.eqb "access_token" key) eqn:E;
      [|reflexivity].
    apply String.eqb_eq in E. now elim Ha.
Qed.

End FirstResponses.

(* ===================================================================== *)
(** ** Further examples *)
(* ===================================================================== *)

Module MoreExamples.
Import Scenario Cases.

(** *** X1 *)

Lemma access_token_sources_witness :
  _get_fb_access_token configured blank
  = (Ok (VStr "CONFIGURED"),
     @mkState Sim.runtime (VStr "CONFIGURED") VNone (Sim.remote [])).
Proof.
  destruct (access_token_sources configured blank) as (_ & Hnone & _).
  exact (proj1 (Hnone eq_refl) eq_refl).
Defined.

(** *** X2 *)

Lemma default_account_cached_witness :
  let st1 := snd (_resolve_act_id Sim.bare VNone (Sim.session table)) in
  _resolve_act_id Sim.bare VNone st1 = (Ok (VStr "act_1"), st1).
Proof.
  exact (default_account_cached Sim.bare (Sim.session table) _ (VStr "act_1")
           eq_refl).
Defined.

(** *** X3 *)

Lemma resolved_id_prefixed_witness :
  cache_ok (Sim.session table)
  /\ exists id, VStr "act_123" = VStr id /\ PyStr.startswith id "act_" = true.
Proof.
  assert (cache_ok (Sim.session table)) as Hok by (left; reflexivity).
  split; [exact Hok|].
  exact (proj2 (resolved_id_prefixed Sim.bare (VStr " 123 ") (Sim.session table)
                  (Sim.session table) (VStr "act_123") Hok eq_refl)).
Defined.

(** *** X4 *)

Lemma session_invariant_witness :
  let run := invoke Sim.bare 2 ListAdAccounts (Sim.session table) in
  cache_ok (snd run) /\ FB_ACCESS_TOKEN (snd run) = VStr "TOKEN".
Proof.
  intros run.
  destruct (session_invariant Sim.bare 2 ListAdAccounts (Sim.session table)
              (snd run) (fst run) eq_refl) as [Hcache Htoken].
  split; [apply Hcache; left; reflexivity|exact (Htoken eq_refl)].
Defined.

(** *** X5 *)

Lemma no_request_without_token_witness :
  exists e st',
    invoke Sim.bare 2 (GetAdById "123" VNone) blank = (Raise e, st')
    /\ world st' = world blank.
Proof.
  apply (no_request_without_token Sim.bare 2 (GetAdById "123" VNone) blank
           eq_refl).
  eexists. reflexivity.
Defined.

(** *** X6 *)

Lemma prepare_params_failure_witness : ~ joinable mixed_fields.
Proof.
  exact (proj2 (proj2 (prepare_params_failure (R := Sim.runtime) []
                         mixed_fields)) eq_refl).
Defined.

(** *** X7 *)

Lemma insights_flags_witness :
  exists out,
    @_build_insights_params Sim.runtime [("access_token", VStr "TOKEN")]
      (insights_defaults VNone) = Ok out
    /\ Dict.get out "use_unified_attribution_setting" = Some (VStr "true")
    /\ Dict.get out "default_summary" = None.
Proof.
  eexists. split; [reflexivity|].
  destruct (insights_flags (R := Sim.runtime)
              [("access_token", VStr "TOKEN")] (insights_defaults VNone) _
              eq_refl) as (Hsummary & _ & Hunified & _).
  split; [exact Hunified|exact Hsummary].
Defined.

(** *** X8 *)


(** *** X9 *)

Lemma broken_chain :
  reaches (next_of page1) broken_after_first [VDict page2] (VStr page3_url)
    broken_after_second.
Proof.
  eapply reaches_page; [reflexivity|reflexivity|].
  exact (reaches_here _ _).
Qed.

Lemma failed_page_propagates_witness :
  get_adaccount_insights Sim.bare 2 (VStr "act_1")
    (insights_defaults (VStr "account")) (Sim.session broken)
  = (Raise (RequestException "404 Client Error"), broken_after_failure).
Proof.
  destruct (failed_page_propagates Sim.bare 2 [VDict page2] (VStr page3_url)
              broken_after_first broken_after_second broken_after_failure
              (le_n 2) eq_refl) as [Hinsights _].
  exact (proj1 (Hinsights (VStr "act_1") (insights_defaults (VStr "account"))
                  (Sim.session broken) page1 eq_refl broken_chain)
           (RequestException "404 Client Error") eq_refl).
Defined.

(** *** X10 *)

Lemma result_is_response_body_witness :
  let call := GetDetailsOfAdAccount (VStr "1") VNone in
  let st' := snd (invoke Sim.bare 0 call (Sim.session nodes)) in
  exists path params w,
    Sim.get (VStr (FB_GRAPH_URL ++ "/" ++ path)) (Some params) w
      = (Body (VDict account), world st')
    /\ Dict.get params "access_token" = Some (FB_ACCESS_TOKEN st')
    /\ Py.is_none (FB_ACCESS_TOKEN st') = false.
Proof.
  intros call st'.
  destruct (result_is_response_body Sim.bare 0 call (Sim.session nodes) st'
              (VDict account) eq_refl eq_refl)
    as (path & params & w & Hget & Htoken & Hset & _).
  exists path, params, w. split; [exact Hget|]. split; [exact Htoken|exact Hset].
Defined.

(** *** X11 *)

Lemma listing_parameters_witness :
  exists params,
    @campaigns_by_adaccount_params Sim.runtime VNone (VList []) (VInt 0) VNone
      VNone VNone VNone (VInt 0) VNone (VBool false) VNone VNone VNone VNone
      VNone (VStr "TOKEN") = Ok params
    /\ Dict.get params "limit" = Some (VInt 0)
    /\ Dict.get params "is_completed" = Some (VBool false)
    /\ Dict.get params "updated_since" = None
    /\ Dict.get params "filtering" = None.
Proof.
  eexists. split; [reflexivity|].
  destruct (proj2 (proj2 (proj2 (listing_parameters (R := Sim.runtime))))
              VNone (VList []) (VInt 0) VNone VNone VNone VNone (VInt 0) VNone
              (VBool false) VNone VNone VNone VNone VNone (VStr "TOKEN") _
              eq_refl)
    as (_ & _ & Hlimit & Hcompleted & _ & _ & _ & _ & Hsince & _ & Hfiltering
        & _).
  split; [exact Hlimit|]. split; [exact Hcompleted|].
  split; [exact Hsince|exact Hfiltering].
Defined.

(** *** X12 *)

Lemma activities_window_witness :
  exists params,
    @activities_params Sim.runtime VNone VNone VNone VNone january (VInt 1)
      (VInt 2) (VStr "TOKEN") = Ok params
    /\ Dict.get params "time_range" = Some (VStr (Sim.dumps january))
    /\ Dict.get params "since" = None
    /\ Dict.get params "until" = None.
Proof.
  eexists. split; [reflexivity|].
  destruct (activities_window (R := Sim.runtime) VNone VNone VNone VNone
              january (VInt 1) (VInt 2) (VStr "TOKEN") _ eq_refl)
    as (Hrange & Hsince & Huntil & _).
  split; [exact Hrange|]. split; [exact Hsince|exact Huntil].
Defined.

(** *** X13 *)

Lemma set_token_prevails_witness :
  let st' := snd (set_access_token (VStr " TOKEN ") (VStr "123") VNone blank) in
  _get_fb_access_token configured st' = (Ok (VStr "TOKEN"), st')
  /\ _resolve_act_id configured VNone st' = (Ok (VStr "act_123"), st').
Proof.
  intros st'.
  destruct (set_token_prevails configured (VStr " TOKEN ") (VStr "123") VNone
              blank st'
              (fst (set_access_token (VStr " TOKEN ") (VStr "123") VNone blank))
              eq_refl) as [Htoken Haccount].
  split; [exact Htoken|exact (Haccount "123" eq_refl)].
Defined.

(** *** X14 *)

Lemma dedup_outcome_witness :
  ids_hashable rows
  /\ exists out,
       dedup_accounts [] rows = Ok out
       /\ distinct_ids out
       /\ length out <= length rows
       /\ dedup_accounts [] out = Ok out.
Proof.
  assert (ids_hashable rows) as Hhash by (repeat constructor).
  split; [exact Hhash|].
  exact (proj2 (dedup_outcome rows) Hhash).
Defined.

(** *** X15 *)

Lemma fetch_edge_time_window_witness :
  let kwargs := [("time_range", january); ("since", VInt 1); ("limit", VInt 5)] in
  exists tok st1 params,
    _get_fb_access_token Sim.bare (Sim.session nodes) = (Ok tok, st1)
    /\ Sim.get (VStr (FB_GRAPH_URL ++ "/act_1/activities")) (Some params)
         (world (Sim.session nodes))
       = (Body (VDict activities),
          world (snd (_fetch_edge Sim.bare (VStr "act_1") "activities" kwargs
                        (Sim.session nodes))))
    /\ Dict.get params "time_range" = Some (VStr (Sim.dumps january))
    /\ Dict.get params "since" = None.
Proof.
  intros kwargs.
  destruct (fetch_edge_time_window Sim.bare (VStr "act_1") "activities" kwargs
              (Sim.session nodes) _ (VDict activities) eq_refl)
    as (tok & st1 & params & Htoken & Hget & Hactivities & _).
  destruct (Hactivities eq_refl) as (Hrange & Hsince & _).
  exists tok, st1, params.
  split; [exact Htoken|]. split; [exact Hget|].
  split; [exact Hrange|exact Hsince].
Defined.

(** *** X16 *)

Lemma undrained_responses_witness :
  list_ad_accounts Sim.bare 0 (Sim.session nodes)
  = (Ok (VDict user), snd (ad_accounts_request Sim.bare (Sim.session nodes))).
Proof.
  destruct (undrained_responses Sim.bare 0 (Sim.session nodes)
              (snd (ad_accounts_request Sim.bare (Sim.session nodes)))
              (VDict user)) as [Haccounts _].
  exact (proj1 (Haccounts eq_refl) user eq_refl eq_refl).
Defined.

(** *** X17 *)

Lemma details_fields_sent_witness :
  exists id st2 params,
    _resolve_act_id Sim.bare (VStr "1") (Sim.session nodes) = (Ok id, st2)
    /\ Sim.get (VStr (FB_GRAPH_URL ++ "/" ++ @py_str Sim.runtime id))
         (Some params) (world st2)
       = (Body (VDict account),
          world (snd (get_details_of_ad_account Sim.bare (VStr "1") (VList [])
                        (Sim.session nodes))))
    /\ Dict.get params "fields" = Some (VStr "").
Proof.
  destruct (details_fields_sent Sim.bare (VStr "1") (VList [])
              (Sim.session nodes) _ (VDict account) eq_refl)
    as (id & st2 & params & Hres & Hget & Hfields & _).
  exists id, st2, params.
  split; [exact Hres|]. split; [exact Hget|exact Hfields].
Defined.

End MoreExamples.
